(** * AionUi conversation/task orchestration core

    A shallow embedding of the process-side orchestration code:
    - [conversationBridge]: the request/response providers
      ([update], [stop], [sendMessage], [confirmMessage]);
    - [GeminiAgentManager]: the task that owns bootstrap, history
      injection, the [gemini.message] interceptor and [sendMessage];
    - [GeminiAgent]: [submitQuery], [handleMessage] and the tool scheduler's
      [onAllToolCallsComplete] callback;
    - [WorkerManage]: the task registry.

    JavaScript values are modelled as the code uses them: identifiers,
    type tags and status values are strings compared with [===]; free text
    whose [length] matters is a list of UTF-16 code units; promises are
    represented by the way they settle; side effects append to an
    observation log in program order. *)

From Stdlib Require Import String Ascii List NArith Lia Bool.
From stdpp Require Import base gmap strings list.

Local Open Scope string_scope.
Local Open Scope list_scope.

(** ** JavaScript preliminaries *)

(** A JavaScript string as its UTF-16 code units: [length] and [slice]
    count code units. *)
Definition jsstring := list N.

(** An ASCII literal of the source, one code unit per character. *)
Definition lit (s : string) : jsstring :=
  map N_of_ascii (list_ascii_of_string s).

(** [x.slice(-n)] for [n > 0], on arrays and on strings: the start index is
    [max (length - n) 0]. *)
Definition slice_last {A : Type} (n : nat) (l : list A) : list A :=
  skipn (length l - n) l.

(** [lines.join(sep)]. *)
Fixpoint join (sep : jsstring) (lines : list jsstring) : jsstring :=
  match lines with
  | [] => []
  | [x] => x
  | x :: rest => x ++ sep ++ join sep rest
  end.

(** What a [throw] or a rejected promise carries. *)
Inductive js_error :=
| Error (message : string)              (* [e instanceof Error] *)
| Thrown (str : string) (json : string) (* another value: [String(e)], [JSON.stringify(e)] *)
| Nullish (null : bool).                (* [null] when [true], else [undefined] *)

(** [e?.message || JSON.stringify(e)]; an [Error] object serialises to
    [{}], and [undefined] is rendered as the empty string. *)
Definition message_or_json (e : js_error) : string :=
  match e with
  | Error m => if String.eqb m EmptyString then "{}" else m
  | Thrown _ j => j
  | Nullish null => if null then "null" else EmptyString
  end.

(** [e instanceof Error ? e.message : String(e)]. *)
Definition message_or_string (e : js_error) : string :=
  match e with
  | Error m => m
  | Thrown s _ => s
  | Nullish null => if null then "null" else "undefined"
  end.

(** [e?.message] alone; [undefined] is rendered as the empty string. *)
Definition message_of (e : js_error) : string :=
  match e with
  | Error m => m
  | Thrown _ _ => EmptyString
  | Nullish _ => EmptyString
  end.

(** The [TypeError] of reading the property [message] of [null] or of
    [undefined], with the text that V8 gives it. *)
Definition cannot_read_message (null : bool) : js_error :=
  Error ("Cannot read properties of " +:+ (if null then "null" else "undefined")
         +:+ " (reading 'message')").

(** A call that returns or throws; a promise that fulfils or rejects. *)
Inductive js_result (A : Type) :=
| Ok (a : A)
| Throw (e : js_error).
Arguments Ok {A} a.
Arguments Throw {A} e.

(** An expression that reads [e.message] without a guard: on [null] and
    [undefined] the read throws; on any other value the expression has
    the value [rendered e]. *)
Definition read_message (rendered : js_error -> string) (e : js_error) : js_result string :=
  match e with
  | Nullish null => Throw (cannot_read_message null)
  | _ => Ok (rendered e)
  end.

(** ** Shared data *)

(** [TMessage] of chatLib: a persisted chat message. *)
Record TMessage := {
  m_id : string;
  m_type : string;
  m_position : string;
  m_conversation_id : string;
  m_content : option jsstring   (* [content.content], when present *)
}.

(** [IResponseMessage] of ipcBridge: an event on the response stream.
    [conversation_id] is absent on the events the backend produces. *)
Record IResponseMessage := {
  e_type : string;
  e_data : string;
  e_msg_id : string;
  e_conversation_id : option string
}.

(** [IBridgeResponse]: the envelope of a request/response operation. *)
Record IBridgeResponse := {
  success : bool;
  msg : option string
}.

(** [TProviderWithModel]: the model descriptor bound to a conversation, as
    the ordered list of its properties, each value by its JSON text. *)
Definition TProviderWithModel := list (string * string).


(** [TChatConversation] of storage: the persisted conversation record. *)
Record TChatConversation := {
  c_id : string;
  c_type : string;
  c_name : string;
  c_model : option TProviderWithModel;
  c_workspace : string              (* [extra.workspace] *)
}.

(** ** Local message store (module [../message]) *)

Module Message.

(** Modelled from the spec: the module [../message] ([addMessage],
    [addOrUpdateMessage], [nextTickToLocalFinish]) is not part of the
    sources at hand.  Messages are stored with append-or-update semantics
    keyed by (conversation id, message id); the outgoing message of a send
    is persisted synchronously; messages derived from stream events are
    handed over and become durable later ("durability briefly lags");
    [nextTickToLocalFinish] runs its callback once the local writes handed
    over so far have been recorded. *)
Record store := {
  queue : list (string * TMessage);     (* handed over, not yet written *)
  durable : list (string * TMessage)    (* written, oldest first *)
}.

Definition empty : store := {| queue := []; durable := [] |}.

Definition same_key (c : string) (m : TMessage) (entry : string * TMessage) : bool :=
  String.eqb (fst entry) c && String.eqb (m_id (snd entry)) (m_id m).

(** Append-or-update by (conversation id, message id). *)
Fixpoint upsert (c : string) (m : TMessage) (rows : list (string * TMessage))
  : list (string * TMessage) :=
  match rows with
  | [] => [(c, m)]
  | r :: rest => if same_key c m r then (c, m) :: rest else r :: upsert c m rest
  end.

Definition write_all (pending rows : list (string * TMessage)) : list (string * TMessage) :=
  fold_left (fun acc cm => upsert (fst cm) (snd cm) acc) pending rows.

End Message.

(** ** The task object (BaseAgentManager and what it writes to) *)

Module AgentTask.

(** What a task does to the outside, in program order. *)
Inductive obs :=
| SetStatus (s : string)                        (* [this.status = s] *)
| Written (c : string) (m : TMessage)           (* a message became durable *)
| HandedOver (c : string) (m : TMessage)        (* a message was given to the store *)
| Streamed (ev : IResponseMessage)              (* [responseStream.emit(ev)] *)
| Posted (type : string) (data : jsstring)      (* [postMessagePromise(type, data)] *)
| Forwarded (input : jsstring) (msg_id : string) (* [super.sendMessage(data)] *)
| Decided (callId : string) (confirmKey : string) (* a pending confirmation was resolved *)
| CallerRejected (e : js_error)                 (* the promise returned to the caller rejects *)
| CallerResolved.                               (* ... or fulfils *)

(** The fields of the task, the rows of the message store it writes and
    the log of its effects.  [confirmations] is the pending-confirmation
    table: a call id maps to its one-shot slot, [None] while the decision
    is awaited. *)
Record t := {
  type : string;
  conversation_id : string;
  workspace : string;
  model : option TProviderWithModel;
  status : string;
  confirmations : gmap string (option string);
  store : Message.store;
  log : list obs        (* oldest first *)
}.

Definition observe (o : obs) (self : t) : t :=
  {| type := type self; conversation_id := conversation_id self;
     workspace := workspace self; model := model self; status := status self;
     confirmations := confirmations self; store := store self;
     log := log self ++ [o] |}.

Definition set_status (s : string) (self : t) : t :=
  observe (SetStatus s)
    {| type := type self; conversation_id := conversation_id self;
       workspace := workspace self; model := model self; status := s;
       confirmations := confirmations self; store := store self;
       log := log self |}.

Definition set_store (st : Message.store) (self : t) : t :=
  {| type := type self; conversation_id := conversation_id self;
     workspace := workspace self; model := model self; status := status self;
     confirmations := confirmations self; store := st; log := log self |}.

Definition set_confirmations (cs : gmap string (option string)) (self : t) : t :=
  {| type := type self; conversation_id := conversation_id self;
     workspace := workspace self; model := model self; status := status self;
     confirmations := cs; store := store self; log := log self |}.

(** Modelled from the spec: [addMessage(conversation_id, message)] of the
    absent module [../message]; the outgoing message is written at once. *)
Definition addMessage (c : string) (m : TMessage) (self : t) : t :=
  observe (Written c m)
    (set_store {| Message.queue := Message.queue (store self);
                  Message.durable := Message.upsert c m (Message.durable (store self)) |}
               self).

(** Modelled from the spec: [addOrUpdateMessage(conversation_id, message,
    backend)] of the absent module [../message]; the message is handed over
    and written later. *)
Definition addOrUpdateMessage (c : string) (m : TMessage) (backend : string) (self : t) : t :=
  observe (HandedOver c m)
    (set_store {| Message.queue := Message.queue (store self) ++ [(c, m)];
                  Message.durable := Message.durable (store self) |}
               self).

(** Modelled from the spec: the writes that [nextTickToLocalFinish] waits
    for, each an upsert by (conversation id, message id). *)
Definition flush (self : t) : t :=
  let pending := Message.queue (store self) in
  fold_left (fun s cm => observe (Written (fst cm) (snd cm)) s) pending
    (set_store {| Message.queue := [];
                  Message.durable := Message.write_all pending (Message.durable (store self)) |}
               self).

(** Modelled from the spec: [nextTickToLocalFinish(fn)] of the absent module
    [../message], with [fn] given as a state transformer; [fn] runs once the
    messages handed over so far are written. *)
Definition nextTickToLocalFinish (fn : t -> t) (self : t) : t :=
  fn (flush self).

(** Modelled from the spec: [postMessagePromise] belongs to the base class,
    which is not part of the sources at hand.  Used with a call id as key
    it is the [confirm] of the shared contract: it resolves the pending
    slot registered under the call id, once; for an unknown or already
    resolved call id it does nothing, and it never throws. *)
Definition resolve_confirmation (callId confirmKey : string) (self : t) : js_result unit * t :=
  match confirmations self !! callId with
  | Some None =>
      (Ok tt, observe (Decided callId confirmKey)
                (set_confirmations (<[callId := Some confirmKey]> (confirmations self)) self))
  | Some (Some _) | None => (Ok tt, self)
  end.

End AgentTask.

(** ** GeminiAgentManager *)

Module GeminiAgentManager.
Import AgentTask.

(** [super('gemini', { ...data, model })] and the assignments of the
    constructor; the status starts as [pending]. *)
Definition new (workspace conversation_id : string) (model : option TProviderWithModel) : t :=
  {| type := "gemini"; conversation_id := conversation_id; workspace := workspace;
     model := model; status := "pending"; confirmations := ∅;
     store := Message.empty; log := [] |}.

(** *** History injection *)

(** One line of the injected history. *)
Definition history_line (m : TMessage) : jsstring :=
  (if String.eqb (m_position m) "right" then lit "User" else lit "Assistant")
    ++ lit ": " ++ default [] (m_content m).

Definition history_lines (data : list TMessage) : list jsstring :=
  map history_line
    (slice_last 20 (List.filter (fun m => String.eqb (m_type m) "text") data)).

(** [lines.join('\n').slice(-4000)]. *)
Definition history_text (data : list TMessage) : jsstring :=
  slice_last 4000 (join [10%N] (history_lines data)).

(** [injectHistoryFromDatabase].  [result] is what
    [getConversationMessages(conversation_id, 0, 10000)] does: it throws, or
    returns a page whose [data] may be missing.  The empty text is falsy
    and nothing is posted for it; an exception is swallowed. *)
Definition injectHistoryFromDatabase (result : js_result (option (list TMessage))) (self : t) : t :=
  match result with
  | Throw _ => self
  | Ok page =>
      let data := default [] page in
      let text := history_text data in
      match text with
      | [] => self
      | _ :: _ => observe (Posted "init.history" text) self
      end
  end.

(** [reloadContext] awaits [injectHistoryFromDatabase] and nothing else. *)
Definition reloadContext (result : js_result (option (list TMessage))) (self : t) : t :=
  injectHistoryFromDatabase result self.

(** *** Event interception and send *)

Section WithTransform.

(** [transformMessage] of chatLib is not part of the sources at hand; the
    manager is defined for any such function. *)
Variable transformMessage : IResponseMessage -> option TMessage.

(** The listener that [init] registers for [gemini.message]. *)
Definition init_listener (data : IResponseMessage) (self : t) : t :=
  let self := if String.eqb (e_type data) "finish" then set_status "finished" self else self in
  let self := if String.eqb (e_type data) "start" then set_status "running" self else self in
  let data := {| e_type := e_type data; e_data := e_data data; e_msg_id := e_msg_id data;
                 e_conversation_id := Some (conversation_id self) |} in
  let self :=
    if negb (String.eqb (e_type data) "thought") then
      match transformMessage data with
      | Some tMessage => addOrUpdateMessage (conversation_id self) tMessage "gemini" self
      | None => self
      end
    else self in
  observe (Streamed data) self.

(** [this.emit(name, data)]: the listeners registered for [name] run. *)
Definition emit (name : string) (data : IResponseMessage) (self : t) : t :=
  if String.eqb name "gemini.message" then init_listener data self else self.

(** [sendMessage(data)].  [bootstrap] is how the bootstrap promise
    settles and [super_sendMessage] how the base class's send does.  The
    [catch] handler reads [e.message] first: when that read throws, nothing
    is emitted and the caller is rejected with the [TypeError]. *)
Definition sendMessage (input : jsstring) (msg_id : string)
    (bootstrap super_sendMessage : js_result unit) (self : t) : t :=
  let message := {| m_id := msg_id; m_type := "text"; m_position := "right";
                    m_conversation_id := conversation_id self;
                    m_content := Some input |} in
  let self := addMessage (conversation_id self) message self in
  let self := set_status "pending" self in
  match bootstrap with
  | Throw e =>
      match read_message message_or_json e with
      | Throw type_error => observe (CallerRejected type_error) self
      | Ok data =>
          let self := emit "gemini.message"
                        {| e_type := "error"; e_data := data;
                           e_msg_id := msg_id; e_conversation_id := None |} self in
          nextTickToLocalFinish (observe (CallerRejected e)) self
      end
  | Ok _ =>
      let self := observe (Forwarded input msg_id) self in
      match super_sendMessage with
      | Ok _ => observe CallerResolved self
      | Throw e => observe (CallerRejected e) self
      end
  end.

End WithTransform.

(** [confirmMessage(data)]: [postMessagePromise(data.callId, data.confirmKey)]. *)
Definition confirmMessage (confirmKey msg_id callId : string) (self : t) : js_result unit * t :=
  resolve_confirmation callId confirmKey self.

(** Modelled from the spec: [transformMessage] as the spec describes it.
    Every event kind except the reasoning preview is converted to a
    message keyed by the event's message id; start and finish events update
    only the status and yield no message. *)
Definition transformMessage_spec (ev : IResponseMessage) : option TMessage :=
  if String.eqb (e_type ev) "start" || String.eqb (e_type ev) "finish"
     || String.eqb (e_type ev) "thought"
  then None
  else Some {| m_id := e_msg_id ev; m_type := e_type ev; m_position := "left";
               m_conversation_id := default EmptyString (e_conversation_id ev);
               m_content := Some (lit (e_data ev)) |}.

End GeminiAgentManager.

(** ** GeminiAgent *)

Module GeminiAgent.

(** A part of a model request or of a tool response. *)
Definition Part := string.

(** [ToolCallRequestInfo] of the core library. *)
Record ToolCallRequestInfo := {
  callId : string;
  name : string;
  isClientInitiated : bool;
  prompt_id : string
}.

(** [CompletedToolCall]: [responseParts] is [response?.responseParts]. *)
Record ToolCall := {
  request : ToolCallRequestInfo;
  tc_status : string;
  responseParts : option (list Part)
}.

(** The [data] of an event: text, or the request of a tool call. *)
Inductive payload :=
| Text (s : string)
| Request (r : ToolCallRequestInfo).

(** What [processGeminiStreamEvents] passes to its callback. *)
Record StreamData := {
  sd_type : string;
  sd_data : payload
}.

(** The argument of [onStreamEvent]. *)
Record StreamEvent := {
  a_type : string;
  a_data : payload;
  a_msg_id : string
}.

(** What the agent does to the outside, in program order. *)
Inductive obs :=
| StartNewPrompt                                        (* [startNewPrompt()] *)
| SendMessageStream (query : list Part) (prompt_id : string)
                                                        (* [geminiClient.sendMessageStream] *)
| OnStreamEvent (ev : StreamEvent)                      (* [this.onStreamEvent(ev)] *)
| Schedule (requests : list payload).                   (* [scheduler.schedule] *)

(** How a model stream, once obtained, unfolds: the events that
    [processGeminiStreamEvents] hands to its callback, whether it then
    resolves or rejects, and what the scheduler does while
    [scheduler.schedule] is awaited (its observable effects, and whether it
    resolves or rejects). *)
Record StreamRun := {
  callbacks : list StreamData;
  processing : js_result unit;
  scheduling : list obs * js_result unit
}.

(** The collaborators [submitQuery] calls. *)
Record Env := {
  getSessionId : js_result string;       (* [this.config.getSessionId()] *)
  getPromptCount : string;               (* [getPromptCount()], as rendered by [+] *)
  sendMessageStream : list Part -> string -> js_result StreamRun
}.

(** The [options] of [submitQuery]. *)
Record Options := {
  o_prompt_id : option string;
  o_isContinuation : option bool
}.

Definition event (type : string) (data : string) (msg_id : string) : StreamEvent :=
  {| a_type := type; a_data := Text data; a_msg_id := msg_id |}.

(** The callback of [handleMessage], run on every datum in order: tool
    call requests are collected, everything else is emitted tagged with
    [msg_id]. *)
Fixpoint handle_callbacks (msg_id : string) (cbs : list StreamData)
    (toolCallRequests : list payload) : list obs * list payload :=
  match cbs with
  | [] => ([], toolCallRequests)
  | data :: rest =>
      if String.eqb (sd_type data) "tool_call_request" then
        handle_callbacks msg_id rest (toolCallRequests ++ [sd_data data])
      else
        let (os, reqs) := handle_callbacks msg_id rest toolCallRequests in
        (OnStreamEvent {| a_type := sd_type data; a_data := sd_data data;
                          a_msg_id := msg_id |} :: os, reqs)
  end.

(** [handleMessage(stream, msg_id, abortController)]: the effects of the
    returned promise and how it settles.  The [then] step runs when the
    processing resolved; the [catch] step handles a rejection of either, and
    reads [e.message]: when that read throws, no event is emitted and the
    promise rejects with the [TypeError]. *)
Definition handleMessage (run : StreamRun) (msg_id : string) : list obs * js_result unit :=
  let (os, toolCallRequests) := handle_callbacks msg_id (callbacks run) [] in
  let (os_then, settled) :=
    match processing run with
    | Throw e => ([], Throw e)
    | Ok _ =>
        match toolCallRequests with
        | [] => ([], Ok tt)
        | _ :: _ => (Schedule toolCallRequests :: fst (scheduling run), snd (scheduling run))
        end
    end in
  match settled with
  | Throw e =>
      match read_message message_of e with
      | Ok data => (os ++ os_then ++ [OnStreamEvent (event "error" data msg_id)], Ok tt)
      | Throw type_error => (os ++ os_then, Throw type_error)
      end
  | Ok _ => (os ++ os_then, Ok tt)
  end.

(** [!x] on an optional string: [undefined] and the empty string are falsy. *)
Definition falsy (x : option string) : bool :=
  match x with
  | None => true
  | Some s => String.eqb s EmptyString
  end.

(** The prompt id that [submitQuery] settles on: the one given in the
    options unless it is falsy, else a fresh one made of the session id and
    the prompt count. *)
Definition resolve_prompt_id (env : Env) (options : option Options) : js_result string :=
  let given := options ≫= o_prompt_id in
  if falsy given then
    match getSessionId env with
    | Ok sid => Ok (sid +:+ "########" +:+ getPromptCount env)
    | Throw e => Throw e
    end
  else Ok (default EmptyString given).

(** The [catch] of [submitQuery], after the effects [os]: it reads
    [e.message]; when that read throws, [submitQuery] throws the
    [TypeError] and emits nothing, otherwise it emits an error event and
    returns [undefined]. *)
Definition submitQuery_catch (msg_id : string) (os : list obs) (e : js_error)
  : js_result (option string) * list obs :=
  match read_message message_of e with
  | Ok data => (Ok None, os ++ [OnStreamEvent (event "error" data msg_id)])
  | Throw type_error => (Throw type_error, os)
  end.

(** [submitQuery(query, msg_id, abortController, options)]: the returned
    value, or what it throws, and the effects, those of the detached promise
    chain [handleMessage(...).catch(...).finally(...)] included. *)
Definition submitQuery (env : Env) (query : list Part) (msg_id : string)
    (options : option Options) : js_result (option string) * list obs :=
  match resolve_prompt_id env options with
  | Throw e => submitQuery_catch msg_id [] e
  | Ok prompt_id =>
      let os_new :=
        if negb (default false (options ≫= o_isContinuation)) then [StartNewPrompt] else [] in
      match sendMessageStream env query prompt_id with
      | Throw e => submitQuery_catch msg_id (os_new ++ [SendMessageStream query prompt_id]) e
      | Ok run =>
          let (os_handle, settled) := handleMessage run msg_id in
          let os_catch :=
            match settled with
            | Throw e => [OnStreamEvent (event "error" (message_or_json e) msg_id)]
            | Ok _ => []
            end in
          (Ok (Some EmptyString),
           os_new ++ [SendMessageStream query prompt_id;
                      OnStreamEvent (event "start" EmptyString msg_id)]
             ++ os_handle ++ os_catch
             ++ [OnStreamEvent (event "finish" EmptyString msg_id)])
      end
  end.

(** Modelled from the spec: [handleCompletedTools] of [./utils] is not part
    of the sources at hand.  It collects the completed, non-cancelled,
    non-client-initiated calls that produced response payloads; their
    payloads, in order, are the response to resubmit.  (The refresh of the
    long-term memory it may trigger touches neither the calls nor the
    stream and is left out.) *)
Definition resubmittable (tc : ToolCall) : bool :=
  (String.eqb (tc_status tc) "success" || String.eqb (tc_status tc) "error")
  && negb (isClientInitiated (request tc))
  && bool_decide (is_Some (responseParts tc)).

Definition handleCompletedTools (completedToolCalls : list ToolCall) : list Part :=
  flat_map (fun tc => default [] (responseParts tc)) (List.filter resubmittable completedToolCalls).

(** The filter of [onAllToolCallsComplete] that yields [geminiTools]. *)
Definition isGeminiTool (tc : ToolCall) : bool :=
  let isTerminalState :=
    String.eqb (tc_status tc) "success" || String.eqb (tc_status tc) "error"
    || String.eqb (tc_status tc) "cancelled" in
  if isTerminalState
  then bool_decide (is_Some (responseParts tc)) && negb (isClientInitiated (request tc))
  else false.

(** The [catch] of [onAllToolCallsComplete], with [id] from [uuid()]. *)
Definition onAllToolCallsComplete_catch (id : string) (e : js_error) : list obs :=
  match read_message message_or_json e with
  | Ok text => [OnStreamEvent (event "error" ("handleCompletedTools error: " +:+ text) id)]
  | Throw _ => []
  end.

(** [onAllToolCallsComplete(completedToolCalls)].  [uuid] and [uuid'] are
    the identifiers that the first and the second call of [uuid()] return in
    this call.  Reading [geminiTools[0].request] throws a [TypeError] when
    [geminiTools] is empty, and [submitQuery] may throw one; the [catch]
    turns either into an error event. *)
Definition onAllToolCallsComplete (env : Env) (uuid uuid' : string)
    (completedToolCalls : list ToolCall) : list obs :=
  match completedToolCalls with
  | [] => []
  | _ :: _ =>
      let response := handleCompletedTools completedToolCalls in
      match response with
      | [] => []
      | _ :: _ =>
          let geminiTools := List.filter isGeminiTool completedToolCalls in
          match geminiTools with
          | [] =>
              onAllToolCallsComplete_catch uuid
                (Error "Cannot read properties of undefined (reading 'request')")
          | first :: _ =>
              let (returned, os) :=
                submitQuery env response uuid
                  (Some {| o_prompt_id := Some (prompt_id (request first));
                           o_isContinuation := Some true |}) in
              match returned with
              | Ok _ => os
              | Throw e => os ++ onAllToolCallsComplete_catch uuid' e
              end
          end
      end
  end.

End GeminiAgent.

(** ** Conversation store (module [@process/database]) *)

Module Database.

(** Modelled from the spec: the database module is not part of the sources
    at hand.  The store keeps one record per conversation id; [get] finds
    it or fails; [update] merges the given fields into the stored record
    and fails when there is none. *)
Abbreviation t := (gmap string TChatConversation).


(** [{ success, data }]. *)
Record GetResult := {
  g_success : bool;
  g_data : option TChatConversation
}.




End Database.

(** ** WorkerManage: the task registry *)

Module WorkerManage.

(** Modelled from the spec: the registry module is not part of the sources
    at hand (only its call sites are).  [build] constructs the task kind
    matching the conversation type and registers it under the conversation
    id, replacing any prior task registered there; [getById] is a pure
    lookup; [getOrRebuild] returns the live task if present, otherwise loads
    the conversation from the store and builds, and callers that arrive
    while a build for the same id is in flight await that build; [kill]
    cancels the task and removes it; [clear] does so for every task. *)

(** What the registry does, in program order. *)
Inductive obs :=
| Constructed (id : string)                               (* a task object was created *)
| Cancelled (id : string)                                 (* a task was told to stop *)
| Delivered (caller : nat) (task : option AgentTask.t).   (* a [getOrRebuild] settled *)

Record t := {
  taskList : list (string * AgentTask.t);   (* the registered live tasks *)
  building : gmap string (list nat);        (* in-flight builds: id and awaiting callers *)
  log : list obs                            (* oldest first *)
}.

Definition empty : t := {| taskList := []; building := ∅; log := [] |}.

Definition is_id (id : string) (entry : string * AgentTask.t) : bool :=
  String.eqb (fst entry) id.

(** Modelled from the spec: [getTaskById(id)], a pure lookup. *)
Definition getTaskById (id : string) (r : t) : option AgentTask.t :=
  snd <$> find (is_id id) (taskList r).

(** Modelled from the spec: the task kind matching [conversation.type],
    freshly constructed; there is none for an unknown type. *)
Definition construct (conversation : TChatConversation) : option AgentTask.t :=
  if String.eqb (c_type conversation) "gemini" || String.eqb (c_type conversation) "acp"
     || String.eqb (c_type conversation) "codex"
  then Some {| AgentTask.type := c_type conversation;
               AgentTask.conversation_id := c_id conversation;
               AgentTask.workspace := c_workspace conversation;
               AgentTask.model := c_model conversation;
               AgentTask.status := "pending";
               AgentTask.confirmations := ∅;
               AgentTask.store := Message.empty;
               AgentTask.log := [] |}
  else None.

(** Modelled from the spec: [buildConversation(conversation)] registers the
    new task under the conversation id, replacing any task registered
    there. *)
Definition buildConversation (conversation : TChatConversation) (r : t) : option AgentTask.t * t :=
  match construct conversation with
  | None => (None, r)
  | Some task =>
      (Some task,
       {| taskList := List.filter (fun e => negb (is_id (c_id conversation) e)) (taskList r)
                        ++ [(c_id conversation, task)];
          building := building r;
          log := log r ++ [Constructed (c_id conversation)] |})
  end.

(** Modelled from the spec: [kill(id)] cancels the task and removes it. *)
Definition kill (id : string) (r : t) : t :=
  match getTaskById id r with
  | None => r
  | Some _ =>
      {| taskList := List.filter (fun e => negb (is_id id e)) (taskList r);
         building := building r;
         log := log r ++ [Cancelled id] |}
  end.

(** Modelled from the spec: [clear()] kills and removes every task. *)
Definition clear (r : t) : t :=
  {| taskList := [];
     building := building r;
     log := log r ++ map (fun e => Cancelled (fst e)) (taskList r) |}.

(** Modelled from the spec: [getTaskByIdRollbackBuild(id)], up to its
    suspension: the live task is
    delivered at once; otherwise the caller joins the build in flight for
    [id], or starts one. *)
Definition getTaskByIdRollbackBuild_call (caller : nat) (id : string) (r : t) : t :=
  match getTaskById id r with
  | Some task =>
      {| taskList := taskList r; building := building r;
         log := log r ++ [Delivered caller (Some task)] |}
  | None =>
      {| taskList := taskList r;
         building := <[id := default [] (building r !! id) ++ [caller]]> (building r);
         log := log r |}
  end.

(** Modelled from the spec: the resumption of [getTaskByIdRollbackBuild(id)],
    when the store has answered the load for [id]:
    one build, delivered to every caller that awaits it. *)
Definition getTaskByIdRollbackBuild_loaded (id : string)
    (conversation : option TChatConversation) (r : t) : t :=
  match building r !! id with
  | None => r
  | Some callers =>
      let (task, r') :=
        match conversation with
        | Some c => buildConversation c r
        | None => (None, r)
        end in
      {| taskList := taskList r';
         building := delete id (building r');
         log := log r' ++ map (fun caller => Delivered caller task) callers |}
  end.

(** The turns of the event loop that touch the registry. *)
Inductive step :=
| Build (conversation : TChatConversation)
| Call (caller : nat) (id : string)
| Loaded (id : string) (conversation : option TChatConversation)
| Kill (id : string)
| Clear.

Definition exec (r : t) (s : step) : t :=
  match s with
  | Build c => snd (buildConversation c r)
  | Call caller id => getTaskByIdRollbackBuild_call caller id r
  | Loaded id c => getTaskByIdRollbackBuild_loaded id c r
  | Kill id => kill id r
  | Clear => clear r
  end.

(** The registry after a schedule of turns, from the empty registry. *)
Definition run (steps : list step) : t := fold_left exec steps empty.

(** The object that [getTaskById(id)] finds was mutated in place: the
    registry holds a reference to it, so it sees the new state. *)
Fixpoint replace_first (id : string) (task : AgentTask.t) (l : list (string * AgentTask.t))
  : list (string * AgentTask.t) :=
  match l with
  | [] => []
  | e :: rest =>
      if is_id id e then (fst e, task) :: rest else e :: replace_first id task rest
  end.

Definition mutate (id : string) (task : AgentTask.t) (r : t) : t :=
  {| taskList := replace_first id task (taskList r);
     building := building r;
     log := log r |}.

End WorkerManage.

(** ** conversationBridge: the request/response providers *)

Module conversationBridge.

(** [try { body } catch (e) { handler(e) }]. *)
Definition try_catch {A : Type} (body : js_result A) (handler : js_error -> js_result A)
  : js_result A :=
  match body with
  | Ok a => Ok a
  | Throw e => handler e
  end.

(** [await p; k]: a rejection propagates. *)
Definition await {A B : Type} (p : js_result A) (k : A -> js_result B) : js_result B :=
  match p with
  | Ok a => k a
  | Throw e => Throw e
  end.


Definition supported (type : string) : bool :=
  String.eqb type "gemini" || String.eqb type "acp" || String.eqb type "codex".

(** [ipcBridge.conversation.stop.provider].  [task_stop] is how
    [task.stop()] settles. *)
Definition stop (conversation_id : string) (task_stop : js_result unit)
    (r : WorkerManage.t) : js_result IBridgeResponse :=
  match WorkerManage.getTaskById conversation_id r with
  | None => Ok {| success := true; msg := Some "conversation not found" |}
  | Some task =>
      if negb (supported (AgentTask.type task))
      then Ok {| success := false; msg := Some "not support" |}
      else await task_stop (fun _ => Ok {| success := true; msg := None |})
  end.

(** [ipcBridge.conversation.sendMessage.provider].  [rebuild] is how the
    awaited [getTaskByIdRollbackBuild] settles: it delivers a task or none,
    or it rejects; [copyFiles] is how [copyFilesToDirectory] settles and
    [task_sendMessage] how the task's [sendMessage] does.  The first two
    awaits stand outside the [try]: their rejection rejects the provider. *)
Definition sendMessage (rebuild : js_result (option AgentTask.t))
    (copyFiles task_sendMessage : js_result unit) : js_result IBridgeResponse :=
  await rebuild (fun task =>
    match task with
    | None => Ok {| success := false; msg := Some "conversation not found" |}
    | Some task =>
        await copyFiles (fun _ =>
          try_catch
            (if String.eqb (AgentTask.type task) "gemini" then
               await task_sendMessage (fun _ => Ok {| success := true; msg := None |})
             else if String.eqb (AgentTask.type task) "acp" then
               await task_sendMessage (fun _ => Ok {| success := true; msg := None |})
             else if String.eqb (AgentTask.type task) "codex" then
               await task_sendMessage (fun _ => Ok {| success := true; msg := None |})
             else
               Ok {| success := false;
                     msg := Some ("Unsupported task type: " +:+ AgentTask.type task) |})
            (fun err => Ok {| success := false; msg := Some (message_or_string err) |}))
    end).

(** [ipcBridge.conversation.confirmMessage.provider].  A gemini task
    confirms through [GeminiAgentManager.confirmMessage], which acts on the
    registered object; [other_confirm] is how the [confirmMessage] of a
    codex or acp task settles. *)
Definition confirmMessage (confirmKey msg_id conversation_id callId : string)
    (other_confirm : js_result unit) (r : WorkerManage.t)
  : js_result IBridgeResponse * WorkerManage.t :=
  match WorkerManage.getTaskById conversation_id r with
  | None => (Ok {| success := false; msg := Some "conversation not found" |}, r)
  | Some task =>
      let (body, r') :=
        if String.eqb (AgentTask.type task) "codex" then
          (await other_confirm (fun _ => Ok {| success := true; msg := None |}), r)
        else if String.eqb (AgentTask.type task) "gemini" then
          let (settled, task') := GeminiAgentManager.confirmMessage confirmKey msg_id callId task in
          (await settled (fun _ => Ok {| success := true; msg := None |}),
           WorkerManage.mutate conversation_id task' r)
        else if String.eqb (AgentTask.type task) "acp" then
          (await other_confirm (fun _ => Ok {| success := true; msg := None |}), r)
        else
          (Ok {| success := false;
                 msg := Some ("Unsupported task type: " +:+ AgentTask.type task) |}, r) in
      (try_catch body
         (fun e => Ok {| success := false; msg := Some (message_or_string e) |}),
       r')
  end.

End conversationBridge.

(** ** Plain objects used as maps *)

Module JsObject.

(** The property names that a plain object inherits from
    [Object.prototype]; reading one of them on any object yields a truthy
    value. *)
Definition Object_prototype : list string :=
  ["constructor"; "__proto__"; "hasOwnProperty"; "isPrototypeOf";
   "propertyIsEnumerable"; "toLocaleString"; "toString"; "valueOf";
   "__defineGetter__"; "__defineSetter__"; "__lookupGetter__"; "__lookupSetter__"].

Definition inherited (key : string) : bool :=
  existsb (String.eqb key) Object_prototype.

(** [if (obj[key])], for a plain object whose own values are objects: an
    own property is truthy, and so is an inherited one. *)
Definition truthy_at {V : Type} (key : string) (obj : gmap string V) : bool :=
  bool_decide (is_Some (obj !! key)) || inherited key.

(** [obj[key] = value] on a plain object, as far as its own properties go:
    [__proto__] is an accessor of the prototype, so assigning to it creates
    no own property. *)
Definition assign {V : Type} (key : string) (value : V) (obj : gmap string V)
  : gmap string V :=
  if String.eqb key "__proto__" then obj else <[key := value]> obj.

End JsObject.

(** ** MCP server configuration *)

Module McpServers.

(** [_mergeMcpServers(settings, extensions)] of the agent.  [settings] is
    [settings.mcpServers], which may be missing; an extension is given by
    [Object.entries(extension.config.mcpServers || {})]. *)
Definition _mergeMcpServers {V : Type} (settings : option (gmap string V))
    (extensions : list (list (string * V))) : gmap string V :=
  fold_left
    (fun mcpServers extension =>
       fold_left
         (fun mcpServers entry =>
            if JsObject.truthy_at (fst entry) mcpServers
            then mcpServers     (* warn and skip *)
            else JsObject.assign (fst entry) (snd entry) mcpServers)
         extension mcpServers)
    extensions (default ∅ settings).

(** [IMcpServer] of storage, with the fields that [getMcpServers] reads. *)
Record IMcpServer := {
  s_name : string;
  s_description : option string;
  s_enabled : bool;
  s_status : option string;
  s_transport_type : string;
  s_command : string;
  s_args : option (list string);
  s_env : option (gmap string string)
}.

(** The entry that [getMcpServers] writes for a server. *)
Record McpServerConfig := {
  command : string;
  args : list string;
  env : gmap string string;
  description : option string
}.

(** What [ProcessConfig.get('mcp.config')] resolves to. *)
Inductive McpConfigValue :=
| Missing                          (* [undefined] *)
| NotAnArray                       (* a value that is not an array *)
| Servers (l : list IMcpServer).

Definition to_config (server : IMcpServer) : McpServerConfig :=
  {| command := s_command server;
     args := default [] (s_args server);
     env := default ∅ (s_env server);
     description := s_description server |}.

(** The predicate of the [filter]: enabled and connected. *)
Definition connected (server : IMcpServer) : bool :=
  s_enabled server && bool_decide (s_status server = Some "connected").

(** [getMcpServers()] of the manager; [config] is how
    [ProcessConfig.get('mcp.config')] settles.  Any failure gives the empty
    configuration. *)
Definition getMcpServers (config : js_result McpConfigValue) : gmap string McpServerConfig :=
  match config with
  | Throw _ => ∅
  | Ok Missing | Ok NotAnArray => ∅
  | Ok (Servers mcpServers) =>
      fold_left
        (fun mcpConfig server =>
           if String.eqb (s_transport_type server) "stdio"
           then JsObject.assign (s_name server) (to_config server) mcpConfig
           else mcpConfig)
        (List.filter connected mcpServers) ∅
  end.

(** [getImageGenerationModel()] of the manager: the configured model when
    its [switch] is on; [config] is how
    [ProcessConfig.get('tools.imageGenerationModel')] settles. *)
Definition getImageGenerationModel {M : Type} (switch : M -> bool)
    (config : js_result (option M)) : option M :=
  match config with
  | Throw _ => None
  | Ok None => None
  | Ok (Some imageGenerationModel) =>
      if switch imageGenerationModel then Some imageGenerationModel else None
  end.

End McpServers.

(** ** The environment of the agent client *)

Module ClientEnv.

(** [s.split(sep)] for a separator of one code unit: never empty. *)
Fixpoint split (sep : N) (s : jsstring) : list jsstring :=
  match s with
  | [] => [[]]
  | c :: rest =>
      if N.eqb c sep then [] :: split sep rest
      else match split sep rest with
           | [] => [[c]]
           | piece :: pieces => (c :: piece) :: pieces
           end
  end.

(** [s.replace(/\r$/, '')]: a carriage return at the very end is dropped. *)
Fixpoint strip_cr (s : jsstring) : jsstring :=
  match s with
  | [] => []
  | [c] => if N.eqb c 13 then [] else [c]
  | c :: rest => c :: strip_cr rest
  end.

(** [acc[key] = value] on the plain object that [getEnv] builds: assigning
    a string to [__proto__] changes nothing. *)
Definition assign (key value : jsstring) (acc : gmap jsstring jsstring)
  : gmap jsstring jsstring :=
  if bool_decide (key = lit "__proto__") then acc else <[key := value]> acc.

(** The reducer of [getEnv]: [const [key, ...value] = line.split('=')], then
    [acc[key] = value.join('=').replace(/\r$/, '')]. *)
Definition add_line (acc : gmap jsstring jsstring) (line : jsstring)
  : gmap jsstring jsstring :=
  match split 61 line with
  | [] => acc
  | key :: value => assign key (strip_cr (join [61%N] value)) acc
  end.

(** [envOutput.split('\n').reduce(..., {})]. *)
Definition parse (envOutput : jsstring) : gmap jsstring jsstring :=
  fold_left add_line (split 10 envOutput) ∅.

(** [getEnv()]: [platform] is [process.platform] and [execSync] runs the
    command, returning its output or throwing. *)
Definition getEnv (platform : string) (execSync : string -> js_result jsstring)
  : js_result (gmap jsstring jsstring) :=
  let command := EmptyString in
  let command := if String.eqb platform "win32" then "cmd /c set" else command in
  let command := if String.eqb platform "darwin" then "zsh -ic 'env'" else command in
  if String.eqb command EmptyString then Ok ∅
  else match execSync command with
       | Ok envOutput => Ok (parse envOutput)
       | Throw e => Throw e
       end.

(** The authentication types that [initClientEnv] tells apart. *)
Inductive AuthType :=
| LOGIN_WITH_GOOGLE
| USE_GEMINI
| USE_VERTEX_AI
| USE_OPENAI
| OtherAuthType (name : string).

(** [value && value !== 'undefined'], on a value that may be missing. *)
Definition usable (value : option jsstring) : bool :=
  match value with
  | Some v =>
      match v with
      | [] => false
      | _ :: _ => negb (bool_decide (v = lit "undefined"))
      end
  | None => false
  end.

(** [fallbackValue(key, value1, value2)] on [process.env]. *)
Definition fallbackValue (key : string) (value1 value2 : option jsstring)
    (process_env : gmap string jsstring) : gmap string jsstring :=
  let process_env :=
    if usable value1 then <[key := default [] value1]> process_env else process_env in
  if usable value2 then <[key := default [] value2]> process_env else process_env.

(** What [initClientEnv] asks of the multi-key manager, when
    [initializeMultiKeySupport] has created one. *)
Record ApiKeyManager := {
  hasMultipleKeys : bool;
  envKey : string            (* [getStatus().envKey] *)
}.

(** [a || b] on strings that may be missing. *)
Definition or_else (a b : option jsstring) : option jsstring :=
  match a with
  | Some (_ :: _) => a
  | Some [] | None => b
  end.

(** [getCurrentApiKey()]. *)
Definition getCurrentApiKey (apiKeyManager : option ApiKeyManager)
    (apiKey : option jsstring) (process_env : gmap string jsstring) : option jsstring :=
  match apiKeyManager with
  | Some manager =>
      if hasMultipleKeys manager then or_else (process_env !! envKey manager) apiKey
      else apiKey
  | None => apiKey
  end.

(** [initializeMultiKeySupport()]: the manager that it leaves in
    [this.apiKeyManager]; [created] is the object that
    [new ApiKeyManager(apiKey, authType)] makes.  There is none unless the key
    holds a comma or a newline and the type is one of the two supported
    ones. *)
Definition initializeMultiKeySupport (authType : option AuthType)
    (apiKey : option jsstring) (created : ApiKeyManager) : option ApiKeyManager :=
  match apiKey with
  | Some key =>
      match key with
      | [] => None
      | _ :: _ =>
          if negb (existsb (N.eqb 44) key) && negb (existsb (N.eqb 10) key) then None
          else match authType with
               | Some USE_OPENAI | Some USE_GEMINI => Some created
               | _ => None
               end
      end
  | None => None
  end.

(** [initClientEnv()], from the point where [getEnv()] has returned [env]
    and [initializeMultiKeySupport()] has run, leaving [apiKeyManager] and
    [process_env]. *)
Definition initClientEnv (authType : option AuthType)
    (apiKey baseUrl googleCloudProject : option jsstring)
    (env : gmap jsstring jsstring) (apiKeyManager : option ApiKeyManager)
    (process_env : gmap string jsstring) : gmap string jsstring :=
  match authType with
  | Some USE_GEMINI =>
      fallbackValue "GOOGLE_GEMINI_BASE_URL" baseUrl None
        (fallbackValue "GEMINI_API_KEY"
           (getCurrentApiKey apiKeyManager apiKey process_env) None process_env)
  | Some USE_VERTEX_AI =>
      <["GOOGLE_GENAI_USE_VERTEXAI" := lit "true"]>
        (fallbackValue "GOOGLE_API_KEY"
           (getCurrentApiKey apiKeyManager apiKey process_env) None process_env)
  | Some LOGIN_WITH_GOOGLE =>
      fallbackValue "GOOGLE_CLOUD_PROJECT"
        (Some (default [] (or_else googleCloudProject (Some []))))
        (env !! lit "GOOGLE_CLOUD_PROJECT") process_env
  | Some USE_OPENAI =>
      let process_env := fallbackValue "OPENAI_BASE_URL" baseUrl None process_env in
      fallbackValue "OPENAI_API_KEY"
        (getCurrentApiKey apiKeyManager apiKey process_env) None process_env
  | Some (OtherAuthType _) | None => process_env
  end.

End ClientEnv.

(** ** GeminiAgent: send and the one-time history prefix *)

Module GeminiAgentSend.

(** The fields of the agent that [send] and [injectConversationHistory]
    use. *)
Record State := {
  initialized : bool;               (* [this.config && this.workspace && this.settings] *)
  historyPrefix : option jsstring;  (* [null] until a history was injected *)
  historyUsedOnce : bool;
  userMemory : option jsstring      (* the last [config.setUserMemory(...)] *)
}.

(** A freshly constructed agent whose bootstrap has completed. *)
Definition ready : State :=
  {| initialized := true; historyPrefix := None; historyUsedOnce := false;
     userMemory := None |}.

(** The prefix that [injectConversationHistory(text)] prepares. *)
Definition history_prefix (text : jsstring) : jsstring :=
  lit "Conversation history (recent):" ++ [10%N] ++ text ++ [10%N; 10%N].

(** [injectConversationHistory(text)]; [loadMemory] is how
    [loadHierarchicalGeminiMemory] settles, by its [memoryContent].  An
    exception is swallowed, after the prefix has been set. *)
Definition injectConversationHistory (text : jsstring) (loadMemory : js_result jsstring)
    (st : State) : State :=
  if negb (initialized st) then st
  else
    match loadMemory with
    | Ok memoryContent =>
        {| initialized := initialized st;
           historyPrefix := Some (history_prefix text);
           historyUsedOnce := false;
           userMemory := Some (memoryContent ++ [10%N; 10%N] ++ lit "[Recent Chat]"
                                 ++ [10%N] ++ text) |}
    | Throw _ =>
        {| initialized := initialized st;
           historyPrefix := Some (history_prefix text);
           historyUsedOnce := false;
           userMemory := userMemory st |}
    end.

(** The [message] of [send]: a string, or an array of [{ text }]. *)
Inductive Message :=
| Str (s : jsstring)
| Arr (texts : list jsstring).

(** What a call of [send] amounts to. *)
Record Outcome := {
  result : js_result (option string);   (* how the returned promise settles *)
  queried : option jsstring;            (* the query given to [handleAtCommand] *)
  effects : list GeminiAgent.obs;       (* the effects of [submitQuery] *)
  state : State
}.

(** [this.historyPrefix && !this.historyUsedOnce]. *)
Definition armed (st : State) : bool :=
  match historyPrefix st with
  | Some prefix =>
      match prefix with
      | [] => false
      | _ :: _ => negb (historyUsedOnce st)
      end
  | None => false
  end.

(** [send(message, msg_id)].  [bootstrap] is how the bootstrap promise
    settles; [handleAtCommand] gives, for a query, [processedQuery] (which may
    be [null]) and [shouldProceed], or throws; [aborted] tells whether the
    abort signal was raised by then. *)
Definition send (message : Message) (msg_id : string) (bootstrap : js_result unit)
    (handleAtCommand : jsstring -> js_result (option (list GeminiAgent.Part) * bool))
    (aborted : bool) (env : GeminiAgent.Env) (st : State) : Outcome :=
  match bootstrap with
  | Throw e => {| result := Throw e; queried := None; effects := []; state := st |}
  | Ok _ =>
      let prefix := default [] (historyPrefix st) in
      let message' :=
        if armed st then
          match message with
          | Arr texts => Arr [prefix ++ default [] (head texts)]
          | Str s => Str (prefix ++ s)
          end
        else message in
      let st' :=
        if armed st then
          {| initialized := initialized st; historyPrefix := historyPrefix st;
             historyUsedOnce := true; userMemory := userMemory st |}
        else st in
      let query :=
        match message' with
        | Arr [] => Throw (Error "Cannot read properties of undefined (reading 'text')")
        | Arr (first :: _) => Ok first
        | Str s => Ok s
        end in
      match query with
      | Throw e => {| result := Throw e; queried := None; effects := []; state := st' |}
      | Ok q =>
          match handleAtCommand q with
          | Throw e =>
              {| result := Throw e; queried := Some q; effects := []; state := st' |}
          | Ok (processedQuery, shouldProceed) =>
              match processedQuery with
              | Some processed =>
                  if negb shouldProceed || aborted
                  then {| result := Ok None; queried := Some q; effects := [];
                          state := st' |}
                  else
                    let (requestId, os) := GeminiAgent.submitQuery env processed msg_id None in
                    {| result := requestId; queried := Some q; effects := os;
                       state := st' |}
              | None =>
                  {| result := Ok None; queried := Some q; effects := []; state := st' |}
              end
          end
      end
  end.

End GeminiAgentSend.

(** ** conversationBridge: further providers *)

Module conversationProviders.

(** [ipcBridge.conversation.reloadContext.provider].  [rebuilt] is how the
    awaited [getTaskByIdRollbackBuild] settles and [result] what the database
    answers to the manager; the second component is the task afterwards. *)
Definition reloadContext (rebuilt : js_result (option AgentTask.t))
    (result : js_result (option (list TMessage)))
  : js_result IBridgeResponse * option AgentTask.t :=
  let body : js_result IBridgeResponse * option AgentTask.t :=
    match rebuilt with
    | Throw e => (Throw e, None)
    | Ok None => (Ok {| success := false; msg := Some "conversation not found" |}, None)
    | Ok (Some task) =>
        if negb (String.eqb (AgentTask.type task) "gemini")
        then (Ok {| success := false; msg := Some "only supported for gemini" |}, Some task)
        else (Ok {| success := true; msg := None |},
              Some (GeminiAgentManager.reloadContext result task))
    end in
  (conversationBridge.try_catch (fst body)
     (fun e => Ok {| success := false; msg := Some (message_or_string e) |}),
   snd body).

(** [task?.status || 'finished']. *)
Definition status_or_finished (task : option AgentTask.t) : string :=
  match task with
  | Some t => if String.eqb (AgentTask.status t) EmptyString then "finished"
              else AgentTask.status t
  | None => "finished"
  end.

(** [ipcBridge.conversation.get.provider].  [result] is what
    [db.getConversation(id)] does, [task] what [getTaskById(id)] finds and
    [history] how [ProcessChat.get('chat.history')] settles.  The answer is
    the conversation with its status, or nothing; the second component is the
    conversation handed to the background migration, if any. *)
Definition get (id : string) (result : js_result Database.GetResult)
    (task : option AgentTask.t) (history : js_result (list TChatConversation))
  : option (TChatConversation * string) * option TChatConversation :=
  match result with
  | Throw _ => (None, None)
  | Ok found =>
      match (if Database.g_success found then Database.g_data found else None) with
      | Some conversation => (Some (conversation, status_or_finished task), None)
      | None =>
          match history with
          | Throw _ => (None, None)
          | Ok items =>
              match find (fun item => String.eqb (c_id item) id) items with
              | Some conversation =>
                  (Some (conversation, status_or_finished task), Some conversation)
              | None => (None, None)
              end
          end
      end
  end.

(** [ipcBridge.conversation.getAssociateConversation.provider].
    [currentResult] is what [db.getConversation] answers, [allResult] what
    [db.getUserConversations] does (by its [data]), and [history] how
    [ProcessChat.get('chat.history')] settles, possibly to [undefined].  The
    second component lists the conversations handed to the background
    migration.  Every exception ends in the empty list. *)
Definition getAssociateConversation (conversation_id : string)
    (currentResult : js_result Database.GetResult)
    (allResult : js_result (option (list TChatConversation)))
    (history : js_result (option (list TChatConversation)))
  : list TChatConversation * list TChatConversation :=
  let current : js_result (option TChatConversation * list TChatConversation) :=
    match currentResult with
    | Throw e => Throw e
    | Ok found =>
        match (if Database.g_success found then Database.g_data found else None) with
        | Some c => Ok (Some c, [])
        | None =>
            match history with
            | Throw e => Throw e
            | Ok None => Throw (Error "Cannot read properties of undefined (reading 'find')")
            | Ok (Some items) =>
                match find (fun item => String.eqb (c_id item) conversation_id) items with
                | Some c => Ok (Some c, [c])
                | None => Ok (None, [])
                end
            end
        end
    end in
  match current with
  | Throw _ => ([], [])
  | Ok (None, migrated) => ([], migrated)
  | Ok (Some currentConversation, migrated) =>
      if String.eqb (c_workspace currentConversation) EmptyString then ([], migrated)
      else
        match allResult, history with
        | Throw _, _ | _, Throw _ => ([], migrated)
        | Ok data, Ok items =>
            let allConversations := default [] data in
            let (allConversations, migrated) :=
              if Nat.ltb (length allConversations) (length (default [] items))
              then (default [] items, migrated ++ default [] items)
              else (allConversations, migrated) in
            (List.filter
               (fun item => String.eqb (c_workspace item) (c_workspace currentConversation))
               allConversations,
             migrated)
        end
  end.

(** [ipcBridge.conversation.create.provider].  [built] is what the factory
    for a known [type] ([createGeminiAgent] and the like) settles to, and
    [inserted] the [success] of [db.createConversation].  The outcome and
    the registry afterwards. *)
Definition create (type : string) (name id : option string)
    (built : js_result TChatConversation) (inserted : bool) (r : WorkerManage.t)
  : js_result TChatConversation * WorkerManage.t :=
  let truthy (x : option string) : bool :=
    match x with
    | Some s => negb (String.eqb s EmptyString)
    | None => false
    end in
  let body : js_result TChatConversation * WorkerManage.t :=
    let buildConversation :=
      if String.eqb type "gemini" || String.eqb type "acp" || String.eqb type "codex"
      then built
      else Throw (Error "Invalid conversation type") in
    match buildConversation with
    | Throw e => (Throw e, r)
    | Ok conversation =>
        let conversation :=
          {| c_id := if truthy id then default EmptyString id else c_id conversation;
             c_type := c_type conversation;
             c_name := if truthy name then default EmptyString name else c_name conversation;
             c_model := c_model conversation;
             c_workspace := c_workspace conversation |} in
        match WorkerManage.buildConversation conversation r with
        | (None, r') =>
            (Throw (Error "Cannot read properties of undefined (reading 'type')"), r')
        | (Some task, r') => (Ok conversation, r')
        end
    end in
  (conversationBridge.try_catch (fst body)
     (fun e => Throw (Error ("Failed to create " +:+ type +:+ " conversation: "
                               +:+ message_or_string e))),
   snd body).

(** [buildLastAbortController()], on the controllers created so far, each by
    its [aborted] flag, the current one last: the current one is aborted and
    a fresh one takes its place. *)
Definition buildLastAbortController (controllers : list bool) : list bool :=
  match controllers with
  | [] => [false]
  | _ :: _ => removelast controllers ++ [true; false]
  end.

End conversationProviders.

(** ** Renderer: the welcome page (Guid) *)

Module Guid.

(** [IProvider] of storage, with the fields used here; [p_capabilities]
    stands for everything [hasSpecificModelCapability] may look at.  A
    provider without a [model] is read as [provider.model || []], a provider
    with no model. *)
Record IProvider := {
  p_id : string;
  p_name : string;
  p_model : list string;
  p_capabilities : list string
}.

Section WithCapabilities.

(** [hasSpecificModelCapability(provider, modelName, capability)] is not
    part of the sources at hand; it answers [true], [false] or
    [undefined]. *)
Variable hasSpecificModelCapability : IProvider -> string -> string -> option bool.

(** The cache key: the id, a dash, and the model names joined by commas. *)
Definition cacheKey (provider : IProvider) : string :=
  p_id provider +:+ "-" +:+ String.concat "," (p_model provider).

(** The loop of [getAvailableModels]: the models that call functions (or
    say nothing about it) and are not excluded from the primary ones. *)
Definition computeAvailableModels (provider : IProvider) : list string :=
  List.filter
    (fun modelName =>
       let functionCalling :=
         hasSpecificModelCapability provider modelName "function_calling" in
       let excluded :=
         hasSpecificModelCapability provider modelName "excludeFromPrimary" in
       (bool_decide (functionCalling = Some true) || bool_decide (functionCalling = None))
       && negb (bool_decide (excluded = Some true)))
    (p_model provider).

(** [getAvailableModels(provider)] with the module-level
    [availableModelsCache]: the result and the cache afterwards. *)
Definition getAvailableModels (provider : IProvider) (cache : gmap string (list string))
  : list string * gmap string (list string) :=
  match cache !! cacheKey provider with
  | Some cached => (cached, cache)
  | None =>
      let result := computeAvailableModels provider in
      (result, <[cacheKey provider := result]> cache)
  end.

(** [hasAvailableModels(provider)]. *)
Definition hasAvailableModels (provider : IProvider) (cache : gmap string (list string))
  : bool * gmap string (list string) :=
  let (availableModels, cache) := getAvailableModels provider cache in
  (negb (Nat.eqb (length availableModels) 0), cache).

End WithCapabilities.

(** [setDefaultModel()], by the model it passes to [_setCurrentModel]:
    the provider and the [useModel] it is given, which is [undefined] when
    the provider has no model.  [useModel] is the stored default, which may be
    missing; without a provider nothing is set. *)
Definition setDefaultModel (useModel : option string) (modelList : list IProvider)
  : option (IProvider * option string) :=
  let includes (provider : IProvider) : bool :=
    match useModel with
    | Some u => existsb (String.eqb u) (p_model provider)
    | None => false
    end in
  let defaultModel :=
    match find includes modelList with
    | Some provider => Some provider
    | None => head modelList
    end in
  match defaultModel with
  | None => None
  | Some provider =>
      let found :=
        match useModel with
        | Some u => find (fun m => String.eqb m u) (p_model provider)
        | None => None
        end in
      let chosen :=
        match found with
        | Some m => if String.eqb m EmptyString then head (p_model provider) else Some m
        | None => head (p_model provider)
        end in
      Some (provider, chosen)
  end.

End Guid.

(** ** Renderer: the conversation list (ChatHistory) *)

Module ChatHistory.

Section WithClock.

(** [t(key)], the translation of a label, and [diffDay(current, time)] for
    the [current] of this render, in whole days. *)
Variable t : string -> string.
Variable diffDay : N -> nat.

(** [format(time)] of [useTimeline]. *)
Definition format (time : N) : string :=
  if Nat.eqb (diffDay time) 0 then t "conversation.history.today"
  else if Nat.eqb (diffDay time) 1 then t "conversation.history.yesterday"
  else if Nat.ltb (diffDay time) 7 then t "conversation.history.recent7Days"
  else t "conversation.history.earlier".

(** The function that [useTimeline] returns, applied to a conversation
    created at [time]: the header to show and the new [prevTime].  A
    [prevTime] that is [undefined] or [0] is falsy. *)
Definition formatTimeline (prevTime : option N) (time : N) : string * option N :=
  let formatStr := format time in
  let same :=
    match prevTime with
    | Some prev => negb (N.eqb prev 0) && String.eqb formatStr (format prev)
    | None => false
    end in
  if same then (EmptyString, Some time) else (formatStr, Some time).

(** The headers of a rendered list of conversations, by creation time. *)
Fixpoint headers (prevTime : option N) (times : list N) : list string :=
  match times with
  | [] => []
  | time :: rest =>
      let (header, prevTime') := formatTimeline prevTime time in
      header :: headers prevTime' rest
  end.

End WithClock.

End ChatHistory.

(** ** Renderer: the gemini send box *)

Module GeminiSendBox.

(** [ThoughtData]: the empty thought, or the data of a thought event. *)
Inductive ThoughtData :=
| NoThought                  (* [{ subject: '', description: '' }] *)
| Thought (data : string).

(** The state that [useGeminiMessage] keeps, and the messages it has
    passed to [addOrUpdateMessage], oldest first. *)
Record State := {
  running : bool;
  thought : ThoughtData;
  added : list (option TMessage)
}.

(** The listener on [responseStream] that [useGeminiMessage] installs for
    [conversation_id]. *)
Definition onResponse (transformMessage : IResponseMessage -> option TMessage)
    (conversation_id : string) (st : State) (message : IResponseMessage) : State :=
  if negb (bool_decide (e_conversation_id message = Some conversation_id)) then st
  else if String.eqb (e_type message) "thought" then
    {| running := running st; thought := Thought (e_data message); added := added st |}
  else if String.eqb (e_type message) "start" then
    {| running := true; thought := thought st; added := added st |}
  else if String.eqb (e_type message) "finish" then
    {| running := false; thought := NoThought; added := added st |}
  else
    {| running := running st; thought := thought st;
       added := added st ++ [transformMessage message] |}.

End GeminiSendBox.

(** ** Renderer: pull to refresh *)

Module PwaPullToRefresh.

Section WithNumbers.

(** JavaScript numbers, with the two operations used: subtraction and the
    comparison [deltaY >= threshold] for the threshold of 70. *)
Variable number : Type.
Variable minus : number -> number -> number.
Variable reaches_threshold : number -> bool.
Variable zero : number.

(** The variables of the effect. *)
Record State := {
  startY : number;
  deltaY : number;
  tracking : bool
}.

Definition initial : State := {| startY := zero; deltaY := zero; tracking := false |}.

(** A touch event: the [clientY] of its touches, and for a touch start
    whether the target is a text input and whether the container is scrolled
    to the top. *)
Inductive Event :=
| TouchStart (touches : list number) (textInput atTop : bool)
| TouchMove (touches : list number)
| TouchEnd.

(** The three handlers: the state afterwards, and whether the page is
    reloaded. *)
Definition handle (st : State) (ev : Event) : State * bool :=
  match ev with
  | TouchStart touches textInput atTop =>
      match touches with
      | [y] =>
          if textInput then (st, false)
          else if negb atTop then (st, false)
          else ({| startY := y; deltaY := zero; tracking := true |}, false)
      | _ => (st, false)
      end
  | TouchMove touches =>
      if negb (tracking st) then (st, false)
      else match touches with
           | currentY :: _ =>
               ({| startY := startY st; deltaY := minus currentY (startY st);
                   tracking := tracking st |}, false)
           | [] => (st, false)     (* reading [touches[0].clientY] throws *)
           end
  | TouchEnd =>
      if negb (tracking st) then (st, false)
      else ({| startY := startY st; deltaY := deltaY st; tracking := false |},
            reaches_threshold (deltaY st))
  end.

(** A run of events: the state afterwards and the number of reloads. *)
Definition run (events : list Event) (st : State) : State * nat :=
  fold_left
    (fun acc ev =>
       let (st', reload) := handle (fst acc) ev in
       (st', if reload then S (snd acc) else snd acc))
    events (st, 0).

End WithNumbers.

End PwaPullToRefresh.

(** ** Vocabulary of the statements *)

(** The messages that [injectHistoryFromDatabase] gets to see. *)
Definition page_data (result : js_result (option (list TMessage))) : list TMessage :=
  match result with
  | Ok page => default [] page
  | Throw _ => []
  end.

(** The event as the listener republishes it: tagged with the conversation
    id of the task. *)
Definition tagged (self : AgentTask.t) (ev : IResponseMessage) : IResponseMessage :=
  {| e_type := e_type ev; e_data := e_data ev; e_msg_id := e_msg_id ev;
     e_conversation_id := Some (AgentTask.conversation_id self) |}.

(** The status the listener leaves behind. *)
Definition status_after (ev : IResponseMessage) (before : string) : string :=
  if String.eqb (e_type ev) "start" then "running"
  else if String.eqb (e_type ev) "finish" then "finished"
  else before.

(** The status assignments of the listener, as logged. *)
Definition status_steps (ev : IResponseMessage) : list AgentTask.obs :=
  if String.eqb (e_type ev) "start" then [AgentTask.SetStatus "running"]
  else if String.eqb (e_type ev) "finish" then [AgentTask.SetStatus "finished"]
  else [].

(** The message that the listener hands to the store, if any. *)
Definition persisted (transformMessage : IResponseMessage -> option TMessage)
    (self : AgentTask.t) (ev : IResponseMessage) : option TMessage :=
  if String.eqb (e_type ev) "thought" then None else transformMessage (tagged self ev).

(** The events of a log that went out on the response stream. *)
Definition streamed (l : list AgentTask.obs) : list IResponseMessage :=
  flat_map (fun o => match o with AgentTask.Streamed ev => [ev] | _ => [] end) l.

(** The entries of a log at which the caller's promise settled. *)
Definition settled (l : list AgentTask.obs) : list AgentTask.obs :=
  List.filter (fun o => match o with
                        | AgentTask.CallerRejected _ | AgentTask.CallerResolved => true
                        | _ => false
                        end) l.

(** The error event that [sendMessage] emits when the bootstrap failed. *)
Definition readable (e : js_error) : Prop :=
  match e with
  | Nullish _ => False
  | _ => True
  end.

Definition bootstrap_error_event (e : js_error) (msg_id : string) : IResponseMessage :=
  {| e_type := "error"; e_data := message_or_json e; e_msg_id := msg_id;
     e_conversation_id := None |}.

(** Sample values. *)
Definition sample_task : AgentTask.t :=
  AgentTask.set_status "running" (GeminiAgentManager.new "/workspace" "c1" None).

Definition sample_event (type : string) : IResponseMessage :=
  {| e_type := type; e_data := "payload"; e_msg_id := "m1"; e_conversation_id := None |}.


(** The events that a log of the agent emitted for one message id. *)
Definition emitted_for (msg_id : string) (l : list GeminiAgent.obs) : list GeminiAgent.StreamEvent :=
  flat_map (fun o => match o with
                     | GeminiAgent.OnStreamEvent ev =>
                         if String.eqb (GeminiAgent.a_msg_id ev) msg_id then [ev] else []
                     | _ => []
                     end) l.

(** The error with which the processing of a stream run fails, if it does:
    the processing itself rejects, or the scheduling that follows it does. *)
Definition failure (run : GeminiAgent.StreamRun) (msg_id : string) : option js_error :=
  match GeminiAgent.processing run with
  | Throw e => Some e
  | Ok _ =>
      match snd (GeminiAgent.handle_callbacks msg_id (GeminiAgent.callbacks run) []) with
      | [] => None
      | _ :: _ =>
          match snd (GeminiAgent.scheduling run) with
          | Throw e => Some e
          | Ok _ => None
          end
      end
  end.

(** The text of the error event that ends a failed turn: the message of
    the error as [handleMessage] reads it or, when that read throws, the
    message of the [TypeError], which the [catch] of [submitQuery]
    reports. *)
Definition reported (e : js_error) : string :=
  match read_message message_of e with
  | Ok data => data
  | Throw type_error => message_or_json type_error
  end.

(** An effect that emits nothing for the given message id. *)
Definition silent_for (msg_id : string) (o : GeminiAgent.obs) : Prop :=
  match o with
  | GeminiAgent.OnStreamEvent ev => GeminiAgent.a_msg_id ev <> msg_id
  | _ => True
  end.

(** Neither a start nor a finish event. *)
Definition in_between (type : string) : Prop := type <> "start" /\ type <> "finish".

(** The message that [transformMessage_spec] makes of the sample bootstrap
    error once it is tagged. *)
Definition sample_error_message : TMessage :=
  {| m_id := "m1"; m_type := "error"; m_position := "left";
     m_conversation_id := "c1"; m_content := Some (lit "bootstrap failed") |}.

(** A sample stream run: a content event, a tool call request, and a
    scheduling that reports under another message id and then fails. *)
Definition sample_request : GeminiAgent.ToolCallRequestInfo :=
  {| GeminiAgent.callId := "call-1"; GeminiAgent.name := "read_file";
     GeminiAgent.isClientInitiated := false; GeminiAgent.prompt_id := "s1########0" |}.

Definition sample_run : GeminiAgent.StreamRun :=
  {| GeminiAgent.callbacks :=
       [ {| GeminiAgent.sd_type := "content"; GeminiAgent.sd_data := GeminiAgent.Text "hi" |};
         {| GeminiAgent.sd_type := "tool_call_request";
            GeminiAgent.sd_data := GeminiAgent.Request sample_request |} ];
     GeminiAgent.processing := Ok tt;
     GeminiAgent.scheduling :=
       ([GeminiAgent.OnStreamEvent (GeminiAgent.event "tool_group" "[]" "u2")],
        Throw (Error "tool failed")) |}.

Definition sample_env : GeminiAgent.Env :=
  {| GeminiAgent.getSessionId := Ok "s1";
     GeminiAgent.getPromptCount := "0";
     GeminiAgent.sendMessageStream := fun _ _ => Ok sample_run |}.

(** A sample batch of completed calls of the prompt [s1########0]: a
    successful call with a payload, a cancelled one with a payload, and a
    client-initiated one. *)
Definition sample_calls : list GeminiAgent.ToolCall :=
  [ {| GeminiAgent.request :=
         {| GeminiAgent.callId := "call-0"; GeminiAgent.name := "shell";
            GeminiAgent.isClientInitiated := false; GeminiAgent.prompt_id := "s1########0" |};
       GeminiAgent.tc_status := "cancelled";
       GeminiAgent.responseParts := Some ["cancelled by user"] |};
    {| GeminiAgent.request := sample_request;
       GeminiAgent.tc_status := "success";
       GeminiAgent.responseParts := Some ["file contents"] |};
    {| GeminiAgent.request :=
         {| GeminiAgent.callId := "call-2"; GeminiAgent.name := "save_memory";
            GeminiAgent.isClientInitiated := true; GeminiAgent.prompt_id := "s1########0" |};
       GeminiAgent.tc_status := "success";
       GeminiAgent.responseParts := Some ["saved"] |} ].

(** The number of tasks registered under an id. *)
Definition registered (id : string) (r : WorkerManage.t) : nat :=
  length (List.filter (WorkerManage.is_id id) (WorkerManage.taskList r)).

(** A sample conversation. *)
Definition sample_model (useModel : string) : TProviderWithModel :=
  [("id", "1"); ("useModel", useModel)].

Definition sample_conversation : TChatConversation :=
  {| c_id := "c1"; c_type := "gemini"; c_name := "chat";
     c_model := Some (sample_model "M1"); c_workspace := "/workspace" |}.

(** The task built for the sample conversation, the registry that holds
    it, and a store that holds the conversation. *)
Definition sample_built_task : AgentTask.t :=
  GeminiAgentManager.new "/workspace" "c1" (Some (sample_model "M1")).

Definition sample_registry : WorkerManage.t :=
  snd (WorkerManage.buildConversation sample_conversation WorkerManage.empty).



(** Sample stored messages. *)
Definition sample_text (position : string) (content : jsstring) : TMessage :=
  {| m_id := "x"; m_type := "text"; m_position := position;
     m_conversation_id := "c1"; m_content := Some content |}.

Definition sample_tool_message : TMessage :=
  {| m_id := "t"; m_type := "tool_group"; m_position := "left";
     m_conversation_id := "c1"; m_content := None |}.

(** The value that the first entry for [key] carries, if there is one. *)
Definition first_entry {V : Type} (key : string) (entries : list (string * V)) : option V :=
  snd <$> find (fun entry => String.eqb (fst entry) key) entries.

(** A server that [getMcpServers] passes on: enabled, connected and of the
    stdio transport. *)
Definition passed_on (server : McpServers.IMcpServer) : bool :=
  McpServers.connected server
  && String.eqb (McpServers.s_transport_type server) "stdio".

(** Sample MCP servers. *)
Definition sample_server (name status type command : string) (enabled : bool)
  : McpServers.IMcpServer :=
  {| McpServers.s_name := name; McpServers.s_description := None;
     McpServers.s_enabled := enabled; McpServers.s_status := Some status;
     McpServers.s_transport_type := type; McpServers.s_command := command;
     McpServers.s_args := None; McpServers.s_env := None |}.

(** One line of an environment listing, [KEY=value]. *)
Definition env_line (variable : jsstring * jsstring) : jsstring :=
  fst variable ++ [61%N] ++ snd variable.

(** An environment listing: one line per variable, with or without a
    newline after the last one. *)
Definition env_output (variables : list (jsstring * jsstring)) (trailing : bool) : jsstring :=
  join [10%N] (map env_line variables) ++ (if trailing then [10%N] else []).

(** The value of the last variable of that name in a listing. *)
Definition last_value (key : jsstring) (variables : list (jsstring * jsstring))
  : option jsstring :=
  snd <$> find (fun variable => bool_decide (fst variable = key)) (rev variables).

(** A name and a value that fit on one line of a listing. *)
Definition fits_a_line (variable : jsstring * jsstring) : Prop :=
  ~ In 61%N (fst variable) /\ ~ In 10%N (fst variable) /\ ~ In 10%N (snd variable).

(** The state of the agent once a send has used the history prefix. *)
Definition prefix_used (st : GeminiAgentSend.State) : GeminiAgentSend.State :=
  {| GeminiAgentSend.initialized := GeminiAgentSend.initialized st;
     GeminiAgentSend.historyPrefix := GeminiAgentSend.historyPrefix st;
     GeminiAgentSend.historyUsedOnce := true;
     GeminiAgentSend.userMemory := GeminiAgentSend.userMemory st |}.

(** An [handleAtCommand] that always proceeds, with a single part. *)
Definition sample_handleAtCommand (query : jsstring)
  : js_result (option (list GeminiAgent.Part) * bool) :=
  Ok (Some ["query"], true).

(** The controllers after a number of calls of [buildLastAbortController],
    starting from the one that is created with the bridge. *)
Fixpoint controllers_after (calls : nat) : list bool :=
  match calls with
  | O => [false]
  | S n => conversationProviders.buildLastAbortController (controllers_after n)
  end.

(** A second sample conversation, in another workspace. *)
Definition other_conversation : TChatConversation :=
  {| c_id := "c2"; c_type := "acp"; c_name := "other";
     c_model := None; c_workspace := "/elsewhere" |}.

(** The task after the listener has handled a run of events, one by one. *)
Definition after_events (transformMessage : IResponseMessage -> option TMessage)
    (events : list IResponseMessage) (self : AgentTask.t) : AgentTask.t :=
  fold_left (fun task ev => GeminiAgentManager.init_listener transformMessage ev task)
            events self.

(** An event that is neither a start nor a finish event. *)
Definition keeps_status (ev : IResponseMessage) : Prop :=
  e_type ev <> "start" /\ e_type ev <> "finish".

(** The datum of a stream is a tool call request. *)
Definition is_tool_call_request (data : GeminiAgent.StreamData) : bool :=
  String.eqb (GeminiAgent.sd_type data) "tool_call_request".

(** The datum of a stream as [handleMessage] emits it. *)
Definition emitted_as (msg_id : string) (data : GeminiAgent.StreamData) : GeminiAgent.obs :=
  GeminiAgent.OnStreamEvent
    {| GeminiAgent.a_type := GeminiAgent.sd_type data;
       GeminiAgent.a_data := GeminiAgent.sd_data data;
       GeminiAgent.a_msg_id := msg_id |}.

(** The message that [sendMessage] of the manager stores for the user. *)
Definition user_message (self : AgentTask.t) (input : jsstring) (msg_id : string) : TMessage :=
  {| m_id := msg_id; m_type := "text"; m_position := "right";
     m_conversation_id := AgentTask.conversation_id self; m_content := Some input |}.

(** The cache of available models after [getAvailableModels] was called
    for each of [providers] in turn, from an empty cache. *)
Definition cache_after (hasSpecificModelCapability : Guid.IProvider -> string -> string -> option bool)
    (providers : list Guid.IProvider) : gmap string (list string) :=
  fold_left (fun cache provider =>
               snd (Guid.getAvailableModels hasSpecificModelCapability provider cache))
            providers ∅.

(** The provider lists the model [u]. *)
Definition offers (u : string) (provider : Guid.IProvider) : bool :=
  existsb (String.eqb u) (Guid.p_model provider).

(** The headers that are rendered: the non-empty ones. *)
Definition shown (headers : list string) : list string :=
  List.filter (fun header => negb (String.eqb header EmptyString)) headers.

(** No two neighbours of the list are equal. *)
Fixpoint no_repeat (l : list string) : Prop :=
  match l with
  | [] => True
  | x :: rest =>
      match rest with
      | [] => True
      | y :: _ => x <> y
      end /\ no_repeat rest
  end.

(** For each row of a rendered list, the header it stands under: its own
    when it has one, the one in force before it otherwise. *)
Fixpoint in_force (current : string) (headers : list string) : list string :=
  match headers with
  | [] => []
  | header :: rest =>
      let current' := if String.eqb header EmptyString then current else header in
      current' :: in_force current' rest
  end.

(** The four labels of the timeline. *)
Definition timeline_labels : list string :=
  ["conversation.history.today"; "conversation.history.yesterday";
   "conversation.history.recent7Days"; "conversation.history.earlier"].

(** The state of the send box after a run of events of the response
    stream. *)
Definition after_responses (transformMessage : IResponseMessage -> option TMessage)
    (conversation_id : string) (events : list IResponseMessage)
    (st : GeminiSendBox.State) : GeminiSendBox.State :=
  fold_left (GeminiSendBox.onResponse transformMessage conversation_id) events st.

(** The event belongs to the conversation. *)
Definition for_conversation (conversation_id : string) (ev : IResponseMessage) : bool :=
  bool_decide (e_conversation_id ev = Some conversation_id).

(** The event is neither a thought nor the start or the finish of a turn. *)
Definition is_content (ev : IResponseMessage) : bool :=
  negb (String.eqb (e_type ev) "thought")
  && negb (String.eqb (e_type ev) "start")
  && negb (String.eqb (e_type ev) "finish").

(** One pull: a single finger goes down at [y0] on a page that is at its
    top, moves through [moves] (the first touch of each move, and the
    others), and is lifted. *)
Definition pull {number : Type} (y0 : number) (moves : list (number * list number))
  : list (PwaPullToRefresh.Event number) :=
  PwaPullToRefresh.TouchStart number [y0] false true
  :: map (fun m => PwaPullToRefresh.TouchMove number (fst m :: snd m)) moves
  ++ [PwaPullToRefresh.TouchEnd number].

(** The touch start does not begin a pull. *)
Definition begins_no_pull {number : Type} (ev : PwaPullToRefresh.Event number) : Prop :=
  match ev with
  | PwaPullToRefresh.TouchStart _ [_] false true => False
  | _ => True
  end.

(** The submission obtains no stream, because of [e]: the prompt id cannot
    be made, or the request to the model throws. *)
Definition obtains_no_stream (env : GeminiAgent.Env) (query : list GeminiAgent.Part)
    (options : option GeminiAgent.Options) (e : js_error) : Prop :=
  GeminiAgent.resolve_prompt_id env options = Throw e
  \/ exists prompt_id,
       GeminiAgent.resolve_prompt_id env options = Ok prompt_id
       /\ GeminiAgent.sendMessageStream env query prompt_id = Throw e.

(** * Properties *)

(** ** Lists and strings *)


Lemma length_slice_last {A : Type} (n : nat) (l : list A) :
  length (slice_last n l) <= n.
Proof. unfold slice_last. rewrite length_skipn. lia. Qed.

Lemma slice_last_suffix {A : Type} (n : nat) (l : list A) :
  slice_last n l `suffix_of` l.
Proof. unfold slice_last. apply suffix_drop. Qed.

(** ** History injection *)

Section History.
Import AgentTask GeminiAgentManager.

Lemma history_text_length (data : list TMessage) :
  length (history_text data) <= 4000.
Proof. apply length_slice_last. Qed.

Lemma inject_log (result : js_result (option (list TMessage))) (self : t) :
  log (injectHistoryFromDatabase result self) = log self
  \/ log (injectHistoryFromDatabase result self)
     = log self ++ [Posted "init.history" (history_text (page_data result))].
Proof.
  destruct result as [page|e]; simpl; [|by left].
  destruct (history_text (default [] page)) eqn:E; [by left|by right].
Qed.

(** C3. Whatever the stored messages are, the history text is built from
    a suffix of at most 20 of the text-typed messages, it is at most 4000
    code units long, and [injectHistoryFromDatabase] (hence [reloadContext],
    which does nothing else) posts nothing but that text, at most once. *)
Theorem C3_history_window_bounded
    (result : js_result (option (list TMessage))) (self : t) :
  exists (recent : list TMessage) (injected : list jsstring),
    recent `suffix_of` List.filter (fun m => String.eqb (m_type m) "text") (page_data result)
    /\ length recent <= 20
    /\ history_text (page_data result)
       = slice_last 4000 (join [10%N] (map history_line recent))
    /\ length (history_text (page_data result)) <= 4000
    /\ log (injectHistoryFromDatabase result self)
       = log self ++ map (Posted "init.history") injected
    /\ reloadContext result self = injectHistoryFromDatabase result self
    /\ length injected <= 1
    /\ Forall (fun text => text = history_text (page_data result)
                           /\ length text <= 4000) injected.
Proof.
  exists (slice_last 20 (List.filter (fun m => String.eqb (m_type m) "text") (page_data result))).
  destruct (inject_log result self) as [H|H].
  - exists []. rewrite H, app_nil_r.
    repeat split; auto using slice_last_suffix, length_slice_last, history_text_length.
  - exists [history_text (page_data result)]. rewrite H.
    repeat split; auto using slice_last_suffix, length_slice_last, history_text_length.
Qed.

(** Two text messages around a tool message. *)
Example history_of_two_messages :
  history_text [sample_text "right" (lit "hi"); sample_tool_message;
                sample_text "left" (lit "yo")]
  = lit "User: hi" ++ [10%N] ++ lit "Assistant: yo".
Proof. reflexivity. Qed.

(** One message of 5000 code units: the last 4000 code units remain. *)
Example history_of_long_message :
  length (history_text [sample_text "right" (repeat 97%N 5000)]) = 4000.
Proof. vm_compute. reflexivity. Qed.

(** Twenty-five text messages: twenty lines remain. *)
Example history_of_many_messages :
  length (history_lines (repeat (sample_text "left" (lit "ok")) 25)) = 20.
Proof. vm_compute. reflexivity. Qed.

End History.

(** ** The event interceptor *)

Section Interceptor.
Import AgentTask GeminiAgentManager.

Variable transformMessage : IResponseMessage -> option TMessage.

Lemma start_is_not_finish (s : string) :
  String.eqb s "start" = true -> String.eqb s "finish" = false.
Proof. intros H%String.eqb_eq. by subst. Qed.

Lemma init_listener_unfold (ev : IResponseMessage) (self : t) :
  init_listener transformMessage ev self
  = {| type := type self; conversation_id := conversation_id self;
       workspace := workspace self; model := model self;
       status := status_after ev (status self);
       confirmations := confirmations self;
       store := {| Message.queue :=
                     Message.queue (store self)
                     ++ option_list (pair (conversation_id self) <$> persisted transformMessage self ev);
                   Message.durable := Message.durable (store self) |};
       log := log self ++ status_steps ev
                ++ option_list (HandedOver (conversation_id self) <$> persisted transformMessage self ev)
                ++ [Streamed (tagged self ev)] |}.
Proof.
  destruct self as [ty c w m st cf [q d] l].
  unfold init_listener, persisted, status_after, status_steps, tagged,
    set_status, addOrUpdateMessage, observe, set_store; simpl.
  destruct (String.eqb (e_type ev) "finish") eqn:Ef;
    destruct (String.eqb (e_type ev) "start") eqn:Es;
    try (apply start_is_not_finish in Es; congruence); simpl;
    destruct (String.eqb (e_type ev) "thought") eqn:Et; simpl;
    try (apply String.eqb_eq in Et; rewrite Et in *; discriminate);
    try destruct (transformMessage _); simpl;
    rewrite <- ?app_assoc, ?app_nil_r; reflexivity.
Qed.

End Interceptor.

Section InterceptorClaims.
Import AgentTask GeminiAgentManager.

Variable transformMessage : IResponseMessage -> option TMessage.

(** C4, as amended. The listener sets the status to running on a start
    event and to finished on a finish event and leaves it as it is on every
    other event, an error event included; these assignments come first, and
    the last thing the listener does is to republish the event with its
    type, data and message id unchanged and the conversation id of the task
    filled in. *)
Theorem C4_status_then_republish (ev : IResponseMessage) (self : t) :
  status (init_listener transformMessage ev self) = status_after ev (status self)
  /\ exists handed,
       log (init_listener transformMessage ev self)
       = log self ++ status_steps ev ++ handed ++ [Streamed (tagged self ev)]
       /\ Forall (fun o => exists c m, o = HandedOver c m) handed.
Proof.
  rewrite init_listener_unfold; simpl. split; [reflexivity|].
  eexists; split; [reflexivity|].
  destruct (persisted transformMessage self ev); simpl; repeat econstructor.
Qed.


End InterceptorClaims.

(** C4, the claim as stated fails: an error event received while the task
    is running leaves the status at running, not at error; and the event
    that goes out carries a conversation id that the received one lacked. *)
Lemma C4_error_event_keeps_status :
  AgentTask.status
    (GeminiAgentManager.init_listener (fun _ => None) (sample_event "error") sample_task)
  = "running"
  /\ AgentTask.status
       (GeminiAgentManager.init_listener (fun _ => None) (sample_event "error") sample_task)
     <> "error"
  /\ streamed
       (AgentTask.log
          (GeminiAgentManager.init_listener (fun _ => None) (sample_event "error")
             sample_task))
     = [tagged sample_task (sample_event "error")]
  /\ tagged sample_task (sample_event "error") <> sample_event "error".
Proof. repeat split; try reflexivity; discriminate. Qed.


(** With [transformMessage] as the spec describes it, a start event is not
    of the thought kind, yet nothing is handed to the store for it. *)
Example start_event_not_persisted_by_spec :
  e_type (sample_event "start") <> "thought"
  /\ AgentTask.store
       (GeminiAgentManager.init_listener GeminiAgentManager.transformMessage_spec
          (sample_event "start") sample_task)
     = AgentTask.store sample_task
  /\ AgentTask.store
       (AgentTask.flush
          (GeminiAgentManager.init_listener GeminiAgentManager.transformMessage_spec
             (sample_event "start") sample_task))
     = Message.empty.
Proof. repeat split; try reflexivity; discriminate. Qed.


(** ** Sending while the bootstrap fails *)

Section Store.
Import AgentTask.

Lemma upsert_In (c : string) (m : TMessage) (rows : list (string * TMessage)) :
  In (c, m) (Message.upsert c m rows).
Proof.
  induction rows as [|r rows IH]; simpl; [by left|].
  destruct (Message.same_key c m r); [by left | by right].
Qed.

Lemma write_all_snoc (pending rows : list (string * TMessage)) (c : string) (m : TMessage) :
  Message.write_all (pending ++ [(c, m)]) rows
  = Message.upsert c m (Message.write_all pending rows).
Proof. unfold Message.write_all. by rewrite fold_left_app. Qed.

Lemma observe_all_log (f : string * TMessage -> obs) (l : list (string * TMessage)) (s : t) :
  log (fold_left (fun s cm => observe (f cm) s) l s) = log s ++ map f l.
Proof.
  revert s. induction l as [|x l IH]; intros s; simpl; [by rewrite app_nil_r|].
  rewrite IH. simpl. by rewrite <- app_assoc.
Qed.

Lemma observe_all_store (f : string * TMessage -> obs) (l : list (string * TMessage)) (s : t) :
  store (fold_left (fun s cm => observe (f cm) s) l s) = store s.
Proof. revert s. induction l as [|x l IH]; intros s; simpl; [done|]. by rewrite IH. Qed.

Lemma flush_log (self : t) :
  log (flush self)
  = log self ++ map (fun cm => Written (fst cm) (snd cm)) (Message.queue (store self)).
Proof. unfold flush. by rewrite observe_all_log. Qed.

Lemma flush_store (self : t) :
  store (flush self)
  = {| Message.queue := [];
       Message.durable :=
         Message.write_all (Message.queue (store self)) (Message.durable (store self)) |}.
Proof. unfold flush. by rewrite observe_all_store. Qed.

Lemma streamed_app (l1 l2 : list obs) : streamed (l1 ++ l2) = streamed l1 ++ streamed l2.
Proof. unfold streamed. apply flat_map_app. Qed.

Lemma streamed_written (l : list (string * TMessage)) :
  streamed (map (fun cm => Written (fst cm) (snd cm)) l) = [].
Proof. induction l; simpl; auto. Qed.

Lemma settled_written (l : list (string * TMessage)) :
  settled (map (fun cm => Written (fst cm) (snd cm)) l) = [].
Proof. induction l; simpl; auto. Qed.

End Store.

Section SendMessage.
Import AgentTask GeminiAgentManager.

Variable transformMessage : IResponseMessage -> option TMessage.

Lemma read_message_readable (rendered : js_error -> string) (e : js_error) :
  readable e -> read_message rendered e = Ok (rendered e).
Proof. by destruct e. Qed.

(** X25. When the bootstrap promise rejects with a value [e] other than [null]
    and [undefined], and the error event of the send is one that
    [transformMessage] turns into a message, the send puts exactly one event
    on the stream, of type error and carrying the message id of the send; the
    caller's promise settles once, by rejecting with [e], as the last effect
    of the send, and the step right before it is the write of the error
    message, which is then in the store with nothing left to write. *)
Theorem sendMessage_rejects_after_error_is_written
    (input : jsstring) (msg_id : string) (e : js_error)
    (super_sendMessage : js_result unit) (self : t) (errmsg : TMessage) :
  readable e ->
  transformMessage (tagged self (bootstrap_error_event e msg_id)) = Some errmsg ->
  exists before,
    log (sendMessage transformMessage input msg_id (Throw e) super_sendMessage self)
    = log self ++ before ++ [Written (conversation_id self) errmsg; CallerRejected e]
    /\ streamed (before ++ [Written (conversation_id self) errmsg; CallerRejected e])
       = [tagged self (bootstrap_error_event e msg_id)]
    /\ e_type (tagged self (bootstrap_error_event e msg_id)) = "error"
    /\ e_msg_id (tagged self (bootstrap_error_event e msg_id)) = msg_id
    /\ settled before = []
    /\ In (conversation_id self, errmsg)
          (Message.durable
             (store (sendMessage transformMessage input msg_id (Throw e)
                       super_sendMessage self)))
    /\ Message.queue
         (store (sendMessage transformMessage input msg_id (Throw e)
                   super_sendMessage self)) = [].
Proof.
  intros Hreadable Htm.
  unfold sendMessage. rewrite (read_message_readable _ _ Hreadable).
  unfold nextTickToLocalFinish, emit. simpl String.eqb. cbv iota.
  set (message := {| m_id := msg_id; m_type := "text"; m_position := "right";
                     m_conversation_id := conversation_id self;
                     m_content := Some input |}).
  set (self2 := set_status "pending" (addMessage (conversation_id self) message self)).
  assert (Hc : conversation_id self2 = conversation_id self) by reflexivity.
  assert (Htag : tagged self2 (bootstrap_error_event e msg_id)
                 = tagged self (bootstrap_error_event e msg_id)) by reflexivity.
  unfold bootstrap_error_event in *.
  rewrite init_listener_unfold. unfold persisted. simpl String.eqb. cbv iota.
  rewrite Htag, Htm, Hc. simpl.
  exists ([Written (conversation_id self) message; SetStatus "pending";
           HandedOver (conversation_id self) errmsg;
           Streamed (tagged self (bootstrap_error_event e msg_id))]
          ++ map (fun cm => Written (fst cm) (snd cm)) (Message.queue (store self))).
  rewrite flush_log, flush_store. simpl.
  rewrite write_all_snoc, map_app. simpl.
  repeat split.
  - rewrite <- !app_assoc. simpl. rewrite <- ?app_assoc. reflexivity.
  - rewrite !streamed_app, streamed_written. reflexivity.
  - simpl. apply settled_written.
  - apply upsert_In.
Qed.

End SendMessage.

(** The sample send, effect by effect. *)
Example sample_failed_send :
  AgentTask.log
    (GeminiAgentManager.sendMessage GeminiAgentManager.transformMessage_spec
       (lit "hello") "m1" (Throw (Error "bootstrap failed")) (Ok tt)
       (GeminiAgentManager.new "/workspace" "c1" None))
  = [ AgentTask.Written "c1"
        {| m_id := "m1"; m_type := "text"; m_position := "right";
           m_conversation_id := "c1"; m_content := Some (lit "hello") |};
      AgentTask.SetStatus "pending";
      AgentTask.HandedOver "c1" sample_error_message;
      AgentTask.Streamed
        {| e_type := "error"; e_data := "bootstrap failed"; e_msg_id := "m1";
           e_conversation_id := Some "c1" |};
      AgentTask.Written "c1" sample_error_message;
      AgentTask.CallerRejected (Error "bootstrap failed") ].
Proof. reflexivity. Qed.

(** On the sample task, a send whose bootstrap failed leaves nothing to
    write. *)
Lemma sendMessage_rejects_after_error_is_written_witness :
  readable (Error "bootstrap failed")
  /\ GeminiAgentManager.transformMessage_spec
       (tagged sample_task (bootstrap_error_event (Error "bootstrap failed") "m1"))
     = Some sample_error_message
  /\ Message.queue
       (AgentTask.store
          (GeminiAgentManager.sendMessage GeminiAgentManager.transformMessage_spec
             (lit "hello") "m1" (Throw (Error "bootstrap failed")) (Ok tt) sample_task))
     = [].
Proof.
  split; [exact I|]. split; [reflexivity|].
  destruct (sendMessage_rejects_after_error_is_written
              GeminiAgentManager.transformMessage_spec
              (lit "hello") "m1" (Error "bootstrap failed") (Ok tt) sample_task
              sample_error_message I eq_refl)
    as (before & _ & _ & _ & _ & _ & _ & H).
  exact H.
Defined.

(** C2. A bootstrap that rejects with [undefined] breaks the send's error
    path: the handler throws while it reads [e.message], so the send puts no
    event on the stream and writes no error message; after the write of the
    user's message and the pending status, the caller is rejected at once,
    with the [TypeError] of the failed read.  A rejection with [null] goes
    the same way. *)
Theorem C2_undefined_rejection_emits_nothing :
  AgentTask.log
    (GeminiAgentManager.sendMessage GeminiAgentManager.transformMessage_spec
       (lit "hello") "m1" (Throw (Nullish false)) (Ok tt)
       (GeminiAgentManager.new "/workspace" "c1" None))
  = [ AgentTask.Written "c1"
        {| m_id := "m1"; m_type := "text"; m_position := "right";
           m_conversation_id := "c1"; m_content := Some (lit "hello") |};
      AgentTask.SetStatus "pending";
      AgentTask.CallerRejected
        (Error "Cannot read properties of undefined (reading 'message')") ]
  /\ (forall (transformMessage : IResponseMessage -> option TMessage)
             (input : jsstring) (msg_id : string) (null : bool)
             (super_sendMessage : js_result unit) (self : AgentTask.t),
        streamed
          (AgentTask.log
             (GeminiAgentManager.sendMessage transformMessage input msg_id
                (Throw (Nullish null)) super_sendMessage self))
        = streamed (AgentTask.log self)).
Proof.
  split; [reflexivity|].
  intros transformMessage input msg_id null super_sendMessage self.
  unfold GeminiAgentManager.sendMessage. simpl.
  rewrite !streamed_app. unfold streamed. simpl. by rewrite ?app_nil_r.
Qed.

(** ** One turn of the model stream *)

Section SubmitQuery.
Import GeminiAgent.

Lemma emitted_for_app (msg_id : string) (l1 l2 : list obs) :
  emitted_for msg_id (l1 ++ l2) = emitted_for msg_id l1 ++ emitted_for msg_id l2.
Proof. unfold emitted_for. apply flat_map_app. Qed.

Lemma emitted_for_silent (msg_id : string) (l : list obs) :
  Forall (silent_for msg_id) l -> emitted_for msg_id l = [].
Proof.
  induction 1 as [|o l Ho _ IH]; [reflexivity|].
  simpl. rewrite IH. destruct o; try reflexivity.
  simpl in Ho. apply String.eqb_neq in Ho. by rewrite Ho.
Qed.

Lemma handle_callbacks_between (msg_id : string) (cbs : list StreamData) :
  Forall (fun d => in_between (sd_type d)) cbs ->
  forall reqs,
    Forall (fun ev => in_between (a_type ev))
           (emitted_for msg_id (fst (handle_callbacks msg_id cbs reqs))).
Proof.
  induction 1 as [|d cbs Hd _ IH]; intros reqs; simpl; [constructor|].
  destruct (String.eqb (sd_type d) "tool_call_request"); [apply IH|].
  specialize (IH reqs). destruct (handle_callbacks msg_id cbs reqs) as [os rs].
  simpl in *. rewrite String.eqb_refl. simpl. constructor; assumption.
Qed.

(** The promise that [handleMessage] returns rejects only when the
    processing failed with [null] or [undefined]: with the [TypeError] of
    reading the message. *)
Lemma handleMessage_settles (run : StreamRun) (msg_id : string) :
  snd (handleMessage run msg_id)
  = match failure run msg_id with
    | Some (Nullish null) => Throw (cannot_read_message null)
    | _ => Ok tt
    end.
Proof.
  unfold handleMessage, failure.
  destruct (handle_callbacks msg_id (callbacks run) []) as [os reqs]. simpl.
  destruct (processing run) as [[]|e0];
    [destruct reqs; [|destruct (snd (scheduling run)) as [[]|e1]; [|destruct e1]]
    |destruct e0]; reflexivity.
Qed.

(** A call that is to be resubmitted passes the filter that picks the
    prompt id. *)
Lemma resubmittable_isGeminiTool (tc : ToolCall) :
  resubmittable tc = true -> isGeminiTool tc = true.
Proof.
  unfold resubmittable, isGeminiTool.
  destruct (String.eqb (tc_status tc) "success"), (String.eqb (tc_status tc) "error"),
    (String.eqb (tc_status tc) "cancelled"), (isClientInitiated (request tc)),
    (bool_decide (is_Some (responseParts tc))); simpl; congruence.
Qed.

Lemma filter_nil_iff_none {A : Type} (f : A -> bool) (l : list A) :
  (forall x, In x l -> f x = false) -> List.filter f l = [].
Proof.
  induction l as [|x l IH]; intros H; simpl; [done|].
  rewrite (H x) by (by left). apply IH. intros y Hy. apply H. by right.
Qed.

(** C10. When a submission obtains a model stream, whose data are neither
    start nor finish events and whose scheduling emits nothing under the
    message id of the submission, the events emitted for that message id
    are: one start event, then events that are neither start nor finish,
    then one finish event; and when the processing of the stream fails with
    [e], the event right before the finish event is the error event for
    [e]: it carries the message of [e] or, when [e] is [null] or
    [undefined], the message of the [TypeError] of reading it. *)
Theorem C10_start_first_finish_last
    (env : Env) (query : list Part) (msg_id : string) (options : option Options)
    (prompt_id : string) (run : StreamRun) :
  resolve_prompt_id env options = Ok prompt_id ->
  sendMessageStream env query prompt_id = Ok run ->
  Forall (fun d => in_between (sd_type d)) (callbacks run) ->
  Forall (silent_for msg_id) (fst (scheduling run)) ->
  fst (submitQuery env query msg_id options) = Ok (Some EmptyString)
  /\ exists middle,
       emitted_for msg_id (snd (submitQuery env query msg_id options))
       = event "start" EmptyString msg_id :: middle ++ [event "finish" EmptyString msg_id]
       /\ Forall (fun ev => in_between (a_type ev)) middle
       /\ (forall e, failure run msg_id = Some e ->
           exists earlier, middle = earlier ++ [event "error" (reported e) msg_id]).
Proof.
  intros Hpid Hstream Hcbs Hsched.
  unfold submitQuery. rewrite Hpid, Hstream.
  pose proof (handle_callbacks_between msg_id (callbacks run) Hcbs []) as Hbetween.
  unfold failure, handleMessage.
  destruct (handle_callbacks msg_id (callbacks run) []) as [os reqs]. simpl in Hbetween.
  assert (Hnew : emitted_for msg_id
                   (if negb (default false (options ≫= o_isContinuation))
                    then [StartNewPrompt] else []) = [])
    by (destruct (negb _); reflexivity).
  pose proof (emitted_for_silent _ _ Hsched) as Hs.
  destruct (processing run) as [[]|e0]; [destruct reqs as [|rq reqs]|];
    [| destruct (snd (scheduling run)) as [[]|e1]; [|destruct e1 as [m|str json|null]]
     | destruct e0 as [m|str json|null]]; simpl;
    (split; [reflexivity|]);
    rewrite ?emitted_for_app, Hnew;
    repeat progress (rewrite ?emitted_for_app, ?Hs, ?String.eqb_refl, ?app_nil_r; simpl).
  1, 2: exists (emitted_for msg_id os); rewrite ?app_nil_r;
    repeat split; [assumption|discriminate].
  all: match goal with
       | |- context [Some ?x = Some _] =>
           exists (emitted_for msg_id os ++ [event "error" (reported x) msg_id])
       end.
  all: split; [by rewrite <- ?app_assoc|].
  all: split; [apply Forall_app; split;
                 [assumption|repeat constructor; simpl; discriminate]|].
  all: intros e [= <-]; eauto.
Qed.

(** C6. When the calls of a completed batch all carry the prompt id [p] of
    the prompt they belong to and some of them are to be resubmitted, the
    first thing [onAllToolCallsComplete] does is to send to the model the
    payloads of exactly the calls that are completed and not cancelled, not
    client-initiated and have a response payload, under that same prompt id
    [p]; it does so through [submitQuery] marked as a continuation, so no new
    prompt is started before the request goes out.  Its effects are those of
    that [submitQuery], followed by the error event of its own [catch] in
    the one case that [submitQuery] throws. *)
Theorem C6_resubmits_as_continuation
    (env : Env) (uuid uuid' : string) (completedToolCalls : list ToolCall) (p : string) :
  Forall (fun tc => prompt_id (request tc) = p) completedToolCalls ->
  p <> EmptyString ->
  handleCompletedTools completedToolCalls <> [] ->
  onAllToolCallsComplete env uuid uuid' completedToolCalls
  = snd (submitQuery env (handleCompletedTools completedToolCalls) uuid
           (Some {| o_prompt_id := Some p; o_isContinuation := Some true |}))
    ++ match fst (submitQuery env (handleCompletedTools completedToolCalls) uuid
                    (Some {| o_prompt_id := Some p; o_isContinuation := Some true |})) with
       | Ok _ => []
       | Throw e => onAllToolCallsComplete_catch uuid' e
       end
  /\ exists rest,
       onAllToolCallsComplete env uuid uuid' completedToolCalls
       = SendMessageStream
           (flat_map (fun tc => default [] (responseParts tc))
              (List.filter
                 (fun tc =>
                    (String.eqb (tc_status tc) "success" || String.eqb (tc_status tc) "error")
                    && negb (isClientInitiated (request tc))
                    && bool_decide (is_Some (responseParts tc)))
                 completedToolCalls))
           p
         :: rest.
Proof.
  intros Hp Hne Hresp.
  assert (Hfirst : exists first more,
             List.filter isGeminiTool completedToolCalls = first :: more
             /\ prompt_id (request first) = p).
  { destruct (List.filter isGeminiTool completedToolCalls) as [|first more] eqn:Hg.
    - exfalso. apply Hresp. unfold handleCompletedTools.
      replace (List.filter resubmittable completedToolCalls) with (@nil ToolCall); [done|].
      symmetry. apply filter_nil_iff_none. intros tc Hin.
      destruct (resubmittable tc) eqn:Hr; [|done].
      apply resubmittable_isGeminiTool in Hr.
      assert (In tc (List.filter isGeminiTool completedToolCalls))
        by (apply filter_In; auto).
      rewrite Hg in *. contradiction.
    - exists first, more. split; [done|].
      assert (Hin : In first (List.filter isGeminiTool completedToolCalls))
        by (rewrite Hg; by left).
      apply filter_In in Hin as [Hin _].
      rewrite List.Forall_forall in Hp. by apply Hp. }
  destruct Hfirst as (first & more & Hg & Hfp).
  assert (Hon : onAllToolCallsComplete env uuid uuid' completedToolCalls
                = snd (submitQuery env (handleCompletedTools completedToolCalls) uuid
                         (Some {| o_prompt_id := Some p; o_isContinuation := Some true |}))
                  ++ match fst (submitQuery env (handleCompletedTools completedToolCalls)
                                  uuid
                                  (Some {| o_prompt_id := Some p;
                                           o_isContinuation := Some true |})) with
                     | Ok _ => []
                     | Throw e => onAllToolCallsComplete_catch uuid' e
                     end).
  { unfold onAllToolCallsComplete.
    destruct completedToolCalls as [|tc0 tcs]; [done|].
    destruct (handleCompletedTools (tc0 :: tcs)) as [|part parts]; [done|].
    rewrite Hg, Hfp.
    destruct (submitQuery env (part :: parts) uuid _) as [[returned|e] os]; simpl;
      [by rewrite app_nil_r|done]. }
  split; [exact Hon|].
  rewrite Hon. unfold submitQuery, submitQuery_catch, resolve_prompt_id. simpl.
  apply String.eqb_neq in Hne. rewrite Hne. simpl.
  fold (handleCompletedTools completedToolCalls).
  change (List.filter _ completedToolCalls) with (List.filter resubmittable completedToolCalls).
  fold (handleCompletedTools completedToolCalls).
  destruct (sendMessageStream env (handleCompletedTools completedToolCalls) p) as [run|e];
    [destruct (handleMessage run uuid) as [os st]|destruct e]; simpl; eauto.
Qed.

End SubmitQuery.

(** The sample submission: start, the content event, the error of the
    failed scheduling, finish. *)
Example sample_submission_events :
  emitted_for "m1" (snd (GeminiAgent.submitQuery sample_env ["hello"] "m1" None))
  = [ GeminiAgent.event "start" EmptyString "m1";
      GeminiAgent.event "content" "hi" "m1";
      GeminiAgent.event "error" "tool failed" "m1";
      GeminiAgent.event "finish" EmptyString "m1" ].
Proof. reflexivity. Qed.

(** The sample submission obtains its stream and returns the empty string. *)
Lemma C10_start_first_finish_last_witness :
  (GeminiAgent.resolve_prompt_id sample_env None = Ok "s1########0"
   /\ GeminiAgent.sendMessageStream sample_env ["hello"] "s1########0" = Ok sample_run
   /\ Forall (fun d => in_between (GeminiAgent.sd_type d)) (GeminiAgent.callbacks sample_run)
   /\ Forall (silent_for "m1") (fst (GeminiAgent.scheduling sample_run)))
  /\ fst (GeminiAgent.submitQuery sample_env ["hello"] "m1" None) = Ok (Some EmptyString).
Proof.
  assert (H1 : GeminiAgent.resolve_prompt_id sample_env None = Ok "s1########0")
    by reflexivity.
  assert (H2 : GeminiAgent.sendMessageStream sample_env ["hello"] "s1########0" = Ok sample_run)
    by reflexivity.
  assert (H3 : Forall (fun d => in_between (GeminiAgent.sd_type d))
                      (GeminiAgent.callbacks sample_run))
    by (repeat constructor; discriminate).
  assert (H4 : Forall (silent_for "m1") (fst (GeminiAgent.scheduling sample_run)))
    by (repeat constructor; discriminate).
  split; [auto|].
  exact (proj1 (C10_start_first_finish_last sample_env ["hello"] "m1" None
                  "s1########0" sample_run H1 H2 H3 H4)).
Defined.

(** The sample batch: only the successful, model-initiated call is sent
    back, under the prompt id of the batch. *)
Example sample_batch_resubmission :
  exists rest,
    GeminiAgent.onAllToolCallsComplete sample_env "u1" "u2" sample_calls
    = GeminiAgent.SendMessageStream ["file contents"] "s1########0" :: rest.
Proof. eexists. reflexivity. Qed.

Lemma C6_resubmits_as_continuation_witness :
  (Forall (fun tc => GeminiAgent.prompt_id (GeminiAgent.request tc) = "s1########0")
          sample_calls
   /\ "s1########0" <> EmptyString
   /\ GeminiAgent.handleCompletedTools sample_calls <> [])
  /\ GeminiAgent.onAllToolCallsComplete sample_env "u1" "u2" sample_calls
     = snd (GeminiAgent.submitQuery sample_env (GeminiAgent.handleCompletedTools sample_calls)
              "u1"
              (Some {| GeminiAgent.o_prompt_id := Some "s1########0";
                       GeminiAgent.o_isContinuation := Some true |}))
       ++ match fst (GeminiAgent.submitQuery sample_env
                       (GeminiAgent.handleCompletedTools sample_calls) "u1"
                       (Some {| GeminiAgent.o_prompt_id := Some "s1########0";
                                GeminiAgent.o_isContinuation := Some true |})) with
          | Ok _ => []
          | Throw e => GeminiAgent.onAllToolCallsComplete_catch "u2" e
          end.
Proof.
  assert (H1 : Forall (fun tc => GeminiAgent.prompt_id (GeminiAgent.request tc) = "s1########0")
                      sample_calls)
    by (repeat constructor).
  assert (H2 : "s1########0" <> EmptyString) by discriminate.
  assert (H3 : GeminiAgent.handleCompletedTools sample_calls <> []) by discriminate.
  split; [auto|].
  exact (proj1 (C6_resubmits_as_continuation sample_env "u1" "u2" sample_calls
                  "s1########0" H1 H2 H3)).
Defined.

(** ** The registry *)

Section Registry.
Import WorkerManage.

Lemma filter_filter_le {A : Type} (f g : A -> bool) (l : list A) :
  length (List.filter f (List.filter g l)) <= length (List.filter f l).
Proof.
  induction l as [|x l IH]; simpl; [lia|].
  destruct (g x), (f x) eqn:Hf; simpl; rewrite ?Hf; simpl; lia.
Qed.

Lemma filter_out_none (id : string) (l : list (string * AgentTask.t)) :
  List.filter (is_id id) (List.filter (fun e => negb (is_id id e)) l) = [].
Proof.
  induction l as [|x l IH]; simpl; [done|].
  destruct (is_id id x) eqn:Hx; simpl; rewrite ?Hx; simpl; exact IH.
Qed.

Lemma find_filter_out (id : string) (l : list (string * AgentTask.t)) :
  find (is_id id) (List.filter (fun e => negb (is_id id e)) l) = None.
Proof.
  induction l as [|x l IH]; simpl; [done|].
  destruct (is_id id x) eqn:Hx; simpl; rewrite ?Hx; simpl; exact IH.
Qed.

Lemma find_app_none {A : Type} (f : A -> bool) (l1 l2 : list A) :
  find f l1 = None -> find f (l1 ++ l2) = find f l2.
Proof.
  induction l1 as [|x l1 IH]; simpl; [done|]. destruct (f x); [done|exact IH].
Qed.

Lemma registered_build (id : string) (c : TChatConversation) (r : t) :
  registered id r <= 1 -> registered id (snd (buildConversation c r)) <= 1.
Proof.
  unfold registered, buildConversation. intros H.
  destruct (construct c) as [task|]; simpl; [|exact H].
  rewrite List.filter_app, length_app. simpl.
  destruct (is_id id (c_id c, task)) eqn:Hid; simpl.
  - unfold is_id in Hid. simpl in Hid. apply String.eqb_eq in Hid. subst id.
    rewrite filter_out_none. simpl. lia.
  - pose proof (filter_filter_le (is_id id) (fun e => negb (is_id (c_id c) e)) (taskList r)).
    lia.
Qed.

Lemma registered_exec (id : string) (r : t) (s : step) :
  registered id r <= 1 -> registered id (exec r s) <= 1.
Proof.
  intros H. destruct s as [c|caller i|i c|i|]; simpl.
  - by apply registered_build.
  - unfold getTaskByIdRollbackBuild_call. by destruct (getTaskById i r).
  - unfold getTaskByIdRollbackBuild_loaded.
    destruct (building r !! i); [|exact H].
    destruct c as [c|]; [|exact H].
    pose proof (registered_build id c r H) as Hb.
    destruct (buildConversation c r) as [task r']. exact Hb.
  - unfold kill. destruct (getTaskById i r); [|exact H].
    unfold registered in *. simpl.
    pose proof (filter_filter_le (is_id id) (fun e => negb (is_id i e)) (taskList r)). lia.
  - unfold registered. simpl. lia.
Qed.

Lemma registered_run (id : string) (steps : list step) : registered id (run steps) <= 1.
Proof.
  unfold run.
  assert (H : registered id empty <= 1) by (unfold registered; simpl; lia).
  revert H. generalize empty. induction steps as [|s steps IH]; intros r H; simpl; [exact H|].
  apply IH. by apply registered_exec.
Qed.

Lemma build_registers (c : TChatConversation) (task : AgentTask.t) (r : t) :
  construct c = Some task ->
  buildConversation c r
  = (Some task,
     {| taskList := List.filter (fun e => negb (is_id (c_id c) e)) (taskList r)
                      ++ [(c_id c, task)];
        building := building r;
        log := log r ++ [Constructed (c_id c)] |})
  /\ getTaskById (c_id c) (snd (buildConversation c r)) = Some task
  /\ registered (c_id c) (snd (buildConversation c r)) = 1.
Proof.
  intros Hc. unfold buildConversation. rewrite Hc. simpl. split; [done|]. split.
  - unfold getTaskById. simpl. rewrite find_app_none by apply find_filter_out.
    simpl. unfold is_id. simpl. by rewrite String.eqb_refl.
  - unfold registered. simpl. rewrite List.filter_app, filter_out_none. simpl.
    unfold is_id. simpl. by rewrite String.eqb_refl.
Qed.

(** C1. After any schedule of builds, rebuild calls, completed loads, kills
    and clears, at most one task is registered under each id.  A rebuild call
    for an id that is not built while a build for it is in flight constructs
    nothing and registers nothing: the caller joins those that await the
    build.  When that build completes, one task is constructed and
    registered under the id, and every awaiting caller is delivered that
    task. *)
Theorem C1_one_live_task_per_id (steps : list step) (id : string) :
  registered id (run steps) <= 1
  /\ (forall caller callers,
        getTaskById id (run steps) = None ->
        building (run steps) !! id = Some callers ->
        taskList (getTaskByIdRollbackBuild_call caller id (run steps)) = taskList (run steps)
        /\ log (getTaskByIdRollbackBuild_call caller id (run steps)) = log (run steps)
        /\ building (getTaskByIdRollbackBuild_call caller id (run steps)) !! id
           = Some (callers ++ [caller]))
  /\ (forall callers conversation task,
        building (run steps) !! id = Some callers ->
        c_id conversation = id ->
        construct conversation = Some task ->
        getTaskById id (getTaskByIdRollbackBuild_loaded id (Some conversation) (run steps))
        = Some task
        /\ registered id (getTaskByIdRollbackBuild_loaded id (Some conversation) (run steps))
           = 1
        /\ log (getTaskByIdRollbackBuild_loaded id (Some conversation) (run steps))
           = log (run steps) ++ Constructed id
               :: map (fun caller => Delivered caller (Some task)) callers
        /\ building (getTaskByIdRollbackBuild_loaded id (Some conversation) (run steps)) !! id
           = None).
Proof.
  split; [apply registered_run|]. generalize (run steps). intros r. split.
  - intros caller callers Hnone Hb. unfold getTaskByIdRollbackBuild_call.
    rewrite Hnone, Hb. simpl. repeat split. apply lookup_insert_eq.
  - intros callers c task Hb Hid Hc. unfold getTaskByIdRollbackBuild_loaded. rewrite Hb.
    destruct (build_registers c task r Hc) as (Heq & Hget & Hreg).
    rewrite Hid in *. rewrite Heq in *. simpl in *. repeat split.
    + exact Hget.
    + exact Hreg.
    + by rewrite <- app_assoc.
    + apply lookup_delete_eq.
Qed.

End Registry.

(** Two rebuild calls for the same unbuilt conversation, then the load
    completes: one task is constructed and both callers receive it. *)
Example two_callers_one_build :
  registered "c1"
    (WorkerManage.run [WorkerManage.Call 1 "c1"; WorkerManage.Call 2 "c1";
                       WorkerManage.Loaded "c1" (Some sample_conversation)]) = 1
  /\ exists task,
       WorkerManage.log
         (WorkerManage.run [WorkerManage.Call 1 "c1"; WorkerManage.Call 2 "c1";
                            WorkerManage.Loaded "c1" (Some sample_conversation)])
       = [WorkerManage.Constructed "c1";
          WorkerManage.Delivered 1 (Some task); WorkerManage.Delivered 2 (Some task)].
Proof. split; [reflexivity|]. eexists. vm_compute. reflexivity. Qed.

(** With the first caller's build of [c1] in flight, a second caller joins
    it. *)
Lemma C1_one_live_task_per_id_witness :
  (WorkerManage.getTaskById "c1" (WorkerManage.run [WorkerManage.Call 1 "c1"]) = None
   /\ WorkerManage.building (WorkerManage.run [WorkerManage.Call 1 "c1"]) !! "c1" = Some [1])
  /\ WorkerManage.building
       (WorkerManage.getTaskByIdRollbackBuild_call 2 "c1"
          (WorkerManage.run [WorkerManage.Call 1 "c1"])) !! "c1"
     = Some [1; 2].
Proof.
  assert (H1 : WorkerManage.getTaskById "c1" (WorkerManage.run [WorkerManage.Call 1 "c1"]) = None)
    by reflexivity.
  assert (H2 : WorkerManage.building (WorkerManage.run [WorkerManage.Call 1 "c1"]) !! "c1"
               = Some [1])
    by (vm_compute; reflexivity).
  split; [auto|].
  exact (proj2 (proj2 (proj1 (proj2 (C1_one_live_task_per_id [WorkerManage.Call 1 "c1"] "c1"))
                         2 [1] H1 H2))).
Defined.

(** ** The providers *)

Section Providers.
Import WorkerManage conversationBridge.

Lemma replace_first_same (id : string) (task : AgentTask.t) (l : list (string * AgentTask.t)) :
  snd <$> find (is_id id) l = Some task -> replace_first id task l = l.
Proof.
  induction l as [|[i t0] l IH]; simpl; [done|].
  destruct (is_id id (i, t0)) eqn:Hid; simpl.
  - intros [= ->]. reflexivity.
  - intros H. by rewrite IH.
Qed.

Lemma replace_first_find (id : string) (task t0 : AgentTask.t) (l : list (string * AgentTask.t)) :
  snd <$> find (is_id id) l = Some t0 ->
  snd <$> find (is_id id) (replace_first id task l) = Some task.
Proof.
  induction l as [|[i t1] l IH]; simpl; [done|].
  destruct (is_id id (i, t1)) eqn:Hid; simpl.
  - intros _. unfold is_id in *. simpl in *. by rewrite Hid.
  - rewrite Hid. exact IH.
Qed.

Lemma mutate_same (id : string) (task : AgentTask.t) (r : t) :
  getTaskById id r = Some task -> mutate id task r = r.
Proof.
  intros H. unfold mutate. rewrite replace_first_same by exact H. by destruct r.
Qed.

Lemma mutate_get (id : string) (task t0 : AgentTask.t) (r : t) :
  getTaskById id r = Some t0 -> getTaskById id (mutate id task r) = Some task.
Proof. apply replace_first_find. Qed.


(** Confirming a call id whose slot is not awaiting a decision changes
    nothing. *)
Lemma resolve_confirmation_noop (callId confirmKey : string) (task : AgentTask.t) :
  AgentTask.confirmations task !! callId <> Some None ->
  AgentTask.resolve_confirmation callId confirmKey task = (Ok tt, task).
Proof.
  intros H. unfold AgentTask.resolve_confirmation.
  destruct (AgentTask.confirmations task !! callId) as [[k|]|]; congruence.
Qed.

(** After a confirmation the slot is not awaiting a decision, and the type
    of the task is what it was. *)
Lemma resolve_confirmation_settles (callId confirmKey : string) (task : AgentTask.t) :
  AgentTask.confirmations (snd (AgentTask.resolve_confirmation callId confirmKey task)) !! callId
  <> Some None
  /\ AgentTask.type (snd (AgentTask.resolve_confirmation callId confirmKey task))
     = AgentTask.type task
  /\ fst (AgentTask.resolve_confirmation callId confirmKey task) = Ok tt.
Proof.
  unfold AgentTask.resolve_confirmation.
  destruct (AgentTask.confirmations task !! callId) as [[k|]|] eqn:H; simpl;
    rewrite ?lookup_insert_eq, ?H; repeat split; congruence.
Qed.

(** The registry after [confirmMessage]: only a gemini task is touched. *)
Lemma confirmMessage_registry (confirmKey msg_id conversation_id callId : string)
    (other_confirm : js_result unit) (r : t) :
  snd (confirmMessage confirmKey msg_id conversation_id callId other_confirm r)
  = match getTaskById conversation_id r with
    | Some task =>
        if String.eqb (AgentTask.type task) "gemini"
        then mutate conversation_id
               (snd (AgentTask.resolve_confirmation callId confirmKey task)) r
        else r
    | None => r
    end.
Proof.
  unfold confirmMessage, GeminiAgentManager.confirmMessage.
  destruct (getTaskById conversation_id r) as [task|]; [|done].
  destruct (String.eqb (AgentTask.type task) "codex") eqn:Hc.
  - apply String.eqb_eq in Hc. rewrite Hc. reflexivity.
  - destruct (String.eqb (AgentTask.type task) "gemini") eqn:Hg.
    + by destruct (AgentTask.resolve_confirmation callId confirmKey task).
    + by destruct (String.eqb (AgentTask.type task) "acp").
Qed.

(** C7. [confirmMessage] always returns an envelope and never throws,
    whatever the registry holds and however the task's confirmation settles.
    Without a registered task the envelope is a failure and nothing changes;
    for a gemini task and a call id that is unknown or already resolved the
    envelope is a success and nothing changes; and a second confirm for the
    same call id leaves the registry as the first one left it. *)
Theorem C7_confirm_is_harmless
    (confirmKey msg_id conversation_id callId : string)
    (other_confirm : js_result unit) (r : t) :
  (exists envelope,
      fst (confirmMessage confirmKey msg_id conversation_id callId other_confirm r)
      = Ok envelope)
  /\ (getTaskById conversation_id r = None ->
      confirmMessage confirmKey msg_id conversation_id callId other_confirm r
      = (Ok {| success := false; msg := Some "conversation not found" |}, r))
  /\ (forall task,
        getTaskById conversation_id r = Some task ->
        AgentTask.type task = "gemini" ->
        AgentTask.confirmations task !! callId <> Some None ->
        confirmMessage confirmKey msg_id conversation_id callId other_confirm r
        = (Ok {| success := true; msg := None |}, r))
  /\ (forall confirmKey' msg_id' other_confirm',
        snd (confirmMessage confirmKey' msg_id' conversation_id callId other_confirm'
               (snd (confirmMessage confirmKey msg_id conversation_id callId
                       other_confirm r)))
        = snd (confirmMessage confirmKey msg_id conversation_id callId other_confirm r)).
Proof.
  split; [|split; [|split]].
  - unfold confirmMessage, GeminiAgentManager.confirmMessage.
    destruct (getTaskById conversation_id r) as [task|]; [|eauto].
    destruct (String.eqb (AgentTask.type task) "codex").
    { destruct other_confirm; simpl; eauto. }
    destruct (String.eqb (AgentTask.type task) "gemini").
    { destruct (resolve_confirmation_settles callId confirmKey task) as (_ & _ & Hok).
      destruct (AgentTask.resolve_confirmation callId confirmKey task) as [st task'].
      simpl in Hok. subst st. simpl. eauto. }
    destruct (String.eqb (AgentTask.type task) "acp").
    { destruct other_confirm; simpl; eauto. }
    simpl. eauto.
  - intros H. unfold confirmMessage. by rewrite H.
  - intros task Hget Hty Hslot.
    unfold confirmMessage, GeminiAgentManager.confirmMessage.
    rewrite Hget, Hty. simpl.
    rewrite resolve_confirmation_noop by exact Hslot. simpl.
    by rewrite mutate_same.
  - intros confirmKey' msg_id' other_confirm'.
    rewrite !confirmMessage_registry.
    destruct (getTaskById conversation_id r) as [task|] eqn:Hget; [|by rewrite Hget].
    destruct (String.eqb (AgentTask.type task) "gemini") eqn:Hg; [|by rewrite Hget, Hg].
    destruct (resolve_confirmation_settles callId confirmKey task) as (Hslot & Hty & _).
    rewrite (mutate_get _ _ _ _ Hget), Hty, Hg.
    rewrite resolve_confirmation_noop by exact Hslot. simpl.
    apply mutate_same. by apply (mutate_get _ _ task).
Qed.

(** C9. For an id without a registered task, [stop] answers with a success
    envelope, although nothing was stopped, whereas [sendMessage], once the
    rebuild has delivered no task, answers with a failure envelope. *)
Theorem C9_stop_succeeds_without_task
    (conversation_id : string)
    (task_stop copyFiles task_sendMessage : js_result unit) (r : t) :
  getTaskById conversation_id r = None ->
  stop conversation_id task_stop r
  = Ok {| success := true; msg := Some "conversation not found" |}
  /\ sendMessage (Ok None) copyFiles task_sendMessage
     = Ok {| success := false; msg := Some "conversation not found" |}.
Proof.
  intros H. unfold stop. rewrite H. split; reflexivity.
Qed.


End Providers.


(** Confirming an unregistered call id on the sample task succeeds and
    changes nothing. *)
Lemma C7_confirm_is_harmless_witness :
  (WorkerManage.getTaskById "c1" sample_registry = Some sample_built_task
   /\ AgentTask.type sample_built_task = "gemini"
   /\ AgentTask.confirmations sample_built_task !! "unregistered" <> Some None)
  /\ conversationBridge.confirmMessage "proceed_once" "m1" "c1" "unregistered"
       (Ok tt) sample_registry
     = (Ok {| success := true; msg := None |}, sample_registry).
Proof.
  assert (H1 : WorkerManage.getTaskById "c1" sample_registry = Some sample_built_task)
    by reflexivity.
  assert (H2 : AgentTask.type sample_built_task = "gemini") by reflexivity.
  assert (H3 : AgentTask.confirmations sample_built_task !! "unregistered" <> Some None)
    by (vm_compute; discriminate).
  split; [auto|].
  exact (proj1 (proj2 (proj2 (C7_confirm_is_harmless "proceed_once" "m1" "c1" "unregistered"
                                (Ok tt) sample_registry)))
           sample_built_task H1 H2 H3).
Defined.


(** Stopping a conversation that has no task in the empty registry. *)
Lemma C9_stop_succeeds_without_task_witness :
  WorkerManage.getTaskById "c1" WorkerManage.empty = None
  /\ conversationBridge.stop "c1" (Ok tt) WorkerManage.empty
     = Ok {| success := true; msg := Some "conversation not found" |}.
Proof.
  assert (H : WorkerManage.getTaskById "c1" WorkerManage.empty = None) by reflexivity.
  split; [exact H|].
  exact (proj1 (C9_stop_succeeds_without_task "c1" (Ok tt) (Ok tt) (Ok tt)
                  WorkerManage.empty H)).
Defined.

(** ** MCP server configuration *)

Section McpServersFacts.
Import McpServers.

Lemma inherited_not_proto (key : string) :
  JsObject.inherited key = false -> String.eqb key "__proto__" = false.
Proof.
  intros H. destruct (String.eqb key "__proto__") eqn:E; [|done].
  apply String.eqb_eq in E. subst key. discriminate.
Qed.

Lemma fold_left_concat {A B : Type} (f : A -> B -> A) (ls : list (list B)) (a : A) :
  fold_left (fun acc l => fold_left f l acc) ls a = fold_left f (concat ls) a.
Proof.
  revert a. induction ls as [|l ls IH]; intros a; simpl; [done|].
  by rewrite IH, fold_left_app.
Qed.

Lemma merge_entries_lookup {V : Type} (entries : list (string * V))
    (acc : gmap string V) (key : string) :
  fold_left
    (fun mcpServers entry =>
       if JsObject.truthy_at (fst entry) mcpServers then mcpServers
       else JsObject.assign (fst entry) (snd entry) mcpServers)
    entries acc !! key
  = match acc !! key with
    | Some v => Some v
    | None => if JsObject.inherited key then None else first_entry key entries
    end.
Proof.
  revert acc. induction entries as [|[k s] entries IH]; intros acc; simpl.
  - destruct (acc !! key); [done|]. by destruct (JsObject.inherited key).
  - rewrite IH. unfold JsObject.truthy_at, JsObject.assign, first_entry. simpl.
    destruct (String.eqb k key) eqn:Hk.
    + apply String.eqb_eq in Hk. subst k.
      destruct (acc !! key) as [v|] eqn:Hacc.
      * rewrite bool_decide_true by eauto. simpl. by rewrite Hacc.
      * rewrite bool_decide_false by (intros [? ?]; congruence). simpl.
        destruct (JsObject.inherited key) eqn:Hin; [by rewrite Hacc|].
        rewrite (inherited_not_proto key Hin). by rewrite lookup_insert_eq.
    + apply String.eqb_neq in Hk.
      destruct (bool_decide (is_Some (acc !! k)) || JsObject.inherited k); [done|].
      destruct (String.eqb k "__proto__"); [done|].
      by rewrite lookup_insert_ne.
Qed.

(** X1. In the merged MCP servers a key keeps the server that the settings
    give it; a key that the settings lack gets the server of the first
    extension entry that names it, unless the key is a property name that
    plain objects inherit ([constructor], [toString], [__proto__], ...), in
    which case every extension entry for it is skipped. *)
Theorem mergeMcpServers_first_wins {V : Type} (settings : option (gmap string V))
    (extensions : list (list (string * V))) (key : string) :
  _mergeMcpServers settings extensions !! key
  = match default ∅ settings !! key with
    | Some server => Some server
    | None =>
        if JsObject.inherited key then None else first_entry key (concat extensions)
    end.
Proof.
  unfold _mergeMcpServers.
  rewrite (fold_left_concat
             (fun mcpServers entry =>
                if JsObject.truthy_at (fst entry) mcpServers then mcpServers
                else JsObject.assign (fst entry) (snd entry) mcpServers)).
  apply merge_entries_lookup.
Qed.

Lemma getMcpServers_fold (servers : list IMcpServer) (name : string) :
  fold_left
    (fun mcpConfig server =>
       if String.eqb (s_transport_type server) "stdio"
       then JsObject.assign (s_name server) (to_config server) mcpConfig
       else mcpConfig)
    (List.filter connected servers) ∅ !! name
  = if String.eqb name "__proto__" then None
    else to_config
           <$> find (fun server => String.eqb (s_name server) name && passed_on server)
                    (rev servers).
Proof.
  induction servers as [|server servers IH] using rev_ind.
  - simpl. rewrite lookup_empty. by destruct (String.eqb name "__proto__").
  - rewrite List.filter_app, fold_left_app, rev_app_distr.
    set (acc := fold_left _ (List.filter connected servers) ∅) in *.
    simpl. unfold passed_on at 1.
    destruct (connected server) eqn:Hc; simpl.
    + destruct (String.eqb (s_transport_type server) "stdio") eqn:Ht; simpl.
      * unfold JsObject.assign.
        destruct (String.eqb (s_name server) name) eqn:Hn; simpl.
        -- apply String.eqb_eq in Hn. rewrite Hn.
           destruct (String.eqb name "__proto__"); [by rewrite IH|].
           by rewrite lookup_insert_eq.
        -- apply String.eqb_neq in Hn.
           destruct (String.eqb (s_name server) "__proto__"); [exact IH|].
           rewrite lookup_insert_ne by done. exact IH.
      * rewrite andb_false_r. exact IH.
    + rewrite andb_false_r. exact IH.
Qed.

(** X2. The MCP configuration handed to the agent has, under a name other
    than [__proto__], the entry of the last server in the stored list that
    carries this name and is enabled, connected and of the stdio transport,
    and no entry when there is no such server; so every entry stems from
    such a server.  A missing or malformed setting, or a failure to read it,
    gives the empty configuration. *)
Theorem getMcpServers_last_usable (servers : list IMcpServer) (name : string) :
  (getMcpServers (Ok (Servers servers)) !! name
   = if String.eqb name "__proto__" then None
     else to_config
            <$> find (fun server => String.eqb (s_name server) name && passed_on server)
                     (rev servers))
  /\ (forall cfg,
        getMcpServers (Ok (Servers servers)) !! name = Some cfg ->
        exists server,
          In server servers /\ s_name server = name /\ s_enabled server = true
          /\ s_status server = Some "connected" /\ s_transport_type server = "stdio"
          /\ cfg = to_config server)
  /\ (forall e, getMcpServers (Throw e) = ∅)
  /\ getMcpServers (Ok Missing) = ∅
  /\ getMcpServers (Ok NotAnArray) = ∅.
Proof.
  pose proof (getMcpServers_fold servers name) as Hfold.
  change (fold_left _ (List.filter connected servers) ∅)
    with (getMcpServers (Ok (Servers servers))) in Hfold.
  split; [exact Hfold|]. split; [|done].
  intros cfg. rewrite Hfold.
  destruct (String.eqb name "__proto__"); [done|].
  destruct (find _ (rev servers)) as [server|] eqn:Hf; [|done].
  intros [= <-]. apply find_some in Hf as [Hin Hp].
  apply in_rev in Hin.
  apply andb_true_iff in Hp as [Hn Hp]. apply String.eqb_eq in Hn.
  unfold passed_on, connected in Hp.
  apply andb_true_iff in Hp as [Hc Ht]. apply andb_true_iff in Hc as [He Hs].
  apply String.eqb_eq in Ht. apply bool_decide_eq_true in Hs.
  exists server. repeat split; assumption.
Qed.

End McpServersFacts.

(** Two servers of one name: the later usable one wins over the earlier
    one, and a disabled one after it changes nothing. *)
Example getMcpServers_sample :
  McpServers.getMcpServers
    (Ok (McpServers.Servers
           [sample_server "files" "connected" "stdio" "old" true;
            sample_server "files" "connected" "stdio" "new" true;
            sample_server "files" "connected" "stdio" "off" false;
            sample_server "web" "connected" "sse" "srv" true]))
  = {[ "files" := McpServers.to_config
                    (sample_server "files" "connected" "stdio" "new" true) ]}.
Proof. vm_compute. reflexivity. Qed.

Lemma getMcpServers_last_usable_witness :
  McpServers.getMcpServers
    (Ok (McpServers.Servers [sample_server "files" "connected" "stdio" "cmd" true]))
    !! "files"
  = Some (McpServers.to_config (sample_server "files" "connected" "stdio" "cmd" true))
  /\ exists server,
       In server [sample_server "files" "connected" "stdio" "cmd" true]
       /\ McpServers.s_name server = "files"
       /\ McpServers.s_enabled server = true
       /\ McpServers.s_status server = Some "connected"
       /\ McpServers.s_transport_type server = "stdio"
       /\ McpServers.to_config (sample_server "files" "connected" "stdio" "cmd" true)
          = McpServers.to_config server.
Proof.
  assert (H : McpServers.getMcpServers
                (Ok (McpServers.Servers [sample_server "files" "connected" "stdio" "cmd" true]))
                !! "files"
              = Some (McpServers.to_config
                        (sample_server "files" "connected" "stdio" "cmd" true)))
    by (vm_compute; reflexivity).
  split; [exact H|].
  exact (proj1 (proj2 (getMcpServers_last_usable
                         [sample_server "files" "connected" "stdio" "cmd" true] "files"))
           _ H).
Defined.

(** ** The environment of the agent client *)

Section ClientEnvFacts.
Import ClientEnv.

Lemma split_not_nil (sep : N) (s : jsstring) : split sep s <> [].
Proof.
  induction s as [|c s IH]; simpl; [done|].
  destruct (N.eqb c sep); [done|]. by destruct (split sep s).
Qed.

Lemma join_cons (sep x y : jsstring) (l : list jsstring) :
  join sep (x :: y :: l) = x ++ sep ++ join sep (y :: l).
Proof. reflexivity. Qed.

Lemma join_cons_char (sep : jsstring) (c : N) (x : jsstring) (l : list jsstring) :
  join sep ((c :: x) :: l) = c :: join sep (x :: l).
Proof. by destruct l. Qed.

(** Joining the pieces of a split gives the string back. *)
Lemma join_split (sep : N) (s : jsstring) : join [sep] (split sep s) = s.
Proof.
  induction s as [|c s IH]; simpl; [done|].
  destruct (N.eqb c sep) eqn:Hc.
  - apply N.eqb_eq in Hc. subst c.
    pose proof (split_not_nil sep s) as Hne.
    destruct (split sep s) as [|p ps]; [done|].
    rewrite join_cons, IH. reflexivity.
  - pose proof (split_not_nil sep s) as Hne.
    destruct (split sep s) as [|p ps]; [done|].
    rewrite join_cons_char. by rewrite IH.
Qed.

Lemma split_free (sep : N) (s : jsstring) : ~ In sep s -> split sep s = [s].
Proof.
  induction s as [|c s IH]; intros H; simpl; [done|].
  destruct (N.eqb c sep) eqn:Hc.
  - apply N.eqb_eq in Hc. subst c. exfalso. apply H. by left.
  - rewrite IH; [done|]. intros Hin. apply H. by right.
Qed.

Lemma split_app_sep (sep : N) (k v : jsstring) :
  ~ In sep k -> split sep (k ++ sep :: v) = k :: split sep v.
Proof.
  induction k as [|c k IH]; intros H; simpl.
  - by rewrite N.eqb_refl.
  - destruct (N.eqb c sep) eqn:Hc.
    + apply N.eqb_eq in Hc. subst c. exfalso. apply H. by left.
    + rewrite IH; [done|]. intros Hin. apply H. by right.
Qed.

(** Splitting a join of separator-free lines gives the lines back. *)
Lemma split_join (sep : N) (ls : list jsstring) :
  Forall (fun l => ~ In sep l) ls -> ls <> [] -> split sep (join [sep] ls) = ls.
Proof.
  induction 1 as [|l ls Hl Hls IH]; intros Hne; [done|].
  destruct ls as [|l' ls'].
  - simpl. by apply split_free.
  - rewrite join_cons. change ([sep] ++ join [sep] (l' :: ls')) with (sep :: join [sep] (l' :: ls')).
    rewrite split_app_sep by exact Hl.
    by rewrite IH.
Qed.

Lemma join_snoc_blank (sep : N) (ls : list jsstring) :
  ls <> [] -> join [sep] ls ++ [sep] = join [sep] (ls ++ [[]]).
Proof.
  induction ls as [|l ls IH]; intros Hne; [done|].
  destruct ls as [|l' ls'].
  - simpl. by rewrite ?app_nil_r.
  - change ((l :: l' :: ls') ++ [[]]) with (l :: (l' :: ls') ++ [[]]).
    simpl app at 2. rewrite !join_cons, <- !app_assoc. by rewrite IH.
Qed.

Lemma env_line_fits (variable : jsstring * jsstring) :
  fits_a_line variable -> ~ In 10%N (env_line variable).
Proof.
  intros (_ & Hk & Hv) Hin. unfold env_line in Hin.
  apply in_app_or in Hin as [?|Hin]; [done|].
  destruct Hin as [?|?]; [done|done].
Qed.

(** The lines that [parse] sees for a listing: its variables, then blank
    lines. *)
Lemma split_env_output (variables : list (jsstring * jsstring)) (trailing : bool) :
  Forall fits_a_line variables ->
  exists blanks,
    split 10 (env_output variables trailing) = map env_line variables ++ repeat [] blanks.
Proof.
  intros Hfit.
  assert (Hlines : Forall (fun l => ~ In 10%N l) (map env_line variables)).
  { induction Hfit; simpl; constructor; auto using env_line_fits. }
  unfold env_output. destruct variables as [|v vs].
  - destruct trailing; [by exists 2 | by exists 1].
  - destruct trailing.
    + exists 1. rewrite join_snoc_blank by done.
      rewrite split_join; [done| |by destruct (map env_line vs)].
      apply Forall_app. split; [exact Hlines|]. repeat constructor. simpl. tauto.
    + exists 0. rewrite !app_nil_r. by apply split_join.
Qed.

Lemma add_line_variable (acc : gmap jsstring jsstring) (variable : jsstring * jsstring) :
  ~ In 61%N (fst variable) ->
  add_line acc (env_line variable) = assign (fst variable) (strip_cr (snd variable)) acc.
Proof.
  intros H. unfold add_line, env_line. simpl app.
  rewrite split_app_sep by exact H. by rewrite join_split.
Qed.

Lemma add_blank_lines (n : nat) (acc : gmap jsstring jsstring) (key : jsstring) :
  key <> [] -> fold_left add_line (repeat [] n) acc !! key = acc !! key.
Proof.
  intros Hk. revert acc. induction n as [|n IH]; intros acc; simpl; [done|].
  rewrite IH. change (add_line acc []) with (assign [] [] acc). unfold assign.
  case_bool_decide; [done|]. by rewrite lookup_insert_ne.
Qed.

Lemma add_variables (variables : list (jsstring * jsstring)) (key : jsstring) :
  Forall fits_a_line variables ->
  key <> lit "__proto__" ->
  fold_left add_line (map env_line variables) ∅ !! key
  = strip_cr <$> last_value key variables.
Proof.
  intros Hfit Hk. unfold last_value.
  induction variables as [|[k v] vs IH] using rev_ind; [done|].
  apply Forall_app in Hfit as [Hvs Hv]. apply Forall_inv in Hv.
  rewrite map_app, fold_left_app, rev_app_distr. simpl.
  rewrite add_line_variable by apply Hv. simpl. unfold assign.
  destruct (bool_decide (k = key)) eqn:Hkk.
  - apply bool_decide_eq_true in Hkk. subst k.
    rewrite bool_decide_false by exact Hk. by rewrite lookup_insert_eq.
  - apply bool_decide_eq_false in Hkk.
    destruct (bool_decide (k = lit "__proto__")); [by apply IH|].
    rewrite lookup_insert_ne by done. by apply IH.
Qed.

(** X3. Reading back an environment listing: for variables whose names
    hold neither an equals sign nor a newline and whose values hold no
    newline, the parsed environment gives, under every name other than the
    empty one and [__proto__], the value of the last line for that name, equals
    signs in the value included, with one trailing carriage return dropped.
    On a platform other than win32 and darwin no command is run and the
    environment is empty. *)
Theorem getEnv_reads_back
    (variables : list (jsstring * jsstring)) (trailing : bool) (key : jsstring) :
  Forall fits_a_line variables ->
  key <> [] ->
  key <> lit "__proto__" ->
  parse (env_output variables trailing) !! key = strip_cr <$> last_value key variables
  /\ (forall execSync,
        execSync "zsh -ic 'env'" = Ok (env_output variables trailing) ->
        exists env,
          getEnv "darwin" execSync = Ok env
          /\ env !! key = strip_cr <$> last_value key variables)
  /\ (forall platform execSync,
        platform <> "win32" -> platform <> "darwin" -> getEnv platform execSync = Ok ∅).
Proof.
  intros Hfit Hne Hproto.
  assert (Hparse : parse (env_output variables trailing) !! key
                   = strip_cr <$> last_value key variables).
  { unfold parse. destruct (split_env_output variables trailing Hfit) as [n ->].
    rewrite fold_left_app, add_blank_lines by exact Hne. by apply add_variables. }
  split; [exact Hparse|]. split.
  - intros execSync Hrun. unfold getEnv. simpl. rewrite Hrun. eauto.
  - intros platform execSync Hw Hd. unfold getEnv.
    apply String.eqb_neq in Hw, Hd. by rewrite Hw, Hd.
Qed.

End ClientEnvFacts.

(** A Windows listing: the value of [B] keeps its equals sign and loses
    the carriage return; the later [A] wins. *)
Example getEnv_sample :
  ClientEnv.parse (lit "A=1" ++ [13; 10] ++ lit "B=x=y" ++ [13; 10] ++ lit "A=2" ++ [13; 10])%N
  = {[ lit "A" := lit "2"; lit "B" := lit "x=y"; [] := [] ]}.
Proof. vm_compute. reflexivity. Qed.

Lemma getEnv_reads_back_witness :
  (Forall fits_a_line [(lit "A", lit "1"); (lit "B", lit "x=y")]
   /\ lit "B" <> [] /\ lit "B" <> lit "__proto__")
  /\ ClientEnv.parse (env_output [(lit "A", lit "1"); (lit "B", lit "x=y")] true) !! lit "B"
     = ClientEnv.strip_cr <$> last_value (lit "B") [(lit "A", lit "1"); (lit "B", lit "x=y")].
Proof.
  assert (H1 : Forall fits_a_line [(lit "A", lit "1"); (lit "B", lit "x=y")]).
  { repeat constructor; simpl; intros H;
      repeat (destruct H as [H|H]; [discriminate H|]); exact H. }
  assert (H2 : lit "B" <> []) by discriminate.
  assert (H3 : lit "B" <> lit "__proto__") by discriminate.
  split; [auto|].
  exact (proj1 (getEnv_reads_back [(lit "A", lit "1"); (lit "B", lit "x=y")] true (lit "B")
                  H1 H2 H3)).
Defined.

Section InitClientEnvFacts.
Import ClientEnv.

Lemma usable_spec (value : option jsstring) :
  usable value = true ->
  exists v, value = Some v /\ v <> [] /\ v <> lit "undefined".
Proof.
  destruct value as [[|c v]|]; simpl; try discriminate.
  intros H. apply negb_true_iff, bool_decide_eq_false in H. eauto.
Qed.

Lemma usable_or_empty (value : option jsstring) :
  usable (Some (default [] (or_else value (Some [])))) = usable value
  /\ (usable value = true -> Some (default [] (or_else value (Some []))) = value).
Proof. by destruct value as [[|c v]|]. Qed.

Lemma fallbackValue_lookup (key : string) (value1 value2 : option jsstring)
    (process_env : gmap string jsstring) (k : string) :
  fallbackValue key value1 value2 process_env !! k
  = if String.eqb k key then
      if usable value2 then value2
      else if usable value1 then value1
      else process_env !! k
    else process_env !! k.
Proof.
  unfold fallbackValue.
  destruct (String.eqb k key) eqn:Hk.
  - apply String.eqb_eq in Hk. subst k.
    destruct (usable value2) eqn:H2.
    + apply usable_spec in H2 as (v & -> & _). simpl. by rewrite lookup_insert_eq.
    + destruct (usable value1) eqn:H1; [|done].
      apply usable_spec in H1 as (v & -> & _). simpl. by rewrite lookup_insert_eq.
  - apply String.eqb_neq in Hk.
    destruct (usable value2), (usable value1);
      rewrite ?lookup_insert_ne by done; reflexivity.
Qed.

Lemma fallbackValue_keeps_or_usable (key : string) (value1 value2 : option jsstring)
    (process_env : gmap string jsstring) (k : string) (v : jsstring) :
  fallbackValue key value1 value2 process_env !! k = Some v ->
  process_env !! k = Some v \/ (v <> [] /\ v <> lit "undefined").
Proof.
  rewrite fallbackValue_lookup.
  destruct (String.eqb k key); [|by left].
  destruct (usable value2) eqn:H2.
  { apply usable_spec in H2 as (v2 & -> & ?). intros [= <-]. by right. }
  destruct (usable value1) eqn:H1; [|by left].
  apply usable_spec in H1 as (v1 & -> & ?). intros [= <-]. by right.
Qed.

(** X4. With Google login, the project variable ends up as the value from
    the shell environment when that one is usable (non-empty and not the text
    [undefined]), else as the configured project when that one is usable,
    else as it was; every other variable of the process environment is left
    as it was. *)
Theorem initClientEnv_google_project
    (apiKey baseUrl googleCloudProject : option jsstring)
    (env : gmap jsstring jsstring) (apiKeyManager : option ApiKeyManager)
    (process_env : gmap string jsstring) :
  initClientEnv (Some LOGIN_WITH_GOOGLE) apiKey baseUrl googleCloudProject env
    apiKeyManager process_env !! "GOOGLE_CLOUD_PROJECT"
  = (if usable (env !! lit "GOOGLE_CLOUD_PROJECT") then env !! lit "GOOGLE_CLOUD_PROJECT"
     else if usable googleCloudProject then googleCloudProject
     else process_env !! "GOOGLE_CLOUD_PROJECT")
  /\ forall key,
       key <> "GOOGLE_CLOUD_PROJECT" ->
       initClientEnv (Some LOGIN_WITH_GOOGLE) apiKey baseUrl googleCloudProject env
         apiKeyManager process_env !! key
       = process_env !! key.
Proof.
  unfold initClientEnv. split.
  - rewrite fallbackValue_lookup, String.eqb_refl.
    destruct (usable_or_empty googleCloudProject) as [-> Hsame].
    destruct (usable (env !! lit "GOOGLE_CLOUD_PROJECT")); [done|].
    destruct (usable googleCloudProject); [by apply Hsame|done].
  - intros key Hkey. rewrite fallbackValue_lookup.
    apply String.eqb_neq in Hkey. by rewrite Hkey.
Qed.

(** X5. Whatever the authentication type, [initClientEnv] never puts an
    empty value or the text [undefined] into the process environment: a
    variable that holds a value afterwards held it before, or the value is
    non-empty and differs from [undefined]. *)
Theorem initClientEnv_stores_usable
    (authType : option AuthType) (apiKey baseUrl googleCloudProject : option jsstring)
    (env : gmap jsstring jsstring) (apiKeyManager : option ApiKeyManager)
    (process_env : gmap string jsstring) (key : string) (value : jsstring) :
  initClientEnv authType apiKey baseUrl googleCloudProject env apiKeyManager process_env
    !! key = Some value ->
  process_env !! key = Some value \/ (value <> [] /\ value <> lit "undefined").
Proof.
  unfold initClientEnv.
  destruct authType as [[| | | |other]|]; intros H.
  - by apply fallbackValue_keeps_or_usable in H.
  - apply fallbackValue_keeps_or_usable in H as [H|H]; [|by right].
    by apply fallbackValue_keeps_or_usable in H.
  - destruct (decide (key = "GOOGLE_GENAI_USE_VERTEXAI")) as [->|Hne].
    + rewrite lookup_insert_eq in H. injection H as <-. right. split; discriminate.
    + rewrite lookup_insert_ne in H by done.
      by apply fallbackValue_keeps_or_usable in H.
  - apply fallbackValue_keeps_or_usable in H as [H|H]; [|by right].
    by apply fallbackValue_keeps_or_usable in H.
  - by left.
  - by left.
Qed.

End InitClientEnvFacts.

(** A configured key that is the text [undefined] is not stored. *)
Example initClientEnv_sample :
  ClientEnv.initClientEnv (Some ClientEnv.USE_GEMINI)
    (Some (lit "undefined")) (Some (lit "https://example.test")) None ∅ None ∅
  = {[ "GOOGLE_GEMINI_BASE_URL" := lit "https://example.test" ]}.
Proof. vm_compute. reflexivity. Qed.

Lemma initClientEnv_stores_usable_witness :
  ClientEnv.initClientEnv (Some ClientEnv.USE_OPENAI)
    (Some (lit "sk-1")) (Some (lit "undefined")) None ∅ None ∅ !! "OPENAI_API_KEY"
  = Some (lit "sk-1")
  /\ ((∅ : gmap string jsstring) !! "OPENAI_API_KEY" = Some (lit "sk-1")
      \/ (lit "sk-1" <> [] /\ lit "sk-1" <> lit "undefined")).
Proof.
  assert (H : ClientEnv.initClientEnv (Some ClientEnv.USE_OPENAI)
                (Some (lit "sk-1")) (Some (lit "undefined")) None ∅ None ∅
                !! "OPENAI_API_KEY" = Some (lit "sk-1"))
    by (vm_compute; reflexivity).
  split; [exact H|].
  exact (initClientEnv_stores_usable (Some ClientEnv.USE_OPENAI)
           (Some (lit "sk-1")) (Some (lit "undefined")) None ∅ None ∅
           "OPENAI_API_KEY" (lit "sk-1") H).
Defined.

(** ** The one-time history prefix *)

Section SendFacts.
Import GeminiAgentSend.

Lemma send_string (m : jsstring) (msg_id : string)
    (handleAtCommand : jsstring -> js_result (option (list GeminiAgent.Part) * bool))
    (aborted : bool) (env : GeminiAgent.Env) (st : State) :
  queried (send (Str m) msg_id (Ok tt) handleAtCommand aborted env st)
  = Some (if armed st then default [] (historyPrefix st) ++ m else m)
  /\ state (send (Str m) msg_id (Ok tt) handleAtCommand aborted env st)
     = (if armed st then prefix_used st else st).
Proof.
  unfold send.
  destruct (armed st); simpl;
    match goal with |- context [handleAtCommand ?q] => destruct (handleAtCommand q) as [[[pq|] sp]|e] end;
    simpl; try done;
    destruct (negb sp || aborted); simpl; try done;
    match goal with |- context [GeminiAgent.submitQuery ?a ?b ?c ?d] =>
      destruct (GeminiAgent.submitQuery a b c d) end; done.
Qed.

Lemma inject_arms (text : jsstring) (loadMemory : js_result jsstring) (st : State) :
  initialized st = true ->
  armed (injectConversationHistory text loadMemory st) = true
  /\ historyPrefix (injectConversationHistory text loadMemory st)
     = Some (history_prefix text).
Proof.
  intros Hi. unfold injectConversationHistory. rewrite Hi. simpl.
  by destruct loadMemory.
Qed.

(** X6. After a history was injected into an initialised agent, whether or
    not the reload of the memory succeeded, the first send hands the history
    prefix followed by the message to the command processor, and the send
    after it hands over its message alone, whatever the first send went on to
    do (proceed, stop, be aborted or fail).  In general a send on an agent
    whose prefix was used changes neither the message nor the agent. *)
Theorem send_uses_history_prefix_once
    (text : jsstring) (loadMemory : js_result jsstring) (st : State)
    (m1 m2 : jsstring) (id1 id2 : string)
    (h1 h2 : jsstring -> js_result (option (list GeminiAgent.Part) * bool))
    (a1 a2 : bool) (env1 env2 : GeminiAgent.Env) :
  initialized st = true ->
  queried (send (Str m1) id1 (Ok tt) h1 a1 env1
             (injectConversationHistory text loadMemory st))
  = Some (history_prefix text ++ m1)
  /\ queried (send (Str m2) id2 (Ok tt) h2 a2 env2
                (state (send (Str m1) id1 (Ok tt) h1 a1 env1
                          (injectConversationHistory text loadMemory st))))
     = Some m2
  /\ (forall used m id h a env,
        historyUsedOnce used = true ->
        queried (send (Str m) id (Ok tt) h a env used) = Some m
        /\ state (send (Str m) id (Ok tt) h a env used) = used).
Proof.
  intros Hi.
  destruct (inject_arms text loadMemory st Hi) as [Harmed Hprefix].
  assert (Hused : forall used, historyUsedOnce used = true -> armed used = false).
  { intros used Hu. unfold armed. rewrite Hu.
    by destruct (historyPrefix used) as [[|c p]|]. }
  split; [|split].
  - rewrite (proj1 (send_string _ _ _ _ _ _)), Harmed, Hprefix. reflexivity.
  - rewrite (proj1 (send_string _ _ _ _ _ _)).
    rewrite (proj2 (send_string _ _ _ _ _ _)), Harmed.
    by rewrite (Hused (prefix_used _) eq_refl).
  - intros used m id h a env Hu.
    rewrite (proj1 (send_string _ _ _ _ _ _)), (proj2 (send_string _ _ _ _ _ _)).
    by rewrite (Hused used Hu).
Qed.

End SendFacts.

Lemma send_uses_history_prefix_once_witness :
  GeminiAgentSend.initialized GeminiAgentSend.ready = true
  /\ GeminiAgentSend.queried
       (GeminiAgentSend.send (GeminiAgentSend.Str (lit "hello")) "m1" (Ok tt)
          sample_handleAtCommand false sample_env
          (GeminiAgentSend.injectConversationHistory (lit "User: hi")
             (Throw (Error "no memory")) GeminiAgentSend.ready))
     = Some (GeminiAgentSend.history_prefix (lit "User: hi") ++ lit "hello").
Proof.
  split; [reflexivity|].
  exact (proj1 (send_uses_history_prefix_once (lit "User: hi") (Throw (Error "no memory"))
                  GeminiAgentSend.ready (lit "hello") (lit "again") "m1" "m2"
                  sample_handleAtCommand sample_handleAtCommand false false
                  sample_env sample_env eq_refl)).
Defined.

(** ** Further providers *)

Section MoreProviders.
Import conversationProviders.

(** X7. The [reloadContext] provider never throws, not even when the
    rebuild of the task rejects: it answers with an envelope, which is a
    success exactly when the rebuild delivered a gemini task; the task then
    has posted at most one history text, of at most 4000 code units. *)
Theorem reloadContext_answers_with_envelope
    (rebuilt : js_result (option AgentTask.t))
    (result : js_result (option (list TMessage))) :
  exists envelope,
    fst (reloadContext rebuilt result) = Ok envelope
    /\ (success envelope = true
        <-> exists task, rebuilt = Ok (Some task) /\ AgentTask.type task = "gemini")
    /\ (forall task,
          rebuilt = Ok (Some task) -> AgentTask.type task = "gemini" ->
          exists posted,
            snd (reloadContext rebuilt result)
            = Some (GeminiAgentManager.reloadContext result task)
            /\ AgentTask.log (GeminiAgentManager.reloadContext result task)
               = AgentTask.log task ++ map (AgentTask.Posted "init.history") posted
            /\ length posted <= 1
            /\ Forall (fun text => length text <= 4000) posted).
Proof.
  unfold reloadContext.
  destruct rebuilt as [[task|]|e]; simpl.
  - destruct (String.eqb (AgentTask.type task) "gemini") eqn:Hg; simpl.
    + apply String.eqb_eq in Hg. eexists. split; [reflexivity|]. split.
      * simpl. split; [eauto|done].
      * intros task' [= <-] _.
        unfold GeminiAgentManager.reloadContext.
        destruct (inject_log result task) as [H|H].
        -- exists []. rewrite H, app_nil_r.
           split; [reflexivity|]. split; [reflexivity|]. split; [simpl; lia|constructor].
        -- exists [GeminiAgentManager.history_text (page_data result)].
           rewrite H.
           split; [reflexivity|]. split; [reflexivity|]. split; [simpl; lia|].
           constructor; [apply history_text_length|constructor].
    + apply String.eqb_neq in Hg. eexists. split; [reflexivity|]. split.
      * simpl. split; [done|]. intros (task' & [= <-] & ?). done.
      * intros task' [= <-] ?. done.
  - eexists. split; [reflexivity|]. split.
    + simpl. split; [done|]. intros (task' & ? & ?). done.
    + intros task' ?. done.
  - eexists. split; [reflexivity|]. split.
    + simpl. split; [done|]. intros (task' & ? & ?). done.
    + intros task' ?. done.
Qed.

(** X8. Whatever [get] answers with carries a non-empty status, which is
    [finished] when no task is registered; a record that the database holds
    is answered as it is and nothing is migrated; otherwise the answer is the
    first record of the file history with the asked id, and that record is
    the one handed to the migration. *)
Theorem get_overlays_status
    (id : string) (result : js_result Database.GetResult)
    (task : option AgentTask.t) (history : js_result (list TChatConversation))
    (conversation : TChatConversation) (status : string)
    (migrated : option TChatConversation) :
  get id result task history = (Some (conversation, status), migrated) ->
  status <> EmptyString
  /\ (task = None -> status = "finished")
  /\ (forall t, task = Some t -> AgentTask.status t <> EmptyString ->
                status = AgentTask.status t)
  /\ ((exists found, result = Ok found /\ Database.g_success found = true
                     /\ Database.g_data found = Some conversation)
      /\ migrated = None
      \/ (exists items, history = Ok items
                        /\ find (fun item => String.eqb (c_id item) id) items
                           = Some conversation)
         /\ c_id conversation = id /\ migrated = Some conversation).
Proof.
  intros H.
  assert (Hs : status_or_finished task <> EmptyString
               /\ (task = None -> status_or_finished task = "finished")
               /\ (forall t, task = Some t -> AgentTask.status t <> EmptyString ->
                             status_or_finished task = AgentTask.status t)).
  { unfold status_or_finished. destruct task as [t|].
    - destruct (String.eqb (AgentTask.status t) EmptyString) eqn:He.
      + apply String.eqb_eq in He. repeat split; try done.
        intros t' [= <-] Hne. done.
      + apply String.eqb_neq in He. repeat split; try done.
        intros t' [= <-] _. done.
    - repeat split; done. }
  unfold get in H. destruct result as [found|e]; [|done].
  destruct (if Database.g_success found then Database.g_data found else None)
    as [c|] eqn:Hdb.
  - injection H as <- <- <-. destruct Hs as (? & ? & ?). repeat split; try done.
    left. split; [|done]. exists found.
    destruct (Database.g_success found); [done|done].
  - destruct history as [items|e]; [|done].
    destruct (find _ items) as [c|] eqn:Hf; [|done].
    injection H as <- <- <-. destruct Hs as (? & ? & ?). repeat split; try done.
    right. split; [eauto|]. split; [|done].
    apply find_some in Hf as [_ Hid]. by apply String.eqb_eq in Hid.
Qed.

(** X9. Every conversation that [getAssociateConversation] returns has the
    workspace of the conversation asked about, which is not empty, and comes
    from the database listing or from the file history; the listing is the
    source unless it is shorter than the history. *)
Theorem getAssociateConversation_same_workspace
    (conversation_id : string) (currentResult : js_result Database.GetResult)
    (allResult history : js_result (option (list TChatConversation)))
    (c : TChatConversation) :
  In c (fst (getAssociateConversation conversation_id currentResult allResult history)) ->
  c_workspace c <> EmptyString
  /\ (exists current,
        c_workspace c = c_workspace current
        /\ ((exists found, currentResult = Ok found /\ Database.g_success found = true
                           /\ Database.g_data found = Some current)
            \/ (exists items, history = Ok (Some items) /\ In current items
                              /\ c_id current = conversation_id)))
  /\ exists listing items,
       allResult = Ok listing /\ history = Ok items
       /\ (if Nat.ltb (length (default [] listing)) (length (default [] items))
           then In c (default [] items)
           else In c (default [] listing)).
Proof.
  unfold getAssociateConversation.
  set (current :=
         match currentResult with
         | Throw e => Throw e
         | Ok found =>
             match (if Database.g_success found then Database.g_data found else None) with
             | Some c0 => Ok (Some c0, [])
             | None =>
                 match history with
                 | Throw e => Throw e
                 | Ok None => Throw (Error "Cannot read properties of undefined (reading 'find')")
                 | Ok (Some items) =>
                     match find (fun item => String.eqb (c_id item) conversation_id) items with
                     | Some c0 => Ok (Some c0, [c0])
                     | None => Ok (None, [])
                     end
                 end
             end
         end).
  assert (Hcur : forall cur migrated,
             current = Ok (Some cur, migrated) ->
             (exists found, currentResult = Ok found /\ Database.g_success found = true
                            /\ Database.g_data found = Some cur)
             \/ (exists items, history = Ok (Some items) /\ In cur items
                               /\ c_id cur = conversation_id)).
  { intros cur migrated. unfold current.
    destruct currentResult as [found|e]; [|done].
    destruct (if Database.g_success found then Database.g_data found else None)
      as [c0|] eqn:Hdb.
    - intros [= <- <-]. left. exists found.
      destruct (Database.g_success found); [done|done].
    - destruct history as [[items|]|e]; try done.
      destruct (find _ items) as [c0|] eqn:Hf; [|done].
      intros [= <- <-]. right. exists items.
      apply find_some in Hf as [Hin Hid]. apply String.eqb_eq in Hid. done. }
  destruct current as [[[cur|] migrated]|e] eqn:Hc; simpl; try done.
  destruct (String.eqb (c_workspace cur) EmptyString) eqn:Hw; [done|].
  apply String.eqb_neq in Hw.
  destruct allResult as [listing|e]; [|done].
  destruct history as [items|e]; [|done].
  destruct (Nat.ltb (length (default [] listing)) (length (default [] items))) eqn:Hlt;
    simpl; intros Hin; apply filter_In in Hin as [Hin Heq];
    apply String.eqb_eq in Heq; (split; [congruence|]);
    (split; [exists cur; split; [exact Heq| by apply (Hcur cur migrated)]|]);
    exists listing, items; rewrite Hlt; done.
Qed.

(** X10. [create] fails only with an error whose message starts with
    [Failed to create], the type and [conversation:]; for a type other than
    gemini, acp and codex it fails so, naming the type as invalid, and leaves
    the registry as it is.  When it succeeds, the conversation it returns has
    the given id and the given name wherever these are non-empty, and a task
    is registered under its id. *)
Theorem create_wraps_failures
    (type : string) (name id : option string) (built : js_result TChatConversation)
    (inserted : bool) (r : WorkerManage.t) :
  (forall e,
      fst (create type name id built inserted r) = Throw e ->
      exists reason,
        e = Error ("Failed to create " +:+ type +:+ " conversation: " +:+ reason))
  /\ (String.eqb type "gemini" || String.eqb type "acp" || String.eqb type "codex" = false ->
      create type name id built inserted r
      = (Throw (Error ("Failed to create " +:+ type
                         +:+ " conversation: Invalid conversation type")), r))
  /\ (forall conversation,
        fst (create type name id built inserted r) = Ok conversation ->
        (forall given, id = Some given -> given <> EmptyString -> c_id conversation = given)
        /\ (forall given, name = Some given -> given <> EmptyString ->
                          c_name conversation = given)
        /\ is_Some (WorkerManage.getTaskById (c_id conversation)
                      (snd (create type name id built inserted r)))).
Proof.
  unfold create.
  destruct (String.eqb type "gemini" || String.eqb type "acp" || String.eqb type "codex")
    eqn:Hty.
  - destruct built as [conversation|e0]; simpl.
    + set (c := {| c_id := _; c_type := _; c_name := _; c_model := _; c_workspace := _ |}).
      destruct (WorkerManage.construct c) as [task|] eqn:Hc.
      * destruct (build_registers c task r Hc) as (Heq & Hget & _).
        rewrite Heq in *. simpl in *. split; [done|]. split; [done|].
        intros conversation' [= <-]. split; [|split].
        -- intros given -> Hne. simpl. apply String.eqb_neq in Hne. by rewrite Hne.
        -- intros given -> Hne. simpl. apply String.eqb_neq in Hne. by rewrite Hne.
        -- exists task. exact Hget.
      * unfold WorkerManage.buildConversation. rewrite Hc. simpl.
        split; [|split; [done|done]].
        intros e [= <-]. eauto.
    + split; [|split; [done|done]]. intros e [= <-]. eauto.
  - simpl. split; [|split; [done|done]]. intros e [= <-]. eauto.
Qed.

Lemma removelast_snoc {A : Type} (l : list A) (x : A) : removelast (l ++ [x]) = l.
Proof. apply removelast_last. Qed.

(** X11. After any number of calls of [buildLastAbortController], every
    controller but the one returned last has been aborted, and that one has
    not. *)
Theorem buildLastAbortController_one_live (calls : nat) :
  controllers_after calls = repeat true calls ++ [false].
Proof.
  induction calls as [|n IH]; [reflexivity|].
  simpl controllers_after. rewrite IH. unfold buildLastAbortController.
  destruct (repeat true n ++ [false]) eqn:E.
  - by destruct (repeat true n).
  - rewrite <- E, removelast_snoc.
    change (repeat true (S n)) with (true :: repeat true n).
    rewrite repeat_cons. by rewrite <- app_assoc.
Qed.

End MoreProviders.

Lemma reloadContext_answers_with_envelope_witness :
  (AgentTask.type sample_built_task = "gemini")
  /\ exists envelope,
       fst (conversationProviders.reloadContext (Ok (Some sample_built_task))
              (Ok (Some [sample_text "right" (lit "hi")])))
       = Ok envelope
       /\ success envelope = true.
Proof.
  split; [reflexivity|].
  destruct (reloadContext_answers_with_envelope (Ok (Some sample_built_task))
              (Ok (Some [sample_text "right" (lit "hi")])))
    as (envelope & Hfst & Hiff & _).
  exists envelope. split; [exact Hfst|].
  apply Hiff. exists sample_built_task. split; reflexivity.
Defined.

Lemma get_overlays_status_witness :
  conversationProviders.get "c1"
    (Ok {| Database.g_success := false; Database.g_data := None |})
    None (Ok [other_conversation; sample_conversation])
  = (Some (sample_conversation, "finished"), Some sample_conversation)
  /\ "finished" <> EmptyString.
Proof.
  assert (H : conversationProviders.get "c1"
                (Ok {| Database.g_success := false; Database.g_data := None |})
                None (Ok [other_conversation; sample_conversation])
              = (Some (sample_conversation, "finished"), Some sample_conversation))
    by reflexivity.
  split; [exact H|].
  exact (proj1 (get_overlays_status "c1" _ None _ sample_conversation "finished"
                  (Some sample_conversation) H)).
Defined.

Lemma getAssociateConversation_same_workspace_witness :
  In sample_conversation
     (fst (conversationProviders.getAssociateConversation "c1"
             (Ok {| Database.g_success := true; Database.g_data := Some sample_conversation |})
             (Ok (Some [other_conversation; sample_conversation]))
             (Ok None)))
  /\ c_workspace sample_conversation <> EmptyString.
Proof.
  assert (H : In sample_conversation
                 (fst (conversationProviders.getAssociateConversation "c1"
                         (Ok {| Database.g_success := true;
                                Database.g_data := Some sample_conversation |})
                         (Ok (Some [other_conversation; sample_conversation]))
                         (Ok None))))
    by (simpl; auto).
  split; [exact H|].
  exact (proj1 (getAssociateConversation_same_workspace "c1" _ _ _ sample_conversation H)).
Defined.

Lemma create_wraps_failures_witness :
  (String.eqb "chatgpt" "gemini" || String.eqb "chatgpt" "acp"
   || String.eqb "chatgpt" "codex" = false)
  /\ conversationProviders.create "chatgpt" None None (Ok sample_conversation) true
       WorkerManage.empty
     = (Throw (Error "Failed to create chatgpt conversation: Invalid conversation type"),
        WorkerManage.empty).
Proof.
  split; [reflexivity|].
  exact (proj1 (proj2 (create_wraps_failures "chatgpt" None None (Ok sample_conversation)
                         true WorkerManage.empty)) eq_refl).
Defined.

(** ** More on the history text *)

Section HistoryMore.
Import AgentTask GeminiAgentManager.

Lemma join_tail_suffix (sep x : jsstring) (l : list jsstring) :
  join sep l `suffix_of` join sep (x :: l).
Proof.
  destruct l as [|y l].
  - exists x. simpl. by rewrite app_nil_r.
  - exists (x ++ sep). rewrite join_cons. by rewrite <- app_assoc.
Qed.

Lemma join_skipn_suffix (sep : jsstring) (k : nat) (l : list jsstring) :
  join sep (skipn k l) `suffix_of` join sep l.
Proof.
  revert k. induction l as [|x l IH]; intros k.
  - by destruct k.
  - destruct k as [|k]; [done|]. simpl skipn.
    etransitivity; [apply IH|apply join_tail_suffix].
Qed.

Lemma slice_last_map {A B : Type} (f : A -> B) (n : nat) (l : list A) :
  map f (slice_last n l) = slice_last n (map f l).
Proof. unfold slice_last. by rewrite skipn_map, length_map. Qed.

Lemma slice_last_all {A : Type} (n : nat) (l : list A) : length l <= n -> slice_last n l = l.
Proof. intros H. unfold slice_last. by replace (length l - n) with 0 by lia. Qed.

(** X12. The injected history text is always the tail end of the full
    transcript, that is, of the lines of all text messages joined by
    newlines: what is cut away is the oldest content.  When there are at most
    20 text messages and the transcript has at most 4000 code units, the text
    is the whole transcript. *)
Theorem history_text_is_tail_of_transcript (data : list TMessage) :
  history_text data
    `suffix_of` join [10%N] (map history_line
                               (List.filter (fun m => String.eqb (m_type m) "text") data))
  /\ (length (List.filter (fun m => String.eqb (m_type m) "text") data) <= 20 ->
      length (join [10%N] (map history_line
                             (List.filter (fun m => String.eqb (m_type m) "text") data)))
        <= 4000 ->
      history_text data
      = join [10%N] (map history_line
                       (List.filter (fun m => String.eqb (m_type m) "text") data))).
Proof.
  unfold history_text, history_lines. split.
  - etransitivity; [apply slice_last_suffix|].
    rewrite slice_last_map. unfold slice_last at 1. apply join_skipn_suffix.
  - intros H20 H4000. rewrite (slice_last_all 20) by exact H20.
    by apply slice_last_all.
Qed.

End HistoryMore.

Lemma history_text_is_tail_of_transcript_witness :
  (length (List.filter (fun m => String.eqb (m_type m) "text")
             [sample_text "right" (lit "hi"); sample_tool_message]) <= 20
   /\ length (join [10%N]
                (map GeminiAgentManager.history_line
                   (List.filter (fun m => String.eqb (m_type m) "text")
                      [sample_text "right" (lit "hi"); sample_tool_message]))) <= 4000)
  /\ GeminiAgentManager.history_text [sample_text "right" (lit "hi"); sample_tool_message]
     = join [10%N]
         (map GeminiAgentManager.history_line
            (List.filter (fun m => String.eqb (m_type m) "text")
               [sample_text "right" (lit "hi"); sample_tool_message])).
Proof.
  assert (H1 : length (List.filter (fun m => String.eqb (m_type m) "text")
                         [sample_text "right" (lit "hi"); sample_tool_message]) <= 20)
    by (simpl; lia).
  assert (H2 : length (join [10%N]
                         (map GeminiAgentManager.history_line
                            (List.filter (fun m => String.eqb (m_type m) "text")
                               [sample_text "right" (lit "hi"); sample_tool_message])))
               <= 4000)
    by (simpl; lia).
  split; [auto|].
  exact (proj2 (history_text_is_tail_of_transcript
                  [sample_text "right" (lit "hi"); sample_tool_message]) H1 H2).
Defined.

(** ** Runs of events through the listener *)

Section EventRuns.
Import AgentTask GeminiAgentManager.

Variable transformMessage : IResponseMessage -> option TMessage.

Lemma after_events_snoc (events : list IResponseMessage) (ev : IResponseMessage) (self : t) :
  after_events transformMessage (events ++ [ev]) self
  = init_listener transformMessage ev (after_events transformMessage events self).
Proof. unfold after_events. by rewrite fold_left_app. Qed.

Lemma after_events_conversation (events : list IResponseMessage) (self : t) :
  conversation_id (after_events transformMessage events self) = conversation_id self.
Proof.
  induction events as [|ev events IH] using rev_ind; [done|].
  rewrite after_events_snoc, init_listener_unfold. exact IH.
Qed.

Lemma after_events_quiet (events : list IResponseMessage) (self : t) :
  Forall keeps_status events ->
  status (after_events transformMessage events self) = status self.
Proof.
  induction events as [|ev events IH] using rev_ind; intros H; [done|].
  apply Forall_app in H as [Hevents Hev]. apply Forall_inv in Hev as [Hs Hf].
  rewrite after_events_snoc, init_listener_unfold. simpl.
  unfold status_after. apply String.eqb_neq in Hs, Hf. rewrite Hs, Hf. by apply IH.
Qed.

(** X13. The status of a task after a run of events is decided by the last
    start or finish event of the run: running after a start, finished after
    a finish, whatever came before and whatever other events (errors
    included) came after; a run without start and finish events leaves the
    status as it was. *)
Theorem status_follows_last_turn_event
    (earlier later : list IResponseMessage) (ev : IResponseMessage) (self : t) :
  Forall keeps_status later ->
  (e_type ev = "start" ->
   status (after_events transformMessage (earlier ++ ev :: later) self) = "running")
  /\ (e_type ev = "finish" ->
      status (after_events transformMessage (earlier ++ ev :: later) self) = "finished")
  /\ status (after_events transformMessage later self) = status self.
Proof.
  intros Hlater.
  assert (Hsplit : after_events transformMessage (earlier ++ ev :: later) self
                   = after_events transformMessage later
                       (init_listener transformMessage ev
                          (after_events transformMessage earlier self))).
  { unfold after_events. by rewrite fold_left_app. }
  rewrite Hsplit, !after_events_quiet by exact Hlater.
  rewrite init_listener_unfold. simpl. unfold status_after.
  split; [|split; [|done]].
  - by intros ->.
  - by intros ->.
Qed.

(** X14. Every event of a run is republished, once and in the order of
    arrival, thought events included, each with its type, data and message
    id and with the conversation id of the task. *)
Theorem every_event_is_republished_in_order (events : list IResponseMessage) (self : t) :
  streamed (log (after_events transformMessage events self))
  = streamed (log self) ++ map (tagged self) events.
Proof.
  induction events as [|ev events IH] using rev_ind.
  - simpl. by rewrite app_nil_r.
  - rewrite after_events_snoc, init_listener_unfold. simpl.
    rewrite !streamed_app, IH, map_app, <- app_assoc. f_equal.
    assert (Hquiet : streamed (status_steps ev) = []).
    { unfold status_steps.
      by destruct (String.eqb (e_type ev) "start"), (String.eqb (e_type ev) "finish"). }
    rewrite Hquiet. simpl.
    destruct (persisted _ _ _); simpl; unfold tagged;
      by rewrite after_events_conversation.
Qed.

Lemma observe_all_status (f : string * TMessage -> obs) (l : list (string * TMessage))
    (s : t) :
  status (fold_left (fun s cm => observe (f cm) s) l s) = status s.
Proof. revert s. induction l as [|x l IH]; intros s; simpl; [done|]. by rewrite IH. Qed.

(** X15. Whatever the bootstrap does, [sendMessage] first writes the user's
    message and then sets the status to pending, and the status is still
    pending when the send has run its course; the message is forwarded to
    the backend exactly when the bootstrap succeeded. *)
Theorem sendMessage_persists_first
    (input : jsstring) (msg_id : string) (bootstrap super_sendMessage : js_result unit)
    (self : t) :
  status (sendMessage transformMessage input msg_id bootstrap super_sendMessage self)
  = "pending"
  /\ exists rest,
       log (sendMessage transformMessage input msg_id bootstrap super_sendMessage self)
       = log self
           ++ Written (conversation_id self) (user_message self input msg_id)
           :: SetStatus "pending" :: rest
       /\ (In (Forwarded input msg_id) rest <-> exists u, bootstrap = Ok u).
Proof.
  unfold sendMessage, nextTickToLocalFinish, emit. simpl String.eqb. cbv iota.
  fold (user_message self input msg_id).
  set (self2 := set_status "pending"
                  (addMessage (conversation_id self) (user_message self input msg_id) self)).
  assert (Hlog2 : log self2
                  = log self ++ [Written (conversation_id self) (user_message self input msg_id);
                                 SetStatus "pending"]).
  { unfold self2. simpl. by rewrite <- app_assoc. }
  destruct bootstrap as [u|e].
  - destruct super_sendMessage as [v|e]; simpl.
    + split; [done|]. eexists. split.
      * rewrite <- !app_assoc. reflexivity.
      * simpl. split; [eauto|]. intros _. by left.
    + split; [done|]. eexists. split.
      * rewrite <- !app_assoc. reflexivity.
      * simpl. split; [eauto|]. intros _. by left.
  - destruct e as [m|str json|null]; cbn [read_message].
    3: { simpl. split; [done|]. eexists. split.
         - rewrite <- !app_assoc. reflexivity.
         - simpl. split; [|by intros [u ?]]. intros [Hin|[]]. discriminate. }
    all: rewrite init_listener_unfold; simpl.
    all: split; [unfold flush; simpl; by rewrite observe_all_status|].
    all: rewrite flush_log; simpl.
    all: eexists; split; [rewrite <- !app_assoc; simpl; reflexivity|].
    all: split; [|by intros [u ?]].
    all: intros Hin; exfalso.
    all: apply in_app_or in Hin as [Hin|Hin];
      [destruct (persisted _ _ _); simpl in Hin; intuition discriminate|].
    all: destruct Hin as [Hin|Hin]; [discriminate|].
    all: apply in_app_or in Hin as [Hin|Hin];
      [apply in_map_iff in Hin as (? & ? & _); discriminate|].
    all: simpl in Hin; intuition discriminate.
Qed.

End EventRuns.

Lemma initClientEnv_google_project_witness :
  "PATH" <> "GOOGLE_CLOUD_PROJECT"
  /\ ClientEnv.initClientEnv (Some ClientEnv.LOGIN_WITH_GOOGLE) None None
       (Some (lit "configured")) {[ lit "GOOGLE_CLOUD_PROJECT" := lit "from-shell" ]}
       None {[ "PATH" := lit "/bin" ]} !! "PATH"
     = ({[ "PATH" := lit "/bin" ]} : gmap string jsstring) !! "PATH".
Proof.
  assert (H : "PATH" <> "GOOGLE_CLOUD_PROJECT") by discriminate.
  split; [exact H|].
  exact (proj2 (initClientEnv_google_project None None (Some (lit "configured"))
                  {[ lit "GOOGLE_CLOUD_PROJECT" := lit "from-shell" ]} None
                  {[ "PATH" := lit "/bin" ]}) "PATH" H).
Defined.

(** With Google login the project of the shell wins over the configured
    one. *)
Example initClientEnv_google_sample :
  ClientEnv.initClientEnv (Some ClientEnv.LOGIN_WITH_GOOGLE) None None
    (Some (lit "configured")) {[ lit "GOOGLE_CLOUD_PROJECT" := lit "from-shell" ]}
    None ∅ !! "GOOGLE_CLOUD_PROJECT"
  = Some (lit "from-shell").
Proof. vm_compute. reflexivity. Qed.

Lemma status_follows_last_turn_event_witness :
  (Forall keeps_status [sample_event "error"] /\ e_type (sample_event "start") = "start")
  /\ AgentTask.status
       (after_events GeminiAgentManager.transformMessage_spec
          ([sample_event "finish"] ++ sample_event "start" :: [sample_event "error"])
          sample_task)
     = "running".
Proof.
  assert (H1 : Forall keeps_status [sample_event "error"])
    by (repeat constructor; discriminate).
  assert (H2 : e_type (sample_event "start") = "start") by reflexivity.
  split; [auto|].
  exact (proj1 (status_follows_last_turn_event GeminiAgentManager.transformMessage_spec
                  [sample_event "finish"] [sample_event "error"] (sample_event "start")
                  sample_task H1) H2).
Defined.

Lemma sendMessage_persists_first_witness :
  (exists u : unit, Ok tt = Ok u :> js_result unit)
  /\ AgentTask.status
       (GeminiAgentManager.sendMessage GeminiAgentManager.transformMessage_spec
          (lit "hello") "m1" (Ok tt) (Ok tt) sample_task)
     = "pending".
Proof.
  split; [by exists tt|].
  exact (proj1 (sendMessage_persists_first GeminiAgentManager.transformMessage_spec
                  (lit "hello") "m1" (Ok tt) (Ok tt) sample_task)).
Defined.

(** ** More on one turn of the model stream *)

Section StreamMore.
Import GeminiAgent.

Lemma handle_callbacks_partition (msg_id : string) (cbs : list StreamData)
    (reqs : list payload) :
  handle_callbacks msg_id cbs reqs
  = (map (emitted_as msg_id) (List.filter (fun d => negb (is_tool_call_request d)) cbs),
     reqs ++ map sd_data (List.filter is_tool_call_request cbs)).
Proof.
  unfold is_tool_call_request.
  revert reqs. induction cbs as [|d cbs IH]; intros reqs; simpl.
  - by rewrite app_nil_r.
  - destruct (String.eqb (sd_type d) "tool_call_request"); simpl.
    + rewrite IH. by rewrite <- app_assoc.
    + by rewrite IH.
Qed.

(** X16. [handleMessage] emits the data of the stream that are not tool
    call requests, in order and tagged with the message id, and never a tool
    call request; the requests are handed to the scheduler together, in
    order, in one call that follows the emitted events, and only when the
    processing of the stream succeeded and there is at least one; a failed
    processing schedules nothing.  A failure of the processing or of the
    scheduling ends in one error event and the promise resolves, unless the
    failure is [null] or [undefined]: then no error event is emitted and
    the promise rejects with the [TypeError] of reading the message. *)
Theorem handleMessage_separates_tool_calls (run : StreamRun) (msg_id : string) :
  handleMessage run msg_id
  = (map (emitted_as msg_id)
         (List.filter (fun d => negb (is_tool_call_request d)) (callbacks run))
       ++ match processing run with
          | Throw _ => []
          | Ok _ =>
              match map sd_data (List.filter is_tool_call_request (callbacks run)) with
              | [] => []
              | requests => Schedule requests :: fst (scheduling run)
              end
          end
       ++ match failure run msg_id with
          | None => []
          | Some (Nullish _) => []
          | Some e => [OnStreamEvent (event "error" (message_of e) msg_id)]
          end,
     match failure run msg_id with
     | Some (Nullish null) => Throw (cannot_read_message null)
     | _ => Ok tt
     end).
Proof.
  unfold handleMessage, failure. rewrite handle_callbacks_partition. simpl.
  destruct (processing run) as [u|e]; [|by destruct e].
  destruct (map sd_data (List.filter is_tool_call_request (callbacks run))) as [|rq rqs].
  - by rewrite ?app_nil_r.
  - destruct (snd (scheduling run)) as [v|e]; simpl.
    + by rewrite ?app_nil_r.
    + destruct e; simpl; by rewrite ?app_nil_r.
Qed.

(** X17. [submitQuery] starts a turn and returns the empty string exactly
    when it obtains a stream.  When it obtains none, because the prompt id
    cannot be made or the request to the model throws, it emits neither a
    start nor a finish event: it returns nothing and emits one error event
    for the message id, carrying the message of the error, unless the error
    is [null] or [undefined]; then it emits nothing and throws the
    [TypeError] of reading the message. *)
Theorem submitQuery_without_stream
    (env : Env) (query : list Part) (msg_id : string) (options : option Options) :
  (fst (submitQuery env query msg_id options) = Ok (Some EmptyString)
   <-> exists prompt_id run,
         resolve_prompt_id env options = Ok prompt_id
         /\ sendMessageStream env query prompt_id = Ok run)
  /\ (fst (submitQuery env query msg_id options) = Ok None
      <-> exists e, readable e /\ obtains_no_stream env query options e)
  /\ ((exists thrown, fst (submitQuery env query msg_id options) = Throw thrown)
      <-> exists null, obtains_no_stream env query options (Nullish null))
  /\ (forall e,
        obtains_no_stream env query options e ->
        match e with
        | Nullish null =>
            fst (submitQuery env query msg_id options) = Throw (cannot_read_message null)
            /\ emitted_for msg_id (snd (submitQuery env query msg_id options)) = []
        | _ =>
            fst (submitQuery env query msg_id options) = Ok None
            /\ emitted_for msg_id (snd (submitQuery env query msg_id options))
               = [event "error" (message_of e) msg_id]
        end).
Proof.
  assert (Hnew : forall b : bool,
             emitted_for msg_id (if b then [StartNewPrompt] else []) = [])
    by (by intros []).
  unfold obtains_no_stream, submitQuery, submitQuery_catch.
  destruct (resolve_prompt_id env options) as [prompt_id|e0].
  - destruct (sendMessageStream env query prompt_id) as [run|e1] eqn:Hs.
    + destruct (handleMessage run msg_id) as [os st]. simpl.
      split; [split; [eauto|done]|].
      split; [split; [done|]|].
      { intros (e & _ & [?|(p & [= <-] & He)]); [done|congruence]. }
      split; [split; [by intros [? ?]|]|].
      { intros (null & [?|(p & [= <-] & He)]); [done|congruence]. }
      intros e [?|(p & [= <-] & He)]; [done|congruence].
    + split; [split; [by destruct e1|]|].
      { intros (p & run & [= <-] & He). congruence. }
      split; [split|].
      { intros H. exists e1. split; [by destruct e1|]. right. eauto. }
      { intros (e & Hr & [?|(p & [= <-] & He)]); [done|].
        rewrite Hs in He. injection He as <-. by destruct e1. }
      split; [split|].
      { intros [thrown H]. destruct e1 as [m|str json|null]; [done|done|].
        exists null. right. eauto. }
      { intros (null & [?|(p & [= <-] & He)]); [done|].
        rewrite Hs in He. injection He as ->. simpl. eauto. }
      intros e [?|(p & [= <-] & He)]; [done|].
      rewrite Hs in He. injection He as <-.
      destruct e1 as [m|str json|null]; simpl; (split; [done|]);
        rewrite ?emitted_for_app, ?Hnew; simpl; by rewrite ?String.eqb_refl.
  - split; [split; [by destruct e0|]|].
    { by intros (p & run & ? & _). }
    split; [split|].
    { intros H. exists e0. split; [by destruct e0|]. by left. }
    { intros (e & Hr & [[= <-]|(p & ? & _)]); [|done]. by destruct e0. }
    split; [split|].
    { intros [thrown H]. destruct e0 as [m|str json|null]; [done|done|].
      exists null. by left. }
    { intros (null & [[= ->]|(p & ? & _)]); [|done]. simpl. eauto. }
    intros e [[= <-]|(p & ? & _)]; [|done].
    destruct e0 as [m|str json|null]; simpl; (split; [done|]);
      by rewrite ?String.eqb_refl.
Qed.

End StreamMore.

Lemma submitQuery_without_stream_witness :
  (GeminiAgent.resolve_prompt_id
     {| GeminiAgent.getSessionId := Throw (Error "no config");
        GeminiAgent.getPromptCount := "0";
        GeminiAgent.sendMessageStream := fun _ _ => Ok sample_run |} None
   = Throw (Error "no config"))
  /\ emitted_for "m1"
       (snd (GeminiAgent.submitQuery
               {| GeminiAgent.getSessionId := Throw (Error "no config");
                  GeminiAgent.getPromptCount := "0";
                  GeminiAgent.sendMessageStream := fun _ _ => Ok sample_run |}
               ["hello"] "m1" None))
     = [GeminiAgent.event "error" "no config" "m1"].
Proof.
  split; [reflexivity|].
  exact (proj2 (proj2 (proj2 (proj2 (submitQuery_without_stream
                  {| GeminiAgent.getSessionId := Throw (Error "no config");
                     GeminiAgent.getPromptCount := "0";
                     GeminiAgent.sendMessageStream := fun _ _ => Ok sample_run |}
                  ["hello"] "m1" None)))
           (Error "no config") (or_introl eq_refl))).
Defined.

(** ** More on the sendMessage provider *)

Section SendProvider.
Import conversationBridge.

Lemma sendMessage_delivered (t : AgentTask.t) (task_sendMessage : js_result unit) :
  sendMessage (Ok (Some t)) (Ok tt) task_sendMessage
  = if supported (AgentTask.type t) then
      match task_sendMessage with
      | Ok _ => Ok {| success := true; msg := None |}
      | Throw e => Ok {| success := false; msg := Some (message_or_string e) |}
      end
    else Ok {| success := false;
               msg := Some ("Unsupported task type: " +:+ AgentTask.type t) |}.
Proof.
  unfold sendMessage, supported. simpl.
  destruct (String.eqb (AgentTask.type t) "gemini");
    [|destruct (String.eqb (AgentTask.type t) "acp");
      [|destruct (String.eqb (AgentTask.type t) "codex")]];
    simpl; by destruct task_sendMessage.
Qed.

(** X18. The [sendMessage] provider rejects exactly when the rebuild of
    the task rejects, or a task was delivered and copying the files into its
    workspace fails; a failure of the task's own send is answered with a
    failure envelope that carries the message of the error; the answer is a
    success exactly when a task of a supported type was delivered and both
    the copy and the send succeeded. *)
Theorem sendMessage_failure_channels
    (rebuild : js_result (option AgentTask.t))
    (copyFiles task_sendMessage : js_result unit) :
  ((exists e, sendMessage rebuild copyFiles task_sendMessage = Throw e)
   <-> (exists e, rebuild = Throw e)
       \/ (exists t e, rebuild = Ok (Some t) /\ copyFiles = Throw e))
  /\ (forall e, rebuild = Throw e ->
        sendMessage rebuild copyFiles task_sendMessage = Throw e)
  /\ (forall t e,
        rebuild = Ok (Some t) -> supported (AgentTask.type t) = true ->
        copyFiles = Ok tt -> task_sendMessage = Throw e ->
        sendMessage rebuild copyFiles task_sendMessage
        = Ok {| success := false; msg := Some (message_or_string e) |})
  /\ (sendMessage rebuild copyFiles task_sendMessage = Ok {| success := true; msg := None |}
      <-> exists t, rebuild = Ok (Some t) /\ supported (AgentTask.type t) = true
                    /\ copyFiles = Ok tt /\ task_sendMessage = Ok tt).
Proof.
  split; [|split; [|split]].
  - split.
    + intros [e He]. destruct rebuild as [[t|]|er]; [|done|eauto].
      destruct copyFiles as [[]|ec]; [|eauto 6].
      rewrite sendMessage_delivered in He.
      by destruct (supported _), task_sendMessage.
    + intros [[e ->]|(t & e & -> & ->)]; by exists e.
  - by intros e ->.
  - intros t e -> Hs -> ->. by rewrite sendMessage_delivered, Hs.
  - split.
    + intros H. destruct rebuild as [[t|]|er]; [|done|done].
      destruct copyFiles as [[]|ec]; [|done].
      rewrite sendMessage_delivered in H.
      destruct (supported (AgentTask.type t)) eqn:Hs; [|done].
      destruct task_sendMessage as [[]|es]; [|done].
      by exists t.
    + intros (t & -> & Hs & -> & ->). by rewrite sendMessage_delivered, Hs.
Qed.

End SendProvider.

(** The rebuild rejects: so does the provider, with the same error. *)
Lemma sendMessage_failure_channels_witness :
  (Throw (Error "load failed") = Throw (Error "load failed") :> js_result (option AgentTask.t))
  /\ conversationBridge.sendMessage (Throw (Error "load failed")) (Ok tt) (Ok tt)
     = Throw (Error "load failed").
Proof.
  assert (H : Throw (Error "load failed") = Throw (Error "load failed")
              :> js_result (option AgentTask.t)) by reflexivity.
  split; [exact H|].
  exact (proj1 (proj2 (sendMessage_failure_channels (Throw (Error "load failed"))
                         (Ok tt) (Ok tt))) (Error "load failed") H).
Defined.

(** ** The welcome page: available models and the default model *)

Lemma cache_lookup_after
    (hasCap : Guid.IProvider -> string -> string -> option bool)
    (providers : list Guid.IProvider) (cache : gmap string (list string)) (key : string) :
  fold_left (fun cache provider => snd (Guid.getAvailableModels hasCap provider cache))
            providers cache !! key
  = match cache !! key with
    | Some cached => Some cached
    | None =>
        Guid.computeAvailableModels hasCap
          <$> find (fun q => String.eqb (Guid.cacheKey q) key) providers
    end.
Proof.
  revert cache. induction providers as [|p providers IH]; intros cache;
    cbn [fold_left find].
  - by destruct (cache !! key).
  - rewrite IH. unfold Guid.getAvailableModels.
    destruct (String.eqb (Guid.cacheKey p) key) eqn:Heq.
    + apply String.eqb_eq in Heq. subst key.
      destruct (cache !! Guid.cacheKey p) eqn:Hp; cbn [snd];
        [by rewrite Hp|by rewrite lookup_insert_eq].
    + apply String.eqb_neq in Heq.
      destruct (cache !! Guid.cacheKey p) eqn:Hp; cbn [snd];
        [done|by rewrite lookup_insert_ne].
Qed.

(** X19. [getAvailableModels] answers from its cache by the provider's id
    and model names alone: after any run of earlier calls, the answer for a
    provider is the list computed for the first provider called with the same
    id and model names, whatever the capabilities of the two are, and the
    provider's own list only when there was no such call. *)
Theorem getAvailableModels_answers_first_computation
    (hasSpecificModelCapability : Guid.IProvider -> string -> string -> option bool)
    (earlier : list Guid.IProvider) (provider : Guid.IProvider) :
  fst (Guid.getAvailableModels hasSpecificModelCapability provider
         (cache_after hasSpecificModelCapability earlier))
  = match find (fun q => String.eqb (Guid.cacheKey q) (Guid.cacheKey provider)) earlier with
    | Some first => Guid.computeAvailableModels hasSpecificModelCapability first
    | None => Guid.computeAvailableModels hasSpecificModelCapability provider
    end.
Proof.
  unfold Guid.getAvailableModels, cache_after.
  rewrite cache_lookup_after, lookup_empty.
  by destruct (find _ earlier).
Qed.

Lemma find_offers (u : string) (modelList : list Guid.IProvider) (q : Guid.IProvider) :
  In q modelList -> In u (Guid.p_model q) ->
  exists p, find (offers u) modelList = Some p
            /\ In p modelList /\ In u (Guid.p_model p).
Proof.
  intros Hq Hu.
  destruct (find (offers u) modelList) as [p|] eqn:Hfind.
  - apply find_some in Hfind as [Hin Hoff]. exists p. split; [done|split; [done|]].
    unfold offers in Hoff. apply existsb_exists in Hoff as (m & Hm & Heq).
    apply String.eqb_eq in Heq. by subst.
  - exfalso. pose proof (find_none _ _ Hfind q Hq) as Hno.
    unfold offers in Hno.
    assert (existsb (String.eqb u) (Guid.p_model q) = true) as Hyes.
    { apply existsb_exists. exists u. split; [done|apply String.eqb_refl]. }
    congruence.
Qed.

Lemma find_eqb_in (u : string) (models : list string) :
  In u models -> find (fun m => String.eqb m u) models = Some u.
Proof.
  induction models as [|m models IH]; simpl; [done|].
  intros [->|Hin].
  - by rewrite String.eqb_refl.
  - destruct (String.eqb_spec m u) as [->|_]; auto.
Qed.

(** X20. When some listed provider offers the stored default model, and
    this is not the empty name, [setDefaultModel] selects that model, on the
    first provider of the list that offers it. *)
Theorem setDefaultModel_keeps_stored_default
    (u : string) (modelList : list Guid.IProvider) (q : Guid.IProvider) :
  u <> EmptyString -> In q modelList -> In u (Guid.p_model q) ->
  exists p, Guid.setDefaultModel (Some u) modelList = Some (p, Some u)
            /\ find (offers u) modelList = Some p
            /\ In p modelList /\ In u (Guid.p_model p).
Proof.
  intros Hu Hq Hin.
  destruct (find_offers u modelList q Hq Hin) as (p & Hfind & Hp & Hup).
  exists p. split; [|done].
  unfold Guid.setDefaultModel. fold (offers u). rewrite Hfind.
  rewrite (find_eqb_in u _ Hup).
  destruct (String.eqb_spec u EmptyString) as [->|_]; done.
Qed.

Lemma setDefaultModel_keeps_stored_default_witness :
  let p := {| Guid.p_id := "a"; Guid.p_name := "A"; Guid.p_model := ["m1"];
              Guid.p_capabilities := [] |} in
  let q := {| Guid.p_id := "b"; Guid.p_name := "B"; Guid.p_model := ["m2"; "m3"];
              Guid.p_capabilities := [] |} in
  "m3" <> EmptyString /\ In q [p; q] /\ In "m3" (Guid.p_model q)
  /\ exists r, Guid.setDefaultModel (Some "m3") [p; q] = Some (r, Some "m3")
               /\ find (offers "m3") [p; q] = Some r
               /\ In r [p; q] /\ In "m3" (Guid.p_model r).
Proof.
  intros p q.
  assert (H1 : "m3" <> EmptyString) by discriminate.
  assert (H2 : In q [p; q]) by (simpl; auto).
  assert (H3 : In "m3" (Guid.p_model q)) by (simpl; auto).
  split; [exact H1|]. split; [exact H2|]. split; [exact H3|].
  exact (setDefaultModel_keeps_stored_default "m3" [p; q] q H1 H2 H3).
Defined.

(** ** The conversation list: timeline headers *)

Section Timeline.

Variable t : string -> string.
Variable diffDay : N -> nat.

Lemma format_label (time : N) :
  exists key, In key timeline_labels /\ ChatHistory.format t diffDay time = t key.
Proof.
  unfold ChatHistory.format, timeline_labels.
  destruct (Nat.eqb (diffDay time) 0); [eexists; split; [|reflexivity]; simpl; auto|].
  destruct (Nat.eqb (diffDay time) 1); [eexists; split; [|reflexivity]; simpl; auto|].
  destruct (Nat.ltb (diffDay time) 7); eexists; (split; [|reflexivity]); simpl; auto.
Qed.

Lemma headers_after (prev : N) (times : list N) :
  (forall key, In key timeline_labels -> t key <> EmptyString) ->
  prev <> 0%N -> Forall (fun time => time <> 0%N) times ->
  in_force (ChatHistory.format t diffDay prev)
           (ChatHistory.headers t diffDay (Some prev) times)
  = map (ChatHistory.format t diffDay) times
  /\ no_repeat (shown (ChatHistory.headers t diffDay (Some prev) times))
  /\ head (shown (ChatHistory.headers t diffDay (Some prev) times))
     <> Some (ChatHistory.format t diffDay prev).
Proof.
  intros Hlabels Hprev Htimes. revert prev Hprev.
  induction Htimes as [|time times Htime _ IH]; intros prev Hprev.
  - simpl. done.
  - destruct (IH time Htime) as (IH1 & IH2 & IH3).
    assert (ChatHistory.format t diffDay time <> EmptyString) as Hne.
    { destruct (format_label time) as (key & Hkey & ->). by apply Hlabels. }
    simpl. unfold ChatHistory.formatTimeline.
    assert (N.eqb prev 0 = false) as -> by by apply N.eqb_neq.
    simpl.
    destruct (String.eqb_spec (ChatHistory.format t diffDay time)
                (ChatHistory.format t diffDay prev)) as [Heq|Hdiff]; simpl.
    + rewrite <- Heq. rewrite IH1. done.
    + destruct (String.eqb_spec (ChatHistory.format t diffDay time) EmptyString)
        as [|_]; [done|]. simpl.
      rewrite IH1. split; [done|]. split; [|congruence].
      split; [|done].
      destruct (shown (ChatHistory.headers t diffDay (Some time) times)) as [|h hs] eqn:Hs;
        [done|]. simpl in IH3. congruence.
Qed.

(** X21. When the labels of the timeline are not empty and no conversation
    has a creation time of zero, every conversation of the rendered list
    stands under the header of its own period (the nearest header at or above
    it), and no header is repeated directly after itself. *)
Theorem timeline_headers_name_the_period (times : list N) :
  (forall key, In key timeline_labels -> t key <> EmptyString) ->
  Forall (fun time => time <> 0%N) times ->
  forall current,
    in_force current (ChatHistory.headers t diffDay None times)
    = map (ChatHistory.format t diffDay) times
    /\ no_repeat (shown (ChatHistory.headers t diffDay None times)).
Proof.
  intros Hlabels Htimes current.
  destruct Htimes as [|time times Htime Htimes]; [done|].
  destruct (headers_after time times Hlabels Htime Htimes) as (H1 & H2 & H3).
  assert (ChatHistory.format t diffDay time <> EmptyString) as Hne.
  { destruct (format_label time) as (key & Hkey & ->). by apply Hlabels. }
  simpl.
  destruct (String.eqb_spec (ChatHistory.format t diffDay time) EmptyString) as [|_];
    [done|]. simpl.
  rewrite H1. split; [done|]. split; [|done].
  destruct (shown (ChatHistory.headers t diffDay (Some time) times)) as [|h hs] eqn:Hs;
    [done|]. simpl in H3. congruence.
Qed.

End Timeline.

Lemma timeline_headers_name_the_period_witness :
  let t := fun key : string => key in
  let diffDay := fun time : N => (10 - N.to_nat time)%nat in
  (forall key, In key timeline_labels -> t key <> EmptyString)
  /\ Forall (fun time => time <> 0%N) [10%N; 10%N; 9%N; 2%N]
  /\ shown (ChatHistory.headers t diffDay None [10%N; 10%N; 9%N; 2%N])
     = ["conversation.history.today"; "conversation.history.yesterday";
        "conversation.history.earlier"]
  /\ no_repeat (shown (ChatHistory.headers t diffDay None [10%N; 10%N; 9%N; 2%N])).
Proof.
  intros t diffDay.
  assert (H1 : forall key, In key timeline_labels -> t key <> EmptyString).
  { intros key Hkey. simpl in Hkey.
    destruct Hkey as [<-|[<-|[<-|[<-|[]]]]]; discriminate. }
  assert (H2 : Forall (fun time => time <> 0%N) [10%N; 10%N; 9%N; 2%N]).
  { repeat constructor; discriminate. }
  split; [exact H1|]. split; [exact H2|]. split; [reflexivity|].
  exact (proj2 (timeline_headers_name_the_period t diffDay
                  [10%N; 10%N; 9%N; 2%N] H1 H2 EmptyString)).
Defined.
(** ** The send box: the listener on the response stream *)

Section SendBox.

Variable transformMessage : IResponseMessage -> option TMessage.
Variable conversation_id : string.

Lemma onResponse_other (st : GeminiSendBox.State) (ev : IResponseMessage) :
  for_conversation conversation_id ev = false ->
  GeminiSendBox.onResponse transformMessage conversation_id st ev = st.
Proof.
  unfold for_conversation, GeminiSendBox.onResponse. by intros ->.
Qed.

Lemma onResponse_added (st : GeminiSendBox.State) (ev : IResponseMessage) :
  GeminiSendBox.added (GeminiSendBox.onResponse transformMessage conversation_id st ev)
  = GeminiSendBox.added st
    ++ (if for_conversation conversation_id ev && is_content ev
        then [transformMessage ev] else []).
Proof.
  unfold for_conversation, is_content, GeminiSendBox.onResponse.
  destruct (bool_decide _); simpl; [|by rewrite app_nil_r].
  destruct (String.eqb (e_type ev) "thought"); simpl; [by rewrite app_nil_r|].
  destruct (String.eqb (e_type ev) "start"); simpl; [by rewrite app_nil_r|].
  destruct (String.eqb (e_type ev) "finish"); simpl; [by rewrite app_nil_r|done].
Qed.

(** X22. The send box of a conversation is blind to the events of other
    conversations: a run of events leaves it in the state that the events of
    its own conversation alone would; and the messages it adds are the
    transformed events of its conversation that are neither thoughts nor the
    start or finish of a turn, in the order of arrival. *)
Theorem sendbox_ignores_other_conversations
    (events : list IResponseMessage) (st : GeminiSendBox.State) :
  after_responses transformMessage conversation_id events st
  = after_responses transformMessage conversation_id
      (List.filter (for_conversation conversation_id) events) st
  /\ GeminiSendBox.added (after_responses transformMessage conversation_id events st)
     = GeminiSendBox.added st
       ++ map transformMessage
            (List.filter (fun ev => for_conversation conversation_id ev && is_content ev)
               events).
Proof.
  unfold after_responses. split.
  - revert st. induction events as [|ev events IH]; intros st; simpl; [done|].
    destruct (for_conversation conversation_id ev) eqn:Hev; simpl.
    + apply IH.
    + rewrite onResponse_other by done. apply IH.
  - revert st. induction events as [|ev events IH]; intros st; simpl.
    + by rewrite app_nil_r.
    + rewrite IH, onResponse_added.
      destruct (for_conversation conversation_id ev && is_content ev); simpl.
      * by rewrite <- app_assoc.
      * by rewrite app_nil_r.
Qed.

Lemma after_responses_quiet (later : list IResponseMessage) (st : GeminiSendBox.State) :
  Forall (fun ev => for_conversation conversation_id ev = true ->
                    e_type ev <> "start" /\ e_type ev <> "finish") later ->
  GeminiSendBox.running (after_responses transformMessage conversation_id later st)
  = GeminiSendBox.running st
  /\ (Forall (fun ev => for_conversation conversation_id ev = true ->
                        e_type ev <> "thought") later ->
      GeminiSendBox.thought (after_responses transformMessage conversation_id later st)
      = GeminiSendBox.thought st).
Proof.
  unfold after_responses. intros Hquiet. revert st.
  induction Hquiet as [|ev later Hev _ IH]; intros st; simpl; [done|].
  destruct (IH (GeminiSendBox.onResponse transformMessage conversation_id st ev))
    as [IHr IHt].
  assert (GeminiSendBox.running
            (GeminiSendBox.onResponse transformMessage conversation_id st ev)
          = GeminiSendBox.running st) as Hr.
  { unfold GeminiSendBox.onResponse, for_conversation in *.
    destruct (bool_decide _); simpl; [|done].
    destruct (Hev eq_refl) as [Hs Hf].
    apply String.eqb_neq in Hs, Hf. rewrite Hs, Hf.
    by destruct (String.eqb (e_type ev) "thought"). }
  split; [by rewrite IHr|].
  intros Hthought. inversion Hthought as [|? ? Hth Hrest]; subst.
  rewrite (IHt Hrest).
  unfold GeminiSendBox.onResponse, for_conversation in *.
  destruct (bool_decide _); simpl; [|done].
  destruct (Hev eq_refl) as [Hs Hf]. specialize (Hth eq_refl).
  apply String.eqb_neq in Hs, Hf, Hth. by rewrite Hs, Hf, Hth.
Qed.

(** X23. The send box shows a turn as running exactly when the last start
    or finish event of its conversation was a start; and after a finish that
    no thought of the conversation follows, the thought shown is the empty
    one. *)
Theorem sendbox_running_follows_last_turn_event
    (earlier later : list IResponseMessage) (ev : IResponseMessage)
    (st : GeminiSendBox.State) :
  for_conversation conversation_id ev = true ->
  e_type ev = "start" \/ e_type ev = "finish" ->
  Forall (fun ev => for_conversation conversation_id ev = true ->
                    e_type ev <> "start" /\ e_type ev <> "finish") later ->
  GeminiSendBox.running
    (after_responses transformMessage conversation_id (earlier ++ ev :: later) st)
  = String.eqb (e_type ev) "start"
  /\ (e_type ev = "finish" ->
      Forall (fun ev => for_conversation conversation_id ev = true ->
                        e_type ev <> "thought") later ->
      GeminiSendBox.thought
        (after_responses transformMessage conversation_id (earlier ++ ev :: later) st)
      = GeminiSendBox.NoThought).
Proof.
  intros Hfor Htype Hquiet.
  unfold after_responses. rewrite fold_left_app. cbn [fold_left].
  set (before := fold_left _ earlier st).
  destruct (after_responses_quiet later
              (GeminiSendBox.onResponse transformMessage conversation_id before ev) Hquiet)
    as [Hr Ht].
  unfold after_responses in Hr, Ht.
  split.
  - rewrite Hr. unfold GeminiSendBox.onResponse.
    unfold for_conversation in Hfor. rewrite Hfor. simpl.
    by destruct Htype as [-> | ->].
  - intros Hfinish Hthought. rewrite (Ht Hthought).
    unfold GeminiSendBox.onResponse.
    unfold for_conversation in Hfor. rewrite Hfor. simpl.
    by rewrite Hfinish.
Qed.

End SendBox.

Lemma sendbox_running_follows_last_turn_event_witness :
  let start := {| e_type := "start"; e_data := EmptyString; e_msg_id := "m1";
                  e_conversation_id := Some "c1" |} in
  let content := {| e_type := "content"; e_data := "hello"; e_msg_id := "m1";
                    e_conversation_id := Some "c1" |} in
  let foreign := {| e_type := "finish"; e_data := EmptyString; e_msg_id := "m2";
                    e_conversation_id := Some "c2" |} in
  let st := {| GeminiSendBox.running := false;
               GeminiSendBox.thought := GeminiSendBox.NoThought;
               GeminiSendBox.added := [] |} in
  for_conversation "c1" start = true
  /\ (e_type start = "start" \/ e_type start = "finish")
  /\ Forall (fun ev => for_conversation "c1" ev = true ->
                       e_type ev <> "start" /\ e_type ev <> "finish") [content; foreign]
  /\ GeminiSendBox.running
       (after_responses (fun _ => None) "c1" ([] ++ start :: [content; foreign]) st)
     = true.
Proof.
  intros start content foreign st.
  assert (H1 : for_conversation "c1" start = true) by reflexivity.
  assert (H2 : e_type start = "start" \/ e_type start = "finish") by (left; reflexivity).
  assert (H3 : Forall (fun ev => for_conversation "c1" ev = true ->
                                 e_type ev <> "start" /\ e_type ev <> "finish")
                      [content; foreign]).
  { constructor; [intros _; split; discriminate|].
    constructor; [intros Hc; vm_compute in Hc; discriminate|constructor]. }
  split; [exact H1|]. split; [exact H2|]. split; [exact H3|].
  exact (proj1 (sendbox_running_follows_last_turn_event (fun _ => None) "c1"
                  [] [content; foreign] start st H1 H2 H3)).
Defined.

(** ** Pull to refresh *)

Section Pull.

Variable number : Type.
Variable minus : number -> number -> number.
Variable reaches_threshold : number -> bool.
Variable zero : number.

Local Abbreviation handle := (PwaPullToRefresh.handle number minus reaches_threshold zero).
Local Abbreviation run := (PwaPullToRefresh.run number minus reaches_threshold zero).
Local Abbreviation counting :=
  (fun acc ev => let (st', reload) := handle (fst acc) ev in
                 (st', if reload then S (snd acc) else snd acc)).

Lemma run_from (events : list (PwaPullToRefresh.Event number))
    (st : PwaPullToRefresh.State number) (n : nat) :
  fold_left counting events (st, n)
  = (fst (run events st), n + snd (run events st))%nat.
Proof.
  unfold PwaPullToRefresh.run.
  revert st n. induction events as [|ev events IH]; intros st n; cbn [fold_left].
  - simpl. f_equal. lia.
  - cbn [fst snd]. destruct (handle st ev) as [st' reload].
    rewrite (IH st' (if reload then S n else n)), (IH st' (if reload then 1 else 0)%nat).
    cbn [fst snd]. f_equal. destruct reload; lia.
Qed.

Lemma run_app (first second : list (PwaPullToRefresh.Event number))
    (st : PwaPullToRefresh.State number) :
  run (first ++ second) st
  = (fst (run second (fst (run first st))),
     snd (run first st) + snd (run second (fst (run first st))))%nat.
Proof.
  unfold PwaPullToRefresh.run at 1. rewrite fold_left_app.
  fold (run first st). destruct (run first st) as [st1 n1]. apply run_from.
Qed.

Lemma run_cons (ev : PwaPullToRefresh.Event number)
    (events : list (PwaPullToRefresh.Event number)) (st : PwaPullToRefresh.State number) :
  run (ev :: events) st
  = (fst (run events (fst (handle st ev))),
     (if snd (handle st ev) then 1 else 0) + snd (run events (fst (handle st ev))))%nat.
Proof.
  unfold PwaPullToRefresh.run at 1. cbn [fold_left fst snd].
  destruct (handle st ev) as [st' reload]. apply run_from.
Qed.

Lemma run_moves (y0 d : number) (moves : list (number * list number)) :
  run (map (fun m => PwaPullToRefresh.TouchMove number (fst m :: snd m)) moves)
      {| PwaPullToRefresh.startY := y0; PwaPullToRefresh.deltaY := d;
         PwaPullToRefresh.tracking := true |}
  = ({| PwaPullToRefresh.startY := y0;
        PwaPullToRefresh.deltaY :=
          match last moves with Some m => minus (fst m) y0 | None => d end;
        PwaPullToRefresh.tracking := true |}, 0%nat).
Proof.
  revert d. induction moves as [|m moves IH]; intros d; [done|].
  cbn [map]. rewrite run_cons. cbn [PwaPullToRefresh.handle PwaPullToRefresh.tracking
    PwaPullToRefresh.startY negb fst snd]. rewrite IH. cbn [fst snd].
  destruct moves as [|m' moves]; [reflexivity|].
  change (last (m :: m' :: moves)) with (last (m' :: moves)).
  destruct (last (m' :: moves)) eqn:Hlast; [reflexivity|].
  by apply last_None in Hlast.
Qed.

Lemma run_untracked (events : list (PwaPullToRefresh.Event number))
    (st : PwaPullToRefresh.State number) :
  PwaPullToRefresh.tracking number st = false ->
  Forall begins_no_pull events ->
  run events st = (st, 0%nat).
Proof.
  intros Hst Hevents. revert st Hst.
  induction Hevents as [|ev events Hev _ IH]; intros st Hst; [done|].
  rewrite run_cons.
  assert (handle st ev = (st, false)) as ->.
  { destruct ev as [touches textInput atTop|touches|]; simpl.
    - destruct touches as [|y [|]]; [done| |done].
      destruct textInput; [done|]. destruct atTop; [|done]. by simpl in Hev.
    - by rewrite Hst.
    - by rewrite Hst. }
  cbn [fst snd]. by rewrite IH.
Qed.

(** X24. Pull to refresh reloads the page once at the end of a pull,
    exactly when the last move of the pull has reached the threshold below the
    point where the finger went down, whatever came before the pull; a pull
    without a move never reloads, zero being below the threshold; and after
    the finger is lifted nothing reloads until a new pull begins. *)
Theorem pull_reloads_by_last_move
    (st : PwaPullToRefresh.State number) (y0 : number)
    (moves : list (number * list number))
    (after : list (PwaPullToRefresh.Event number)) :
  reaches_threshold zero = false ->
  Forall begins_no_pull after ->
  snd (run (pull y0 moves ++ after) st)
  = match last moves with
    | Some m => if reaches_threshold (minus (fst m) y0) then 1%nat else 0%nat
    | None => 0%nat
    end.
Proof.
  intros Hzero Hafter. rewrite run_app. unfold pull at 2.
  assert (run (pull y0 moves) st
          = ({| PwaPullToRefresh.startY := y0;
                PwaPullToRefresh.deltaY :=
                  match last moves with Some m => minus (fst m) y0 | None => zero end;
                PwaPullToRefresh.tracking := false |},
             if reaches_threshold
                  (match last moves with Some m => minus (fst m) y0 | None => zero end)
             then 1%nat else 0%nat)) as Hpull.
  { unfold pull. rewrite run_cons.
    cbn [PwaPullToRefresh.handle negb fst snd].
    rewrite run_app, run_moves. cbn [fst snd].
    rewrite run_cons. cbn [PwaPullToRefresh.handle PwaPullToRefresh.tracking negb fst snd
      PwaPullToRefresh.startY PwaPullToRefresh.deltaY].
    unfold PwaPullToRefresh.run. cbn [fold_left fst snd]. f_equal. lia. }
  fold (pull y0 moves). rewrite Hpull. cbn [fst snd].
  rewrite run_untracked by done. cbn [snd].
  destruct (last moves) as [m|]; [lia|]. rewrite Hzero. lia.
Qed.

End Pull.

Lemma pull_reloads_by_last_move_witness :
  let st := PwaPullToRefresh.initial Z 0%Z in
  let after := [PwaPullToRefresh.TouchEnd Z; PwaPullToRefresh.TouchMove Z [500%Z]] in
  (70 <=? 0)%Z = false
  /\ Forall begins_no_pull after
  /\ snd (PwaPullToRefresh.run Z Z.sub (Z.leb 70) 0%Z
            (pull 100%Z [(120%Z, []); (171%Z, [300%Z])] ++ after) st) = 1%nat.
Proof.
  intros st after.
  assert (H1 : (70 <=? 0)%Z = false) by reflexivity.
  assert (H2 : Forall begins_no_pull after) by (repeat constructor).
  split; [exact H1|]. split; [exact H2|].
  exact (pull_reloads_by_last_move Z Z.sub (Z.leb 70) 0%Z st 100%Z
           [(120%Z, []); (171%Z, [300%Z])] after H1 H2).
Defined.
